(** * Skills Exchange: the exchange lifecycle, matching and messaging handlers

    A shallow embedding of [main/models.py], [main/views.py] and the
    [ExchangeAdmin] actions of [main/admin.py].

    Conventions of the embedding.
    - A table is the list of its rows, in the order the database returns
      them; every row carries its primary key.
    - A foreign key is the related row as the ORM loads it
      ([exchange.user1] is a [User]); two model instances are equal when
      their primary keys are, as Django's [Model.__eq__] has it.
    - Points in time ([DateTimeField], [timezone.now()]) are integers; a
      handler receives the time of the request as [now].
    - A handler is a function from the store and the request to a
      [Result]: the store after the request, the notices queued through
      [django.contrib.messages], and the response. *)

From Stdlib Require Import ZArith List Bool String Ascii Lia.
From Stdlib Require Import Sorted Permutation DecimalString.
Import ListNotations.

Local Open Scope string_scope.
Local Open Scope Z_scope.
Local Open Scope list_scope.

Local Notation "s1 +++ s2" := (String.append s1 s2)
  (at level 60, right associativity).

(** ** models.py *)

Record UserProfile := mkUserProfile {
  full_name : string;
  bio : string;
  location : string;
  certifications : option string
}.

(** [django.contrib.auth.models.User], with the columns the handlers use;
    [userprofile] is the reverse side of the one-to-one field. *)
Record User := mkUser {
  user_pk : Z;
  username : string;
  is_active : bool;
  is_staff : bool;
  is_superuser : bool;
  date_joined : Z;
  userprofile : option UserProfile
}.

Record Skill := mkSkill {
  skill_pk : Z;
  name : string;
  category_id : option Z
}.

Inductive Role := offer | seek.

Inductive Proficiency := beginner | intermediate | advanced | expert.

Record UserSkill := mkUserSkill {
  us_pk : Z;
  user : User;
  skill : Skill;
  role : Role;
  proficiency : Proficiency;
  experience_years : Z
}.

Inductive Status := pending | active | completed | dispute | cancelled.

Record Exchange := mkExchange {
  ex_pk : Z;
  user1 : User;
  user2 : User;
  skill1 : option Skill;
  skill2 : option Skill;
  status : Status;
  start_date : Z;
  end_date : option Z;
  notes : string;
  last_updated : Z;
  user1_completed : bool;
  user2_completed : bool;
  user1_completed_date : option Z;
  user2_completed_date : option Z;
  admin_approved : bool;
  admin_approved_date : option Z;
  admin_notes : string
}.

Record Message := mkMessage {
  msg_pk : Z;
  sender_id : Z;
  receiver_id : Z;
  content : string;
  timestamp : Z;
  is_read : bool
}.

Definition role_eqb (a b : Role) : bool :=
  match a, b with
  | offer, offer | seek, seek => true
  | _, _ => false
  end.

Definition status_eqb (a b : Status) : bool :=
  match a, b with
  | pending, pending | active, active | completed, completed
  | dispute, dispute | cancelled, cancelled => true
  | _, _ => false
  end.

(** [Model.__eq__]: same primary key. *)
Definition user_eqb (a b : User) : bool := user_pk a =? user_pk b.

(** [Exchange.both_users_completed] *)
Definition both_users_completed (self : Exchange) : bool :=
  user1_completed self && user2_completed self.

(** [Exchange.completion_status] *)
Definition completion_status (self : Exchange) : string :=
  if admin_approved self then "Admin Approved"
  else if both_users_completed self then "Awaiting Admin Approval"
  else if user1_completed self || user2_completed self then "Partially Complete"
  else "In Progress".

(** *** Assignments to the attributes of an [Exchange] instance *)

Definition set_status (v : Status) (e : Exchange) : Exchange :=
  mkExchange (ex_pk e) (user1 e) (user2 e) (skill1 e) (skill2 e) v
    (start_date e) (end_date e) (notes e) (last_updated e)
    (user1_completed e) (user2_completed e)
    (user1_completed_date e) (user2_completed_date e)
    (admin_approved e) (admin_approved_date e) (admin_notes e).

Definition set_last_updated (v : Z) (e : Exchange) : Exchange :=
  mkExchange (ex_pk e) (user1 e) (user2 e) (skill1 e) (skill2 e) (status e)
    (start_date e) (end_date e) (notes e) v
    (user1_completed e) (user2_completed e)
    (user1_completed_date e) (user2_completed_date e)
    (admin_approved e) (admin_approved_date e) (admin_notes e).

Definition set_user1_completed (v : bool) (e : Exchange) : Exchange :=
  mkExchange (ex_pk e) (user1 e) (user2 e) (skill1 e) (skill2 e) (status e)
    (start_date e) (end_date e) (notes e) (last_updated e)
    v (user2_completed e)
    (user1_completed_date e) (user2_completed_date e)
    (admin_approved e) (admin_approved_date e) (admin_notes e).

Definition set_user2_completed (v : bool) (e : Exchange) : Exchange :=
  mkExchange (ex_pk e) (user1 e) (user2 e) (skill1 e) (skill2 e) (status e)
    (start_date e) (end_date e) (notes e) (last_updated e)
    (user1_completed e) v
    (user1_completed_date e) (user2_completed_date e)
    (admin_approved e) (admin_approved_date e) (admin_notes e).

Definition set_user1_completed_date (v : option Z) (e : Exchange) : Exchange :=
  mkExchange (ex_pk e) (user1 e) (user2 e) (skill1 e) (skill2 e) (status e)
    (start_date e) (end_date e) (notes e) (last_updated e)
    (user1_completed e) (user2_completed e)
    v (user2_completed_date e)
    (admin_approved e) (admin_approved_date e) (admin_notes e).

Definition set_user2_completed_date (v : option Z) (e : Exchange) : Exchange :=
  mkExchange (ex_pk e) (user1 e) (user2 e) (skill1 e) (skill2 e) (status e)
    (start_date e) (end_date e) (notes e) (last_updated e)
    (user1_completed e) (user2_completed e)
    (user1_completed_date e) v
    (admin_approved e) (admin_approved_date e) (admin_notes e).

Definition set_admin_approved (v : bool) (e : Exchange) : Exchange :=
  mkExchange (ex_pk e) (user1 e) (user2 e) (skill1 e) (skill2 e) (status e)
    (start_date e) (end_date e) (notes e) (last_updated e)
    (user1_completed e) (user2_completed e)
    (user1_completed_date e) (user2_completed_date e)
    v (admin_approved_date e) (admin_notes e).

Definition set_admin_approved_date (v : option Z) (e : Exchange) : Exchange :=
  mkExchange (ex_pk e) (user1 e) (user2 e) (skill1 e) (skill2 e) (status e)
    (start_date e) (end_date e) (notes e) (last_updated e)
    (user1_completed e) (user2_completed e)
    (user1_completed_date e) (user2_completed_date e)
    (admin_approved e) v (admin_notes e).

(** ** The store *)

Record DB := mkDB {
  users : list User;
  user_skills : list UserSkill;
  exchanges : list Exchange;
  messages : list Message
}.

Definition with_users (db : DB) (v : list User) : DB :=
  mkDB v (user_skills db) (exchanges db) (messages db).

Definition with_exchanges (db : DB) (v : list Exchange) : DB :=
  mkDB (users db) (user_skills db) v (messages db).

Definition with_messages (db : DB) (v : list Message) : DB :=
  mkDB (users db) (user_skills db) (exchanges db) v.

(** A key an auto-incrementing primary key column can hand out next: one
    above every stored key.  The database may hand out a greater one (it
    does not reuse the key of a deleted row); what the handlers rely on
    is that the key is not a stored one. *)
Definition next_pk (pks : list Z) : Z := 1 + fold_right Z.max 0 pks.

(** [exchange.save()]: the row with the instance's primary key is
    overwritten by the instance; [last_updated] is [auto_now]. *)
Definition Exchange_save (now : Z) (e : Exchange) (db : DB) : DB :=
  with_exchanges db
    (map (fun row => if ex_pk row =? ex_pk e then set_last_updated now e else row)
         (exchanges db)).

(** [Exchange.objects.create(user1=, user2=, skill1=, skill2=, status=,
    notes=)]: the other columns take their defaults, [start_date] is
    [auto_now_add]. *)
Definition Exchange_create (now : Z) (u1 u2 : User) (s1 s2 : option Skill)
    (st : Status) (nt : string) (db : DB) : DB :=
  with_exchanges db
    (exchanges db ++
     [mkExchange (next_pk (map ex_pk (exchanges db))) u1 u2 s1 s2 st
        now None nt now false false None None false None ""]).

(** [queryset.update(...)] over the rows a predicate selects; [update]
    does not touch [auto_now] columns. *)
Definition Exchange_update (sel : Exchange -> bool) (f : Exchange -> Exchange)
    (db : DB) : DB :=
  with_exchanges db (map (fun row => if sel row then f row else row) (exchanges db)).

(** ** Requests, notices and responses *)

Inductive Method := GET | POST | OTHER.

Record Request := mkRequest {
  req_user : option User;          (* [None]: anonymous *)
  method : Method;
  POST_data : list (string * string)
}.

Inductive Level := SUCCESS | INFO | ERROR.

Record Notice := mkNotice { level : Level; text : string }.

(** [QueryDict.get(key)] on the pairs of the body, in the order they were
    sent: the last value given for the key, [None] when the key is absent. *)
Fixpoint QueryDict_get (d : list (string * string)) (key : string) : option string :=
  match d with
  | [] => None
  | (k, v) :: d' =>
      match QueryDict_get d' key with
      | Some v' => Some v'
      | None => if String.eqb k key then Some v else None
      end
  end.

(** Truth value of a Python [str]. *)
Definition truthy (s : string) : bool :=
  match s with EmptyString => false | _ => true end.

(** The name the templates and notices show for a user. *)
Definition display_name (u : User) : string :=
  match userprofile u with
  | Some p => if truthy (full_name p) then full_name p else username u
  | None => username u
  end.

Definition str_of_Z (z : Z) : string := NilZero.string_of_int (Z.to_int z).

(** What the templates receive. *)
Record Conversation := mkConversation {
  conv_user : User;
  last_message : option Message;
  unread_count : Z
}.

Record Match := mkMatch {
  initials : string;
  match_name : string;
  match_user_id : Z;
  match_offer : string;
  match_want : string
}.

Inductive Context :=
| MessagesContext (conversations : list Conversation)
    (selected_user : option User) (messages_list : list Message)
| ProposeContext (other_user_skill : UserSkill)
    (my_offered_skills : list UserSkill).

Inductive Response :=
| Redirect (to : string) (arg : option Z)
| Render (template : string) (context : Context)
| Http404            (* [get_object_or_404] found no row *)
| Http405            (* [require_POST] on another method *)
| Http500            (* an uncaught exception *)
| RedirectToLogin.   (* [login_required], [staff_member_required] *)

Record Result := mkResult {
  res_db : DB;
  res_notices : list Notice;
  res_response : Response
}.

(** *** Decorators *)

Definition login_required (db : DB) (request : Request)
    (view : User -> Result) : Result :=
  match req_user request with
  | Some u => view u
  | None => mkResult db [] RedirectToLogin
  end.

Definition staff_member_required (db : DB) (request : Request)
    (view : User -> Result) : Result :=
  match req_user request with
  | Some u => if is_active u && is_staff u then view u
              else mkResult db [] RedirectToLogin
  | None => mkResult db [] RedirectToLogin
  end.

Definition require_POST (db : DB) (request : Request) (view : Result) : Result :=
  match method request with
  | POST => view
  | _ => mkResult db [] Http405
  end.

(** [queryset.first()] of a query without an ordering: the row with the
    least primary key. *)
Fixpoint first_by_pk {A : Type} (pk : A -> Z) (rows : list A) : option A :=
  match rows with
  | [] => None
  | r :: rows' =>
      match first_by_pk pk rows' with
      | Some r' => if pk r' <? pk r then Some r' else Some r
      | None => Some r
      end
  end.

(** ** views.py: the exchange lifecycle *)

(** [admin_approve_exchange] *)
Definition admin_approve_exchange (now : Z) (db : DB) (request : Request)
    (exchange_id : Z) : Result :=
  staff_member_required db request (fun _ =>
  require_POST db request
    match find (fun e => ex_pk e =? exchange_id) (exchanges db) with
    | None => mkResult db [] Http404
    | Some exchange =>
        if negb (both_users_completed exchange) then
          mkResult db
            [mkNotice ERROR
               "Cannot approve: Both users must complete their parts first."]
            (Redirect "admin_exchanges" None)
        else if admin_approved exchange then
          mkResult db
            [mkNotice INFO "This exchange has already been approved."]
            (Redirect "admin_exchanges" None)
        else
          let exchange := set_admin_approved true exchange in
          let exchange := set_admin_approved_date (Some now) exchange in
          let exchange := set_status completed exchange in
          mkResult (Exchange_save now exchange db)
            [mkNotice SUCCESS
               ("Exchange between " +++ username (user1 exchange) +++ " and "
                +++ username (user2 exchange)
                +++ " has been approved and marked as completed!")]
            (Redirect "admin_exchanges" None)
    end).

(** [start_exchange] *)
Definition start_exchange (now : Z) (db : DB) (request : Request)
    (user_id skill_id : Z) : Result :=
  login_required db request (fun current_user =>
    match find (fun us => (us_pk us =? skill_id) && (user_pk (user us) =? user_id))
               (user_skills db) with
    | None => mkResult db [] Http404
    | Some other_user_skill =>
        match first_by_pk us_pk
                (filter (fun us => user_eqb (user us) current_user
                                   && role_eqb (role us) offer)
                        (user_skills db)) with
        | None =>
            mkResult db
              [mkNotice ERROR
                 "You must add a skill you can offer before starting an exchange."]
              (Redirect "dashboard" None)
        | Some teach_skill =>
            mkResult
              (Exchange_create now current_user (user other_user_skill)
                 (Some (skill teach_skill)) (Some (skill other_user_skill))
                 pending "" db)
              [mkNotice SUCCESS
                 ("Exchange request sent to "
                  +++ username (user other_user_skill) +++ "!")]
              (Redirect "dashboard" None)
        end
    end).

(** [accept_exchange].  The notice reads [exchange.skill1.name] after the
    save; [skill1] is nullable ([on_delete=SET_NULL]), and on [None] the
    attribute access raises. *)
Definition accept_exchange (now : Z) (db : DB) (request : Request)
    (exchange_id : Z) : Result :=
  login_required db request (fun request_user =>
    match find (fun e => (ex_pk e =? exchange_id)
                         && user_eqb (user2 e) request_user
                         && status_eqb (status e) pending)
               (exchanges db) with
    | None => mkResult db [] Http404
    | Some exchange =>
        let exchange := set_status active exchange in
        let db' := Exchange_save now exchange db in
        match skill1 exchange with
        | None => mkResult db' [] Http500
        | Some s1 =>
            mkResult db'
              [mkNotice SUCCESS
                 ("Exchange accepted! You can now start learning " +++ name s1
                  +++ " from " +++ display_name (user1 exchange) +++ ".")]
              (Redirect "dashboard" None)
        end
    end).

(** [reject_exchange] *)
Definition reject_exchange (now : Z) (db : DB) (request : Request)
    (exchange_id : Z) : Result :=
  login_required db request (fun request_user =>
    match find (fun e => (ex_pk e =? exchange_id)
                         && user_eqb (user2 e) request_user
                         && status_eqb (status e) pending)
               (exchanges db) with
    | None => mkResult db [] Http404
    | Some exchange =>
        let exchange := set_status cancelled exchange in
        mkResult (Exchange_save now exchange db)
          [mkNotice INFO "Exchange proposal declined."]
          (Redirect "dashboard" None)
    end).

Definition marked_complete_text : string :=
  "Your part of the exchange is marked as complete! "
  +++ "Once the other user also marks their part complete, "
  +++ "an admin will review and approve it.".

Definition awaiting_admin_text : string :=
  "Both users have completed their parts! "
  +++ "Waiting for admin approval to finalize this exchange.".

(** The notice [mark_exchange_complete] adds last, from the instance as
    the branches left it. *)
Definition awaiting_admin_notice (exchange : Exchange) : list Notice :=
  if both_users_completed exchange && negb (admin_approved exchange)
  then [mkNotice INFO awaiting_admin_text] else [].

(** [mark_exchange_complete] *)
Definition mark_exchange_complete (now : Z) (db : DB) (request : Request)
    (exchange_id : Z) : Result :=
  login_required db request (fun user =>
  require_POST db request
    match find (fun e => (user_eqb (user1 e) user || user_eqb (user2 e) user)
                         && (ex_pk e =? exchange_id)
                         && status_eqb (status e) active)
               (exchanges db) with
    | None => mkResult db [] Http404
    | Some exchange =>
        let is_user1 := user_eqb user (user1 exchange) in
        if is_user1 && negb (user1_completed exchange) then
          let exchange := set_user1_completed true exchange in
          let exchange := set_user1_completed_date (Some now) exchange in
          mkResult (Exchange_save now exchange db)
            (mkNotice SUCCESS marked_complete_text :: awaiting_admin_notice exchange)
            (Redirect "exchanges" None)
        else if negb is_user1 && negb (user2_completed exchange) then
          let exchange := set_user2_completed true exchange in
          let exchange := set_user2_completed_date (Some now) exchange in
          mkResult (Exchange_save now exchange db)
            (mkNotice SUCCESS marked_complete_text :: awaiting_admin_notice exchange)
            (Redirect "exchanges" None)
        else
          mkResult db
            (mkNotice INFO "You've already marked this exchange as complete."
             :: awaiting_admin_notice exchange)
            (Redirect "exchanges" None)
    end).

Section ProposeFlow.

(** Python's [int] on the posted primary key, as the ORM applies it to a
    lookup value for [id]; [None] when it raises [ValueError]. *)
Variable int : string -> option Z.

(** [propose_exchange_view] *)
Definition propose_exchange_view (now : Z) (db : DB) (request : Request)
    (user_skill_id : Z) : Result :=
  login_required db request (fun request_user =>
    match find (fun us => (us_pk us =? user_skill_id) && role_eqb (role us) offer)
               (user_skills db) with
    | None => mkResult db [] Http404
    | Some other_user_skill =>
        if user_eqb (user other_user_skill) request_user then
          mkResult db
            [mkNotice ERROR "You cannot propose an exchange with yourself!"]
            (Redirect "marketplace" None)
        else
          let my_offered_skills :=
            filter (fun us => user_eqb (user us) request_user
                              && role_eqb (role us) offer)
                   (user_skills db) in
          match method request with
          | POST =>
              let my_skill_id := QueryDict_get (POST_data request) "my_skill" in
              let notes :=
                match QueryDict_get (POST_data request) "notes" with
                | Some v => v
                | None => ""
                end in
              match my_skill_id with
              | None | Some EmptyString =>
                  mkResult db
                    [mkNotice ERROR "Please select a skill you want to offer."]
                    (Redirect "propose_exchange" (Some user_skill_id))
              | Some my_skill_id =>
                  match int my_skill_id with
                  | None => mkResult db [] Http500
                  | Some k =>
                      match find (fun us => (us_pk us =? k)
                                            && user_eqb (user us) request_user
                                            && role_eqb (role us) offer)
                                 (user_skills db) with
                      | None => mkResult db [] Http404
                      | Some my_skill =>
                          mkResult
                            (Exchange_create now request_user
                               (user other_user_skill)
                               (Some (skill my_skill))
                               (Some (skill other_user_skill))
                               pending notes db)
                            [mkNotice SUCCESS
                               ("Exchange proposal sent to "
                                +++ display_name (user other_user_skill)
                                +++ "!")]
                            (Redirect "dashboard" None)
                      end
                  end
              end
          | _ =>
              mkResult db []
                (Render "propose_exchange.html"
                   (ProposeContext other_user_skill my_offered_skills))
          end
    end).

End ProposeFlow.

(** ** admin.py: the actions of [ExchangeAdmin]

    An action receives the queryset of the rows ticked in the change list,
    given here by their primary keys, and reports through [message_user]
    (level [INFO]). *)

Definition in_queryset (selected : list Z) (e : Exchange) : bool :=
  existsb (Z.eqb (ex_pk e)) selected.

(** [ExchangeAdmin.approve_exchanges] *)
Definition approve_exchanges (now : Z) (db : DB) (selected : list Z)
    : DB * list Notice :=
  let '(db', updated) :=
    fold_left
      (fun '(db, updated) exchange =>
         if both_users_completed exchange && negb (admin_approved exchange) then
           let exchange := set_admin_approved true exchange in
           let exchange := set_admin_approved_date (Some now) exchange in
           let exchange := set_status completed exchange in
           (Exchange_save now exchange db, updated + 1)
         else (db, updated))
      (filter (in_queryset selected) (exchanges db))
      (db, 0) in
  (db',
   [mkNotice INFO
      ("Successfully approved " +++ str_of_Z updated
       +++ " exchange(s). Only exchanges where both users completed were approved.")]).

(** [ExchangeAdmin.mark_pending_approval] *)
Definition mark_pending_approval (db : DB) (selected : list Z)
    : DB * list Notice :=
  let sel e := in_queryset selected e && user1_completed e && user2_completed e
               && negb (admin_approved e) in
  let updated := Z.of_nat (List.length (filter sel (exchanges db))) in
  (Exchange_update sel (set_status active) db,
   [mkNotice INFO
      ("Marked " +++ str_of_Z updated +++ " exchange(s) as pending admin approval.")]).

(** [ExchangeAdmin.reset_completion] *)
Definition reset_completion (db : DB) (selected : list Z) : DB * list Notice :=
  let updated := Z.of_nat (List.length (filter (in_queryset selected) (exchanges db))) in
  (Exchange_update (in_queryset selected)
     (fun e =>
        set_admin_approved_date None
          (set_admin_approved false
             (set_user2_completed_date None
                (set_user1_completed_date None
                   (set_user2_completed false
                      (set_user1_completed false e))))))
     db,
   [mkNotice INFO
      ("Reset completion status for " +++ str_of_Z updated +++ " exchange(s).")]).

(** ** views.py: user administration *)

Definition set_is_staff (v : bool) (u : User) : User :=
  mkUser (user_pk u) (username u) (is_active u) v (is_superuser u)
    (date_joined u) (userprofile u).

Definition set_is_superuser (v : bool) (u : User) : User :=
  mkUser (user_pk u) (username u) (is_active u) (is_staff u) v
    (date_joined u) (userprofile u).

Definition set_user (v : User) (us : UserSkill) : UserSkill :=
  mkUserSkill (us_pk us) v (skill us) (role us) (proficiency us)
    (experience_years us).

Definition set_users (v1 v2 : User) (e : Exchange) : Exchange :=
  mkExchange (ex_pk e) v1 v2 (skill1 e) (skill2 e) (status e)
    (start_date e) (end_date e) (notes e) (last_updated e)
    (user1_completed e) (user2_completed e)
    (user1_completed_date e) (user2_completed_date e)
    (admin_approved e) (admin_approved_date e) (admin_notes e).

(** [user.save()]: the row with the instance's primary key is overwritten
    by the instance.  The rows of the other tables hold the user's key
    only, so every user the ORM loads through them afterwards is the
    saved one. *)
Definition User_save (u : User) (db : DB) : DB :=
  let saved row := if user_pk row =? user_pk u then u else row in
  mkDB
    (map (fun row => if user_pk row =? user_pk u then u else row) (users db))
    (map (fun us => set_user (saved (user us)) us) (user_skills db))
    (map (fun e => set_users (saved (user1 e)) (saved (user2 e)) e)
         (exchanges db))
    (messages db).

(** [admin_toggle_staff] *)
Definition admin_toggle_staff (db : DB) (request : Request) (user_id : Z)
    : Result :=
  staff_member_required db request (fun request_user =>
  require_POST db request
    match find (fun u => user_pk u =? user_id) (users db) with
    | None => mkResult db [] Http404
    | Some user_to_toggle =>
        if user_eqb user_to_toggle request_user then
          mkResult db
            [mkNotice ERROR "You cannot change your own staff status!"]
            (Redirect "admin_users" None)
        else
          let user_to_toggle :=
            set_is_staff (negb (is_staff user_to_toggle)) user_to_toggle in
          let user_to_toggle :=
            set_is_superuser (is_staff user_to_toggle) user_to_toggle in
          let status := if is_staff user_to_toggle then "Admin" else "Regular User" in
          mkResult (User_save user_to_toggle db)
            [mkNotice SUCCESS
               ("User '" +++ username user_to_toggle +++ "' is now a "
                +++ status +++ ".")]
            (Redirect "admin_users" None)
    end).

(** ** views.py: messaging *)

(** Whitespace as [str.strip] sees it, on the code points below 256. *)
Definition is_space (c : ascii) : bool :=
  let n := N_of_ascii c in
  (((9 <=? n) && (n <=? 13)) || ((28 <=? n) && (n <=? 32))
   || (n =? 133) || (n =? 160))%N.

Fixpoint lstrip (s : string) : string :=
  match s with
  | EmptyString => EmptyString
  | String c s' => if is_space c then lstrip s' else s
  end.

Fixpoint rstrip (s : string) : string :=
  match s with
  | EmptyString => EmptyString
  | String c s' =>
      match rstrip s' with
      | EmptyString => if is_space c then EmptyString else String c EmptyString
      | r => String c r
      end
  end.

(** [str.strip()] *)
Definition strip (s : string) : string := rstrip (lstrip s).

Section StableSort.

Context {A : Type} (le : A -> A -> bool).

Fixpoint insert_sorted (x : A) (l : list A) : list A :=
  match l with
  | [] => [x]
  | y :: l' => if le x y then x :: l else y :: insert_sorted x l'
  end.

(** A stable sort: of two rows neither of which must come first, the one
    that came first stays first. *)
Definition sort_by (l : list A) : list A := fold_right insert_sorted [] l.

End StableSort.

(** [Message.objects]: [Meta.ordering = ["timestamp"]]. *)
Definition Message_objects (db : DB) : list Message :=
  sort_by (fun a b => timestamp a <=? timestamp b) (messages db).

Definition mem (x : Z) (l : list Z) : bool := existsb (Z.eqb x) l.

(** [max(iterable, key=..., default=None)]: the first greatest element. *)
Definition max_by {A : Type} (key : A -> Z) (l : list A) : option A :=
  match l with
  | [] => None
  | x :: l' =>
      Some (fold_left (fun best y => if key best <? key y then y else best) l' x)
  end.

Definition sum (l : list Z) : Z := fold_right Z.add 0 l.

(** [{user.id: user for user in conversation_users}] and [dict.get]: a
    later row with the same key replaces an earlier one. *)
Definition user_map_of (rows : list User) : list (Z * User) :=
  fold_left (fun m u => (user_pk u, u) :: m) rows [].

Fixpoint dict_get (m : list (Z * User)) (key : Z) : option User :=
  match m with
  | [] => None
  | (k, v) :: m' => if k =? key then Some v else dict_get m' key
  end.

(** [conversation_user_ids]: the ids of the set, each once.  Python
    iterates over a set in an order of its own; the order of this list
    stands for it, and only decides the order in which conversations with
    equal sort keys are listed. *)
Definition conversation_user_ids (db : DB) (current_user : User) : list Z :=
  let sent_to_ids :=
    nodup Z.eq_dec
      (map receiver_id
         (filter (fun m => sender_id m =? user_pk current_user)
                 (Message_objects db))) in
  let received_from_ids :=
    nodup Z.eq_dec
      (map sender_id
         (filter (fun m => receiver_id m =? user_pk current_user)
                 (Message_objects db))) in
  nodup Z.eq_dec (sent_to_ids ++ received_from_ids).

(** [all_messages] *)
Definition all_messages (db : DB) (current_user : User) : list Message :=
  let ids := conversation_user_ids db current_user in
  filter (fun m =>
            ((sender_id m =? user_pk current_user) && mem (receiver_id m) ids)
            || (mem (sender_id m) ids && (receiver_id m =? user_pk current_user)))
         (Message_objects db).

(** The body of the loop over [conversation_user_ids]; [None] is the
    [continue]. *)
Definition conversation_of (db : DB) (current_user : User) (uid : Z)
    : option Conversation :=
  let user_map :=
    user_map_of
      (filter (fun u => mem (user_pk u) (conversation_user_ids db current_user))
              (users db)) in
  match dict_get user_map uid with
  | None => None
  | Some other_user =>
      let user_messages :=
        filter (fun m =>
                  ((sender_id m =? user_pk current_user) && (receiver_id m =? uid))
                  || ((sender_id m =? uid) && (receiver_id m =? user_pk current_user)))
               (all_messages db current_user) in
      let last_message := max_by timestamp user_messages in
      let unread_count :=
        sum (map (fun _ => 1)
               (filter (fun m => (sender_id m =? uid)
                                 && (receiver_id m =? user_pk current_user)
                                 && negb (is_read m))
                       user_messages)) in
      Some (mkConversation other_user last_message unread_count)
  end.

Fixpoint collect {A B : Type} (f : A -> option B) (l : list A) : list B :=
  match l with
  | [] => []
  | x :: l' => match f x with
               | Some y => y :: collect f l'
               | None => collect f l'
               end
  end.

(** The key of [conversations.sort]. *)
Definition sort_key (x : Conversation) : Z :=
  match last_message x with
  | Some m => timestamp m
  | None => date_joined (conv_user x)
  end.

(** [conversations], after [conversations.sort(key=..., reverse=True)]. *)
Definition conversations_of (db : DB) (current_user : User) : list Conversation :=
  sort_by (fun x y => sort_key y <=? sort_key x)
    (collect (conversation_of db current_user)
       (conversation_user_ids db current_user)).

(** [Message.objects.filter(sender=selected_user, receiver=current_user,
    is_read=False).update(is_read=True)] *)
Definition mark_read (selected_user current_user : User) (db : DB) : DB :=
  with_messages db
    (map (fun m =>
            if (sender_id m =? user_pk selected_user)
               && (receiver_id m =? user_pk current_user)
               && negb (is_read m)
            then mkMessage (msg_pk m) (sender_id m) (receiver_id m)
                   (content m) (timestamp m) true
            else m)
         (messages db)).

(** [Message.objects.create(sender=, receiver=, content=)] *)
Definition Message_create (now : Z) (snd rcv : User) (c : string) (db : DB) : DB :=
  with_messages db
    (messages db ++
     [mkMessage (next_pk (map msg_pk (messages db))) (user_pk snd) (user_pk rcv)
        c now false]).

(** [messages_list] *)
Definition thread (db : DB) (current_user selected_user : User) : list Message :=
  filter (fun m =>
            ((sender_id m =? user_pk current_user)
             && (receiver_id m =? user_pk selected_user))
            || ((sender_id m =? user_pk selected_user)
                && (receiver_id m =? user_pk current_user)))
         (Message_objects db).

(** [messages_view]; [user_id] is [None] on the URL without a user. *)
Definition messages_view (now : Z) (db : DB) (request : Request)
    (user_id : option Z) : Result :=
  login_required db request (fun current_user =>
    let conversations := conversations_of db current_user in
    match user_id with
    | None | Some 0 =>
        mkResult db [] (Render "messages.html" (MessagesContext conversations None []))
    | Some uid =>
        match find (fun u => user_pk u =? uid) (users db) with
        | None => mkResult db [] Http404
        | Some selected_user =>
            let db1 := mark_read selected_user current_user db in
            let rendered :=
              mkResult db1 []
                (Render "messages.html"
                   (MessagesContext conversations (Some selected_user)
                      (thread db1 current_user selected_user))) in
            match method request with
            | POST =>
                let content :=
                  strip match QueryDict_get (POST_data request) "content" with
                        | Some v => v
                        | None => ""
                        end in
                if truthy content then
                  mkResult (Message_create now current_user selected_user content db1)
                    [] (Redirect "conversation" (Some uid))
                else rendered
            | _ => rendered
            end
        end
    end).

(** ** views.py: the matches of [dashboard_view] *)

Section DashboardMatches.

(** [str.upper] *)
Variable upper : string -> string.

(** [my_seeking_skills], [my_offering_skills]: the [skill_id] values. *)
Definition my_seeking_skills (db : DB) (user0 : User) : list Z :=
  map (fun us => skill_pk (skill us))
    (filter (fun us => user_eqb (user us) user0 && role_eqb (role us) seek)
            (user_skills db)).

Definition my_offering_skills (db : DB) (user0 : User) : list Z :=
  map (fun us => skill_pk (skill us))
    (filter (fun us => user_eqb (user us) user0 && role_eqb (role us) offer)
            (user_skills db)).

(** [potential_matches]: the first ten rows of the query. *)
Definition potential_matches (db : DB) (user0 : User) : list UserSkill :=
  firstn 10
    (filter (fun us => mem (skill_pk (skill us)) (my_seeking_skills db user0)
                       && role_eqb (role us) offer
                       && negb (user_eqb (user us) user0))
            (user_skills db)).

(** [their_seeking] *)
Definition their_seeking (db : DB) (user0 other_user : User) : option UserSkill :=
  first_by_pk us_pk
    (filter (fun us => user_eqb (user us) other_user
                       && role_eqb (role us) seek
                       && mem (skill_pk (skill us)) (my_offering_skills db user0))
            (user_skills db)).

Definition match_entry (match_skill their : UserSkill) : Match :=
  let other_user := user match_skill in
  let name0 := display_name other_user in
  let initials0 :=
    if (2 <=? String.length name0)%nat then upper (substring 0 2 name0)
    else upper (substring 0 1 name0) in
  mkMatch initials0 name0 (user_pk other_user)
    (name (skill match_skill)) (name (skill their)).

(** The loop over [potential_matches], with its [break]. *)
Fixpoint matches_loop (db : DB) (user0 : User) (rows : list UserSkill)
    (matches : list Match) : list Match :=
  match rows with
  | [] => matches
  | match_skill :: rows' =>
      match their_seeking db user0 (user match_skill) with
      | Some their =>
          let matches' := matches ++ [match_entry match_skill their] in
          if (3 <=? List.length matches')%nat then matches'
          else matches_loop db user0 rows' matches'
      | None => matches_loop db user0 rows' matches
      end
  end.

(** [matches], as [dashboard_view] puts it into the context. *)
Definition find_matches (db : DB) (user0 : User) : list Match :=
  match my_seeking_skills db user0, my_offering_skills db user0 with
  | _ :: _, _ :: _ => matches_loop db user0 (potential_matches db user0) []
  | _, _ => []
  end.

End DashboardMatches.

(** ** views.py: deleting a user *)

(** [user.delete()].  Every foreign key to [User] is [on_delete=CASCADE]:
    the user's profile, skills, exchanges (as [user1] or as [user2]) and
    messages (sent or received) go with the row. *)
Definition User_delete (u : User) (db : DB) : DB :=
  mkDB
    (filter (fun row => negb (user_pk row =? user_pk u)) (users db))
    (filter (fun us => negb (user_pk (user us) =? user_pk u)) (user_skills db))
    (filter (fun e => negb (user_pk (user1 e) =? user_pk u)
                      && negb (user_pk (user2 e) =? user_pk u))
            (exchanges db))
    (filter (fun m => negb (sender_id m =? user_pk u)
                      && negb (receiver_id m =? user_pk u))
            (messages db)).

(** [admin_delete_user] *)
Definition admin_delete_user (db : DB) (request : Request) (user_id : Z)
    : Result :=
  staff_member_required db request (fun request_user =>
  require_POST db request
    match find (fun u => user_pk u =? user_id) (users db) with
    | None => mkResult db [] Http404
    | Some user_to_delete =>
        if user_eqb user_to_delete request_user then
          mkResult db
            [mkNotice ERROR "You cannot delete your own account!"]
            (Redirect "admin_users" None)
        else
          let username0 := username user_to_delete in
          mkResult (User_delete user_to_delete db)
            [mkNotice SUCCESS
               ("User '" +++ username0 +++ "' has been deleted successfully.")]
            (Redirect "admin_users" None)
    end).

(** ** views.py: the offered skills of [marketplace_view] *)

(** The stored value of a [proficiency] choice. *)
Definition proficiency_value (p : Proficiency) : string :=
  match p with
  | beginner => "beginner"
  | intermediate => "intermediate"
  | advanced => "advanced"
  | expert => "expert"
  end.

Section Marketplace.

(** Python's [int] on the [category] parameter, [None] when it raises;
    [str.lower]; and the [iexact] lookup of the database. *)
Variable int : string -> option Z.
Variable lower : string -> string.
Variable iexact : string -> string -> bool.

(** A query parameter that is present, not empty, and not the word that
    switches the filter off. *)
Definition filter_value (param : option string) (off : string) : option string :=
  match param with
  | Some v => if truthy v && negb (String.eqb (lower v) off) then Some v else None
  | None => None
  end.

(** [offered_skills], as [marketplace_view] passes it to the template;
    [None] when the category is not a number and the lookup raises. *)
Definition offered_skills (db : DB) (request_user : User)
    (category level : option string) : option (list UserSkill) :=
  let offered :=
    filter (fun us => role_eqb (role us) offer
                      && negb (user_eqb (user us) request_user))
           (user_skills db) in
  let by_category :=
    match filter_value category "all" with
    | Some v =>
        match int v with
        | Some k =>
            Some (filter (fun us => match category_id (skill us) with
                                    | Some c => c =? k
                                    | None => false
                                    end)
                         offered)
        | None => None
        end
    | None => Some offered
    end in
  match by_category with
  | Some rows =>
      match filter_value level "any" with
      | Some v =>
          Some (filter (fun us => iexact (proficiency_value (proficiency us)) v)
                       rows)
      | None => Some rows
      end
  | None => None
  end.

End Marketplace.

(** ** views.py: [exchanges_view] *)

(** One [exchange_data] dictionary. *)
Record ExchangeData := mkExchangeData {
  xd_id : Z;
  xd_other_user : User;
  xd_other_user_name : string;
  xd_is_initiator : bool;
  xd_my_skill : option Skill;
  xd_their_skill : option Skill;
  xd_status : Status;
  xd_start_date : Z;
  xd_last_updated : Z;
  xd_notes : string;
  xd_my_completed : bool;
  xd_their_completed : bool;
  xd_admin_approved : bool;
  xd_completion_status : string
}.

(** The context of [exchanges.html]. *)
Record ExchangesContext := mkExchangesContext {
  pending_exchanges : list ExchangeData;
  active_exchanges : list ExchangeData;
  completed_exchanges : list ExchangeData;
  other_exchanges : list ExchangeData;
  total_count : Z
}.

(** [all_exchanges]: the user's exchanges, [order_by("-start_date")]. *)
Definition all_exchanges (db : DB) (u : User) : list Exchange :=
  sort_by (fun a b => start_date b <=? start_date a)
    (filter (fun e => user_eqb (user1 e) u || user_eqb (user2 e) u)
            (exchanges db)).

Definition exchange_data (u : User) (exchange : Exchange) : ExchangeData :=
  let other_user :=
    if user_eqb (user1 exchange) u then user2 exchange else user1 exchange in
  let is_initiator := user_eqb (user1 exchange) u in
  let my_completed :=
    if is_initiator then user1_completed exchange else user2_completed exchange in
  let their_completed :=
    if is_initiator then user2_completed exchange else user1_completed exchange in
  mkExchangeData (ex_pk exchange) other_user (display_name other_user)
    is_initiator
    (if is_initiator then skill1 exchange else skill2 exchange)
    (if is_initiator then skill2 exchange else skill1 exchange)
    (status exchange) (start_date exchange) (last_updated exchange)
    (notes exchange) my_completed their_completed (admin_approved exchange)
    (completion_status exchange).

(** The loop of [exchanges_view] over [all_exchanges]: each dictionary is
    appended to the list of its status. *)
Definition exchanges_loop (u : User) (rows : list Exchange)
    : list ExchangeData * list ExchangeData * list ExchangeData
      * list ExchangeData :=
  fold_left
    (fun '(pend, act, comp, other) exchange =>
       let d := exchange_data u exchange in
       match status exchange with
       | pending => (pend ++ [d], act, comp, other)
       | active => (pend, act ++ [d], comp, other)
       | completed => (pend, act, comp ++ [d], other)
       | _ => (pend, act, comp, other ++ [d])
       end)
    rows ([], [], [], []).

(** The context [exchanges_view] renders for an authenticated user. *)
Definition exchanges_context (db : DB) (u : User) : ExchangesContext :=
  let '(pend, act, comp, other) := exchanges_loop u (all_exchanges db u) in
  mkExchangesContext pend act comp other
    (Z.of_nat (List.length (all_exchanges db u))).

(** ** The operations that write [Exchange] rows *)

Inductive Op :=
| Start (request : Request) (user_id skill_id : Z)
| Propose (request : Request) (user_skill_id : Z)
| Accept (request : Request) (exchange_id : Z)
| Reject (request : Request) (exchange_id : Z)
| MarkComplete (request : Request) (exchange_id : Z)
| AdminApprove (request : Request) (exchange_id : Z)
| BulkApprove (selected : list Z)
| HoldForReview (selected : list Z)
| BulkReset (selected : list Z).

Definition apply_op (int : string -> option Z) (now : Z) (db : DB) (op : Op) : DB :=
  match op with
  | Start request user_id skill_id =>
      res_db (start_exchange now db request user_id skill_id)
  | Propose request user_skill_id =>
      res_db (propose_exchange_view int now db request user_skill_id)
  | Accept request exchange_id => res_db (accept_exchange now db request exchange_id)
  | Reject request exchange_id => res_db (reject_exchange now db request exchange_id)
  | MarkComplete request exchange_id =>
      res_db (mark_exchange_complete now db request exchange_id)
  | AdminApprove request exchange_id =>
      res_db (admin_approve_exchange now db request exchange_id)
  | BulkApprove selected => fst (approve_exchanges now db selected)
  | HoldForReview selected => fst (mark_pending_approval db selected)
  | BulkReset selected => fst (reset_completion db selected)
  end.

(** A history: each operation with the time of its request. *)
Fixpoint apply_ops (int : string -> option Z) (db : DB) (ops : list (Z * Op)) : DB :=
  match ops with
  | [] => db
  | (now, op) :: ops' => apply_ops int (apply_op int now db op) ops'
  end.

Definition empty_db : DB := mkDB [] [] [] [].

(** ** Properties stated by the specification *)

(** Admin approval implies both completion flags. *)
Definition approval_invariant (e : Exchange) : Prop :=
  admin_approved e = true ->
  user1_completed e = true /\ user2_completed e = true.

Definition db_invariant (db : DB) : Prop :=
  Forall approval_invariant (exchanges db).

(** The primary key of [Exchange] is unique. *)
Definition exchange_pk_unique (db : DB) : Prop :=
  NoDup (map ex_pk (exchanges db)).

(** The completion status as the specification words it: approved, else
    both complete, else exactly one complete, else neither. *)
Definition spec_completion_status (approved u1 u2 : bool) : string :=
  if approved then "Admin Approved"
  else if u1 && u2 then "Awaiting Admin Approval"
  else if xorb u1 u2 then "Partially Complete"
  else "In Progress".

(** The completion flag of the participant who calls. *)
Definition own_completed (u : User) (e : Exchange) : bool :=
  if user_eqb u (user1 e) then user1_completed e else user2_completed e.

(** The row [mark_exchange_complete] resolves for a caller. *)
Definition active_exchange_of (db : DB) (u : User) (exchange_id : Z)
    : option Exchange :=
  find (fun e => (user_eqb (user1 e) u || user_eqb (user2 e) u)
                 && (ex_pk e =? exchange_id)
                 && status_eqb (status e) active)
       (exchanges db).

(** The row [accept_exchange] and [reject_exchange] resolve for a caller. *)
Definition pending_exchange_for (db : DB) (u : User) (exchange_id : Z)
    : option Exchange :=
  find (fun e => (ex_pk e =? exchange_id)
                 && user_eqb (user2 e) u
                 && status_eqb (status e) pending)
       (exchanges db).

(** User [uid] lists skill [sk] under role [r]. *)
Definition lists_skill (db : DB) (r : Role) (uid sk : Z) : Prop :=
  exists us, In us (user_skills db) /\ user_pk (user us) = uid
             /\ role us = r /\ skill_pk (skill us) = sk.

(** A match of [u] is reciprocal: its counterpart is another user who
    offers a skill [u] seeks, the one the entry names as [offer], and seeks
    a skill [u] offers, the one the entry names as [want]. *)
Definition reciprocal_match (db : DB) (u : User) (m : Match) : Prop :=
  match_user_id m <> user_pk u
  /\ exists theirs_offered theirs_sought : UserSkill,
       In theirs_offered (user_skills db)
       /\ user_pk (user theirs_offered) = match_user_id m
       /\ role theirs_offered = offer
       /\ match_offer m = name (skill theirs_offered)
       /\ lists_skill db seek (user_pk u) (skill_pk (skill theirs_offered))
       /\ In theirs_sought (user_skills db)
       /\ user_pk (user theirs_sought) = match_user_id m
       /\ role theirs_sought = seek
       /\ match_want m = name (skill theirs_sought)
       /\ lists_skill db offer (user_pk u) (skill_pk (skill theirs_sought)).

(** The stored messages from [c] to [viewer] that are not read. *)
Definition unread_from (db : DB) (c viewer : Z) : list Message :=
  filter (fun m => (sender_id m =? c) && (receiver_id m =? viewer)
                   && negb (is_read m))
         (messages db).

(** The stored messages between [a] and [b], in either direction. *)
Definition between (a b : Z) (m : Message) : Prop :=
  (sender_id m = a /\ receiver_id m = b) \/ (sender_id m = b /\ receiver_id m = a).

(** The filter of [user_messages]: a message between the viewer and
    [uid], in either direction. *)
Definition pair_with (viewer : User) (uid : Z) (m : Message) : bool :=
  ((sender_id m =? user_pk viewer) && (receiver_id m =? uid))
  || ((sender_id m =? uid) && (receiver_id m =? user_pk viewer)).

(** The posted content after [strip]. *)
Definition posted_content (request : Request) : string :=
  strip match QueryDict_get (POST_data request) "content" with
        | Some v => v
        | None => ""
        end.

(** The test of [approve_exchanges] on a row, and the row it then
    stores: the three assignments, saved at [now]. *)
Definition ready_for_approval (e : Exchange) : bool :=
  both_users_completed e && negb (admin_approved e).

Definition approved_row (now : Z) (e : Exchange) : Exchange :=
  set_last_updated now
    (set_status completed
       (set_admin_approved_date (Some now) (set_admin_approved true e))).

(** The table once [approve_exchanges] has visited the rows with a key in
    [done], and one turn of its loop. *)
Definition approve_visited (now : Z) (done : list Z) (table : list Exchange)
    : list Exchange :=
  map (fun row => if mem (ex_pk row) done && ready_for_approval row
                  then approved_row now row else row)
      table.

Definition approve_step (now : Z) (acc : DB * Z) (exchange : Exchange) : DB * Z :=
  let '(db, updated) := acc in
  if both_users_completed exchange && negb (admin_approved exchange) then
    let exchange := set_admin_approved true exchange in
    let exchange := set_admin_approved_date (Some now) exchange in
    let exchange := set_status completed exchange in
    (Exchange_save now exchange db, updated + 1)
  else (db, updated).

(** ** A scenario

    Alice offers Guitar and seeks Chess; Bob offers Chess and seeks
    Guitar; a third account is staff. *)

Definition alice : User :=
  mkUser 1 "alice@example.com" true false false 100
    (Some (mkUserProfile "Alice" "" "" None)).

Definition bob : User := mkUser 2 "bob@example.com" true false false 200 None.

Definition staff : User := mkUser 3 "staff@example.com" true true true 50 None.

Definition guitar : Skill := mkSkill 1 "Guitar" None.

Definition chess : Skill := mkSkill 2 "Chess" None.

Definition db0 : DB :=
  mkDB [alice; bob; staff]
    [mkUserSkill 1 alice guitar offer advanced 5;
     mkUserSkill 2 bob guitar seek beginner 0;
     mkUserSkill 3 bob chess offer expert 9;
     mkUserSkill 4 alice chess seek beginner 0]
    [] [].

Definition post_as (u : User) (data : list (string * string)) : Request :=
  mkRequest (Some u) POST data.

Definition get_as (u : User) : Request := mkRequest (Some u) GET [].

(** A reading of decimal numerals for the posted key. *)
Definition decimal (s : string) : option Z :=
  option_map Z.of_int (NilZero.int_of_string s).

(** Upper case on the letters a to z. *)
Fixpoint upper_ascii (s : string) : string :=
  match s with
  | EmptyString => EmptyString
  | String c s' =>
      let n := N_of_ascii c in
      String (if ((97 <=? n) && (n <=? 122))%N then ascii_of_N (n - 32) else c)
             (upper_ascii s')
  end.

(** Alice proposes, Bob accepts, both mark complete, staff approves. *)
Definition lifecycle : list (Z * Op) :=
  [(10, Propose (post_as alice [("my_skill", "1"); ("notes", "hi")]) 3);
   (20, Accept (post_as bob []) 1);
   (30, MarkComplete (post_as alice []) 1);
   (40, MarkComplete (post_as bob []) 1);
   (50, AdminApprove (post_as staff []) 1)].

Definition db_after (n : nat) : DB := apply_ops decimal db0 (firstn n lifecycle).

(** The stored exchange after each step of [lifecycle]. *)
Definition exchange_pending : Exchange :=
  mkExchange 1 alice bob (Some guitar) (Some chess) pending 10 None "hi" 10
    false false None None false None "".

Definition exchange_active : Exchange :=
  set_last_updated 20 (set_status active exchange_pending).

Definition exchange_half : Exchange :=
  set_last_updated 30
    (set_user1_completed_date (Some 30) (set_user1_completed true exchange_active)).

Definition exchange_both : Exchange :=
  set_last_updated 40
    (set_user2_completed_date (Some 40) (set_user2_completed true exchange_half)).

(** Bob has written to Alice, who has not read it yet; Alice wrote to
    staff earlier. *)
Definition db_mail : DB :=
  with_messages db0
    [mkMessage 1 1 3 "hello staff" 5 true;
     mkMessage 2 2 1 "hello alice" 7 false].

Definition anonymous : Request := mkRequest None POST [].

(** * Proofs *)

(** ** Lists and tables *)

Lemma find_In {A : Type} (p : A -> bool) (l : list A) (x : A) :
  find p l = Some x -> In x l /\ p x = true.
Proof. apply find_some. Qed.

Lemma first_by_pk_In {A : Type} (pk : A -> Z) (rows : list A) (r : A) :
  first_by_pk pk rows = Some r -> In r rows.
Proof.
  revert r; induction rows as [|x rows IH]; simpl; intros r H.
  - discriminate.
  - destruct (first_by_pk pk rows) as [r'|].
    + destruct (pk r' <? pk x); injection H as <-; auto.
    + injection H as <-; auto.
Qed.

Lemma first_by_pk_None {A : Type} (pk : A -> Z) (rows : list A) :
  first_by_pk pk rows = None -> rows = [].
Proof.
  destruct rows as [|x rows]; simpl; [reflexivity|].
  destruct (first_by_pk pk rows) as [r'|]; [destruct (pk r' <? pk x)|]; discriminate.
Qed.

Lemma filter_filter_implied {A : Type} (f g : A -> bool) (l : list A) :
  (forall x, In x l -> f x = true -> g x = true) ->
  filter f (filter g l) = filter f l.
Proof.
  induction l as [|x l IH]; simpl; intros H; [reflexivity|].
  destruct (g x) eqn:Hg; simpl.
  - destruct (f x); rewrite IH; auto.
  - destruct (f x) eqn:Hf.
    + rewrite (H x (or_introl eq_refl) Hf) in Hg; discriminate.
    + apply IH; auto.
Qed.

Lemma pk_unique_eq {A : Type} (pk : A -> Z) (l : list A) (a b : A) :
  NoDup (map pk l) -> In a l -> In b l -> pk a = pk b -> a = b.
Proof.
  induction l as [|x l IH]; simpl; intros Hnd Ha Hb Hk; [contradiction|].
  inversion Hnd as [|? ? Hnotin Hnd']; subst.
  destruct Ha as [<-|Ha], Hb as [<-|Hb]; auto.
  - exfalso; apply Hnotin; rewrite Hk; apply in_map; assumption.
  - exfalso; apply Hnotin; rewrite <- Hk; apply in_map; assumption.
Qed.

Lemma next_pk_fresh (pks : list Z) (k : Z) : In k pks -> k < next_pk pks.
Proof.
  unfold next_pk. induction pks as [|x pks IH]; cbn [fold_right In]; intros Hin.
  - destruct Hin.
  - destruct Hin as [<-|Hin]; [lia|]. specialize (IH Hin). lia.
Qed.

(** ** The approval invariant (C1) *)

Lemma db_invariant_empty : db_invariant empty_db.
Proof. constructor. Qed.

Lemma set_last_updated_invariant (now : Z) (e : Exchange) :
  approval_invariant e -> approval_invariant (set_last_updated now e).
Proof. unfold approval_invariant; simpl; auto. Qed.

Lemma set_status_invariant (s : Status) (e : Exchange) :
  approval_invariant e -> approval_invariant (set_status s e).
Proof. unfold approval_invariant; simpl; auto. Qed.

Lemma Exchange_save_invariant (now : Z) (e : Exchange) (db : DB) :
  db_invariant db -> approval_invariant e ->
  db_invariant (Exchange_save now e db).
Proof.
  unfold db_invariant, Exchange_save; simpl; intros Hdb He.
  apply Forall_map. eapply Forall_impl; [|exact Hdb].
  intros row Hrow; simpl.
  destruct (ex_pk row =? ex_pk e); [apply set_last_updated_invariant|]; assumption.
Qed.

Lemma Exchange_create_invariant (now : Z) (u1 u2 : User) (s1 s2 : option Skill)
    (st : Status) (nt : string) (db : DB) :
  db_invariant db -> db_invariant (Exchange_create now u1 u2 s1 s2 st nt db).
Proof.
  unfold db_invariant, Exchange_create; simpl; intros Hdb.
  apply Forall_app; split; [assumption|].
  constructor; [|constructor].
  unfold approval_invariant; simpl; discriminate.
Qed.

Lemma Exchange_update_invariant (sel : Exchange -> bool)
    (f : Exchange -> Exchange) (db : DB) :
  (forall e, approval_invariant e -> approval_invariant (f e)) ->
  db_invariant db -> db_invariant (Exchange_update sel f db).
Proof.
  unfold db_invariant, Exchange_update; simpl; intros Hf Hdb.
  apply Forall_map. eapply Forall_impl; [|exact Hdb].
  intros row Hrow; simpl. destruct (sel row); auto.
Qed.

Lemma found_invariant (p : Exchange -> bool) (db : DB) (e : Exchange) :
  db_invariant db -> find p (exchanges db) = Some e -> approval_invariant e.
Proof.
  intros Hdb Hf. apply find_In in Hf as [Hin _].
  unfold db_invariant in Hdb. rewrite Forall_forall in Hdb. auto.
Qed.

Lemma approved_row_invariant (now : Z) (e : Exchange) :
  both_users_completed e = true ->
  approval_invariant
    (set_status completed
       (set_admin_approved_date (Some now) (set_admin_approved true e))).
Proof.
  unfold approval_invariant, both_users_completed; simpl; intros H _.
  apply andb_true_iff in H; exact H.
Qed.

Lemma start_exchange_invariant now db request user_id skill_id :
  db_invariant db ->
  db_invariant (res_db (start_exchange now db request user_id skill_id)).
Proof.
  intros Hdb. unfold start_exchange, login_required.
  destruct (req_user request); simpl; [|assumption].
  destruct (find _ (user_skills db)); simpl; [|assumption].
  destruct (first_by_pk _ _); simpl; [|assumption].
  apply Exchange_create_invariant; assumption.
Qed.

Lemma propose_exchange_view_invariant int now db request user_skill_id :
  db_invariant db ->
  db_invariant (res_db (propose_exchange_view int now db request user_skill_id)).
Proof.
  intros Hdb. unfold propose_exchange_view, login_required.
  destruct (req_user request); simpl; [|assumption].
  destruct (find _ (user_skills db)); simpl; [|assumption].
  destruct (user_eqb _ _); simpl; [assumption|].
  destruct (method request); simpl; try assumption.
  destruct (QueryDict_get (POST_data request) "my_skill") as [[|c s]|];
    simpl; try assumption.
  destruct (int _); simpl; [|assumption].
  destruct (find _ (user_skills db)); simpl; [|assumption].
  apply Exchange_create_invariant; assumption.
Qed.

Lemma accept_exchange_invariant now db request exchange_id :
  db_invariant db ->
  db_invariant (res_db (accept_exchange now db request exchange_id)).
Proof.
  intros Hdb. unfold accept_exchange, login_required.
  destruct (req_user request); simpl; [|assumption].
  destruct (find _ (exchanges db)) as [e|] eqn:Hf; simpl; [|assumption].
  assert (db_invariant (Exchange_save now (set_status active e) db)).
  { apply Exchange_save_invariant; [assumption|].
    apply set_status_invariant. eapply found_invariant; eassumption. }
  destruct (skill1 e); simpl; assumption.
Qed.

Lemma reject_exchange_invariant now db request exchange_id :
  db_invariant db ->
  db_invariant (res_db (reject_exchange now db request exchange_id)).
Proof.
  intros Hdb. unfold reject_exchange, login_required.
  destruct (req_user request); simpl; [|assumption].
  destruct (find _ (exchanges db)) as [e|] eqn:Hf; simpl; [|assumption].
  apply Exchange_save_invariant; [assumption|].
  apply set_status_invariant. eapply found_invariant; eassumption.
Qed.

Lemma mark_exchange_complete_invariant now db request exchange_id :
  db_invariant db ->
  db_invariant (res_db (mark_exchange_complete now db request exchange_id)).
Proof.
  intros Hdb. unfold mark_exchange_complete, login_required, require_POST.
  destruct (req_user request) as [u|]; simpl; [|assumption].
  destruct (method request); simpl; try assumption.
  destruct (find _ (exchanges db)) as [e|] eqn:Hf; simpl; [|assumption].
  pose proof (found_invariant _ _ _ Hdb Hf) as He.
  destruct (user_eqb u (user1 e) && negb (user1_completed e)); simpl.
  - apply Exchange_save_invariant; [assumption|].
    unfold approval_invariant in *; simpl; intros Ha.
    destruct (He Ha) as [_ H2]; auto.
  - destruct (negb (user_eqb u (user1 e)) && negb (user2_completed e)); simpl;
      [|assumption].
    apply Exchange_save_invariant; [assumption|].
    unfold approval_invariant in *; simpl; intros Ha.
    destruct (He Ha) as [H1 _]; auto.
Qed.

Lemma admin_approve_exchange_invariant now db request exchange_id :
  db_invariant db ->
  db_invariant (res_db (admin_approve_exchange now db request exchange_id)).
Proof.
  intros Hdb. unfold admin_approve_exchange, staff_member_required, require_POST.
  destruct (req_user request) as [u|]; simpl; [|assumption].
  destruct (is_active u && is_staff u); simpl; [|assumption].
  destruct (method request); simpl; try assumption.
  destruct (find _ (exchanges db)) as [e|] eqn:Hf; simpl; [|assumption].
  destruct (both_users_completed e) eqn:Hb; simpl; [|assumption].
  destruct (admin_approved e); simpl; [assumption|].
  apply Exchange_save_invariant; [assumption|].
  apply approved_row_invariant; assumption.
Qed.

Lemma approve_exchanges_invariant now db selected :
  db_invariant db -> db_invariant (fst (approve_exchanges now db selected)).
Proof.
  unfold approve_exchanges.
  generalize (filter (in_queryset selected) (exchanges db)) as rows.
  generalize 0 as updated.
  intros updated rows; revert db updated.
  induction rows as [|e rows IH]; intros db updated Hdb.
  - simpl; assumption.
  - simpl fold_left.
    destruct (both_users_completed e && negb (admin_approved e)) eqn:Hready.
    + specialize (IH (Exchange_save now
                        (set_status completed
                           (set_admin_approved_date (Some now)
                              (set_admin_approved true e))) db)
                     (updated + 1)).
      destruct (fold_left _ rows _) as [db' n'] eqn:Hfold.
      simpl in *. apply IH.
      apply Exchange_save_invariant; [assumption|].
      apply approved_row_invariant.
      apply andb_true_iff in Hready; tauto.
    + specialize (IH db updated Hdb).
      destruct (fold_left _ rows _) as [db' n'] eqn:Hfold.
      simpl in *. exact IH.
Qed.

Lemma mark_pending_approval_invariant db selected :
  db_invariant db -> db_invariant (fst (mark_pending_approval db selected)).
Proof.
  intros Hdb. unfold mark_pending_approval; simpl.
  apply Exchange_update_invariant; [|assumption].
  intros e; apply set_status_invariant.
Qed.

Lemma reset_completion_invariant db selected :
  db_invariant db -> db_invariant (fst (reset_completion db selected)).
Proof.
  intros Hdb. unfold reset_completion; simpl.
  apply Exchange_update_invariant; [|assumption].
  intros e _. unfold approval_invariant; simpl; discriminate.
Qed.

(** One case per operation, each closed by the lemma of its handler. *)
Ltac handler_invariant :=
  first
    [ apply start_exchange_invariant
    | apply propose_exchange_view_invariant
    | apply accept_exchange_invariant
    | apply reject_exchange_invariant
    | apply mark_exchange_complete_invariant
    | apply admin_approve_exchange_invariant
    | apply approve_exchanges_invariant
    | apply mark_pending_approval_invariant
    | apply reset_completion_invariant ];
  assumption.

(** C1.  Every operation that writes [Exchange] rows (the two ways to
    create one, accept, reject, mark complete, the admin approval, and the
    three bulk actions of the admin site) keeps the approval invariant: if
    in every stored row [admin_approved] implies both completion flags
    before the operation, it does so after it. *)
Theorem approval_invariant_preserved :
  forall (int : string -> option Z) (now : Z) (db : DB) (op : Op),
    db_invariant db -> db_invariant (apply_op int now db op).
Proof.
  intros int now db op Hdb; destruct op; simpl; handler_invariant.
Qed.

(** The invariant survives every history of operations, so it holds in
    every store they build from the empty one. *)
Lemma approval_invariant_history :
  forall (int : string -> option Z) (ops : list (Z * Op)) (db : DB),
    db_invariant db -> db_invariant (apply_ops int db ops).
Proof.
  intros int ops; induction ops as [|[now op] ops IH]; intros db Hdb; simpl.
  - assumption.
  - apply IH. destruct op; simpl; handler_invariant.
Qed.

(** ** The completion status (C2) *)

(** C2.  [completion_status] is a function of the triple
    ([admin_approved], [user1_completed], [user2_completed]) alone: it is
    the approved label when [admin_approved], else the awaiting label when
    both flags are set, else the partial label when exactly one is, else
    the in-progress label. *)
Theorem completion_status_spec :
  forall e : Exchange,
    completion_status e =
    spec_completion_status (admin_approved e) (user1_completed e)
      (user2_completed e).
Proof.
  intros e. unfold completion_status, spec_completion_status, both_users_completed.
  destruct (admin_approved e), (user1_completed e), (user2_completed e);
    reflexivity.
Qed.

Lemma completion_status_reads_only_flags (e e' : Exchange) :
  admin_approved e = admin_approved e' ->
  user1_completed e = user1_completed e' ->
  user2_completed e = user2_completed e' ->
  completion_status e = completion_status e'.
Proof.
  intros Ha H1 H2. rewrite !completion_status_spec, Ha, H1, H2. reflexivity.
Qed.

(** ** Saving and finding a row *)

Lemma status_eqb_eq (a b : Status) : status_eqb a b = true <-> a = b.
Proof. destruct a, b; simpl; split; intros H; try reflexivity; discriminate. Qed.

Lemma role_eqb_eq (a b : Role) : role_eqb a b = true <-> a = b.
Proof. destruct a, b; simpl; split; intros H; try reflexivity; discriminate. Qed.

(** After [save], a lookup that pins the primary key finds the saved
    instance, whenever the instance passes the filter of the lookup. *)
Lemma find_after_save (p : Exchange -> bool) (l : list Exchange)
    (e' : Exchange) (k : Z) :
  (forall x, p x = true -> ex_pk x = k) ->
  (exists e, In e l /\ ex_pk e = k) ->
  ex_pk e' = k -> p e' = true ->
  find p (map (fun row => if ex_pk row =? ex_pk e' then e' else row) l) = Some e'.
Proof.
  intros Hp Hex Hk He'. induction l as [|h l IH].
  - destruct Hex as [e [[] _]].
  - simpl. destruct (ex_pk h =? ex_pk e') eqn:Hh.
    + rewrite He'. reflexivity.
    + destruct (p h) eqn:Hph.
      * apply Hp in Hph. apply Z.eqb_neq in Hh. congruence.
      * apply IH. destruct Hex as [e [[->|Hin] Hke]].
        -- apply Z.eqb_neq in Hh. congruence.
        -- exists e; auto.
Qed.

Lemma find_saved (p : Exchange -> bool) (now : Z) (e' : Exchange) (db : DB)
    (k : Z) :
  (forall x, p x = true -> ex_pk x = k) ->
  (exists e, In e (exchanges db) /\ ex_pk e = k) ->
  ex_pk e' = k -> p (set_last_updated now e') = true ->
  find p (exchanges (Exchange_save now e' db)) = Some (set_last_updated now e').
Proof.
  intros Hp Hex Hk He'. unfold Exchange_save; simpl.
  apply (find_after_save p (exchanges db) (set_last_updated now e') k);
    assumption.
Qed.

Lemma save_keeps_status (now : Z) (e e' : Exchange) (db : DB) :
  exchange_pk_unique db -> In e (exchanges db) ->
  ex_pk e' = ex_pk e -> status e' = status e ->
  map status (exchanges (Exchange_save now e' db)) = map status (exchanges db).
Proof.
  unfold exchange_pk_unique, Exchange_save; simpl; intros Hnd Hin Hk Hs.
  rewrite map_map. apply map_ext_in. intros row Hrow.
  destruct (ex_pk row =? ex_pk e') eqn:Hr; [|reflexivity].
  apply Z.eqb_eq in Hr. simpl.
  rewrite Hs. f_equal. symmetry.
  eapply pk_unique_eq; eauto. congruence.
Qed.

Lemma save_keeps_pks (now : Z) (e' : Exchange) (db : DB) :
  map ex_pk (exchanges (Exchange_save now e' db)) = map ex_pk (exchanges db).
Proof.
  unfold Exchange_save; simpl. rewrite map_map. apply map_ext.
  intros row. destruct (ex_pk row =? ex_pk e') eqn:Hr; [|reflexivity].
  apply Z.eqb_eq in Hr. simpl. congruence.
Qed.

(** ** Admin approval (C3) *)

(** C3.  For a staff caller posting to [admin_approve_exchange] on a
    stored exchange: when both completion flags are set and the exchange
    is not approved, the stored row gets [admin_approved = true],
    [admin_approved_date] the time of the request and [status = completed];
    when a completion flag is missing the store is unchanged and the
    notice is an error; when the exchange is already approved the store is
    unchanged, and the notice is the informational one on every row that
    satisfies the approval invariant of the data model (on a row that
    breaks it the missing flag is reported, by the case before). *)
Theorem admin_approve_exchange_spec :
  forall (now : Z) (db : DB) (request : Request) (staff : User)
         (exchange_id : Z) (exchange : Exchange),
    req_user request = Some staff ->
    is_active staff && is_staff staff = true ->
    method request = POST ->
    find (fun e => ex_pk e =? exchange_id) (exchanges db) = Some exchange ->
    let r := admin_approve_exchange now db request exchange_id in
    (both_users_completed exchange = true -> admin_approved exchange = false ->
       let approved :=
         set_status completed
           (set_admin_approved_date (Some now) (set_admin_approved true exchange)) in
       res_db r = Exchange_save now approved db
       /\ find (fun e => ex_pk e =? exchange_id) (exchanges (res_db r))
          = Some (set_last_updated now approved)
       /\ admin_approved approved = true
       /\ admin_approved_date approved = Some now
       /\ status approved = completed
       /\ map level (res_notices r) = [SUCCESS]
       /\ res_response r = Redirect "admin_exchanges" None)
    /\ (both_users_completed exchange = false ->
        res_db r = db
        /\ res_notices r =
           [mkNotice ERROR
              "Cannot approve: Both users must complete their parts first."]
        /\ res_response r = Redirect "admin_exchanges" None)
    /\ (admin_approved exchange = true ->
        res_db r = db
        /\ res_response r = Redirect "admin_exchanges" None
        /\ (approval_invariant exchange ->
            res_notices r =
            [mkNotice INFO "This exchange has already been approved."])).
Proof.
  intros now db request staff exchange_id exchange Hu Hstaff Hm Hfind r.
  subst r. unfold admin_approve_exchange, staff_member_required, require_POST.
  rewrite Hu, Hstaff, Hm, Hfind.
  apply find_In in Hfind as [Hin Hpk]. apply Z.eqb_eq in Hpk.
  split; [|split].
  - intros Hboth Hnot. cbv zeta. rewrite Hboth, Hnot. simpl negb. cbv iota.
    cbn [res_db res_notices res_response map level].
    repeat split.
    apply find_saved with (k := exchange_id).
    + intros x Hx; apply Z.eqb_eq; exact Hx.
    + exists exchange; auto.
    + exact Hpk.
    + simpl; apply Z.eqb_eq; exact Hpk.
  - intros Hboth. rewrite Hboth. simpl. auto.
  - intros Happroved. rewrite Happroved.
    destruct (both_users_completed exchange) eqn:Hboth; simpl.
    + auto.
    + repeat split. intros Hinv. destruct (Hinv Happroved) as [H1 H2].
      unfold both_users_completed in Hboth. rewrite H1, H2 in Hboth.
      discriminate.
Qed.

(** Whatever the state of the row, a refused approval writes nothing. *)
Lemma admin_approve_exchange_refused now db request exchange_id :
  (forall n, In n (res_notices (admin_approve_exchange now db request exchange_id)) ->
             level n <> SUCCESS) ->
  res_db (admin_approve_exchange now db request exchange_id) = db.
Proof.
  unfold admin_approve_exchange, staff_member_required, require_POST.
  destruct (req_user request) as [u|]; [|reflexivity].
  destruct (is_active u && is_staff u); [|reflexivity].
  destruct (method request); try reflexivity.
  destruct (find _ _) as [e|]; [|reflexivity].
  destruct (negb (both_users_completed e)); [reflexivity|].
  destruct (admin_approved e); [reflexivity|].
  simpl. intros H. exfalso. eapply H; [left; reflexivity|reflexivity].
Qed.

(** ** Marking complete (C4) *)

Lemma awaiting_admin_notice_info (e : Exchange) :
  Forall (fun n => level n = INFO) (awaiting_admin_notice e).
Proof.
  unfold awaiting_admin_notice.
  destruct (both_users_completed e && negb (admin_approved e));
    repeat constructor.
Qed.

(** A caller whose own flag is set gets the informational branch. *)
Lemma mark_exchange_complete_again now db request u exchange_id exchange :
  req_user request = Some u -> method request = POST ->
  active_exchange_of db u exchange_id = Some exchange ->
  own_completed u exchange = true ->
  let r := mark_exchange_complete now db request exchange_id in
  res_db r = db
  /\ Forall (fun n => level n = INFO) (res_notices r)
  /\ In (mkNotice INFO "You've already marked this exchange as complete.")
        (res_notices r)
  /\ res_response r = Redirect "exchanges" None.
Proof.
  intros Hu Hm Hfind Hown r. subst r.
  unfold mark_exchange_complete, login_required, require_POST.
  unfold active_exchange_of in Hfind. rewrite Hu, Hm, Hfind.
  unfold own_completed in Hown.
  destruct (user_eqb u (user1 exchange)); rewrite Hown; simpl;
    (repeat split;
     [constructor; [reflexivity|apply awaiting_admin_notice_info] | left; reflexivity]).
Qed.

(** After an invocation that resolved the exchange, the caller's own flag
    is set in the stored row, which the same lookup still resolves. *)
Lemma mark_exchange_complete_sets_flag now db request u exchange_id exchange :
  req_user request = Some u -> method request = POST ->
  active_exchange_of db u exchange_id = Some exchange ->
  exists stored,
    active_exchange_of
      (res_db (mark_exchange_complete now db request exchange_id)) u exchange_id
    = Some stored
    /\ own_completed u stored = true.
Proof.
  intros Hu Hm Hfind.
  unfold mark_exchange_complete, login_required, require_POST.
  pose proof Hfind as Hfind0.
  unfold active_exchange_of in Hfind. rewrite Hu, Hm, Hfind.
  apply find_In in Hfind as [Hin Hp].
  apply andb_true_iff in Hp as [Hp Hst].
  apply andb_true_iff in Hp as [Hpart Hpk].
  apply Z.eqb_eq in Hpk.
  assert (Hpin : forall x,
             (user_eqb (user1 x) u || user_eqb (user2 x) u)
             && (ex_pk x =? exchange_id) && status_eqb (status x) active = true ->
             ex_pk x = exchange_id).
  { intros x Hx. apply andb_true_iff in Hx as [Hx _].
    apply andb_true_iff in Hx as [_ Hx]. apply Z.eqb_eq; exact Hx. }
  destruct (user_eqb u (user1 exchange)) eqn:His1.
  - destruct (user1_completed exchange) eqn:Hc1; simpl.
    + exists exchange; split; [exact Hfind0|].
      unfold own_completed; rewrite His1; exact Hc1.
    + eexists; split.
      * unfold active_exchange_of. apply find_saved with (k := exchange_id).
        -- exact Hpin.
        -- exists exchange; auto.
        -- exact Hpk.
        -- simpl. rewrite Hpart, Hst. simpl. rewrite andb_true_r.
           apply Z.eqb_eq; exact Hpk.
      * unfold own_completed; simpl. rewrite His1. reflexivity.
  - destruct (user2_completed exchange) eqn:Hc2; simpl.
    + exists exchange; split; [exact Hfind0|].
      unfold own_completed; rewrite His1; exact Hc2.
    + eexists; split.
      * unfold active_exchange_of. apply find_saved with (k := exchange_id).
        -- exact Hpin.
        -- exists exchange; auto.
        -- exact Hpk.
        -- simpl. rewrite Hpart, Hst. simpl. rewrite andb_true_r.
           apply Z.eqb_eq; exact Hpk.
      * unfold own_completed; simpl. rewrite His1. reflexivity.
Qed.

Lemma mark_exchange_complete_keeps_status now db request exchange_id :
  exchange_pk_unique db ->
  let db' := res_db (mark_exchange_complete now db request exchange_id) in
  map status (exchanges db') = map status (exchanges db)
  /\ map ex_pk (exchanges db') = map ex_pk (exchanges db).
Proof.
  intros Hnd db'; subst db'.
  unfold mark_exchange_complete, login_required, require_POST.
  destruct (req_user request) as [u|]; cbn [res_db]; [|auto].
  destruct (method request); cbn [res_db]; auto.
  destruct (find _ (exchanges db)) as [e|] eqn:Hf; cbn [res_db]; [|auto].
  apply find_In in Hf as [Hin _].
  destruct (user_eqb u (user1 e) && negb (user1_completed e)); cbn [res_db].
  - split; [|apply save_keeps_pks].
    apply save_keeps_status with (e := e); auto.
  - destruct (negb (user_eqb u (user1 e)) && negb (user2_completed e));
      cbn [res_db]; [|auto].
    split; [|apply save_keeps_pks].
    apply save_keeps_status with (e := e); auto.
Qed.

(** C4.  [mark_exchange_complete] never changes a status: after any
    invocation every stored row has the status it had.  And it is
    idempotent per participant: when a participant of an active exchange
    invokes it, a second invocation by the same participant leaves the
    store as the first left it and answers with informational notices
    only; the same holds for a single invocation by a participant whose
    own flag is already set. *)
Theorem mark_exchange_complete_idempotent :
  forall (now now' : Z) (db : DB) (request : Request) (exchange_id : Z),
    exchange_pk_unique db ->
    let r1 := mark_exchange_complete now db request exchange_id in
    let r2 := mark_exchange_complete now' (res_db r1) request exchange_id in
    map status (exchanges (res_db r1)) = map status (exchanges db)
    /\ map ex_pk (exchanges (res_db r1)) = map ex_pk (exchanges db)
    /\ forall (u : User) (exchange : Exchange),
         req_user request = Some u -> method request = POST ->
         active_exchange_of db u exchange_id = Some exchange ->
         (own_completed u exchange = true ->
            res_db r1 = db
            /\ Forall (fun n => level n = INFO) (res_notices r1)
            /\ res_notices r1 <> [])
         /\ res_db r2 = res_db r1
         /\ Forall (fun n => level n = INFO) (res_notices r2)
         /\ In (mkNotice INFO "You've already marked this exchange as complete.")
               (res_notices r2)
         /\ res_response r2 = Redirect "exchanges" None.
Proof.
  intros now now' db request exchange_id Hnd r1 r2.
  destruct (mark_exchange_complete_keeps_status now db request exchange_id Hnd)
    as [Hst Hpk].
  split; [exact Hst|]. split; [exact Hpk|].
  intros u exchange Hu Hm Hfind. split.
  - intros Hown.
    destruct (mark_exchange_complete_again now db request u exchange_id exchange
                Hu Hm Hfind Hown) as (Hdb & Hinfo & Hin & _).
    split; [exact Hdb|]. split; [exact Hinfo|].
    intros Hnil. fold r1 in Hin. rewrite Hnil in Hin. destruct Hin.
  - destruct (mark_exchange_complete_sets_flag now db request u exchange_id
                exchange Hu Hm Hfind) as (stored & Hfind' & Hown').
    exact (mark_exchange_complete_again now' (res_db r1) request u exchange_id
             stored Hu Hm Hfind' Hown').
Qed.

(** ** Accepting (C6) *)

Lemma pending_exchange_for_spec (db : DB) (u : User) (exchange_id : Z)
    (e : Exchange) :
  pending_exchange_for db u exchange_id = Some e ->
  In e (exchanges db) /\ ex_pk e = exchange_id
  /\ user_pk (user2 e) = user_pk u /\ status e = pending.
Proof.
  unfold pending_exchange_for. intros H. apply find_In in H as [Hin Hp].
  apply andb_true_iff in Hp as [Hp Hst].
  apply andb_true_iff in Hp as [Hpk Hu2].
  apply Z.eqb_eq in Hpk. apply Z.eqb_eq in Hu2. apply status_eqb_eq in Hst.
  auto.
Qed.

(** C6, as the code has it.  For an authenticated caller,
    [accept_exchange] resolves the exchange by its id, the caller as
    [user2] and the status [pending]; the resolved row is stored again with
    status [active], and nothing else is written.  When nothing resolves,
    the store is unchanged, no notice is queued and the response is the
    not-found response of [get_object_or_404] (not a redirect). *)
Theorem accept_exchange_spec :
  forall (now : Z) (db : DB) (request : Request) (u : User) (exchange_id : Z),
    req_user request = Some u ->
    let r := accept_exchange now db request exchange_id in
    match pending_exchange_for db u exchange_id with
    | Some e =>
        ex_pk e = exchange_id /\ user_pk (user2 e) = user_pk u
        /\ status e = pending
        /\ res_db r = Exchange_save now (set_status active e) db
        /\ find (fun x => ex_pk x =? exchange_id) (exchanges (res_db r))
           = Some (set_last_updated now (set_status active e))
        /\ status (set_last_updated now (set_status active e)) = active
    | None =>
        res_db r = db /\ res_notices r = [] /\ res_response r = Http404
    end.
Proof.
  intros now db request u exchange_id Hu r. subst r.
  unfold accept_exchange, login_required. rewrite Hu.
  destruct (pending_exchange_for db u exchange_id) as [e|] eqn:Hfind.
  - destruct (pending_exchange_for_spec _ _ _ _ Hfind) as (Hin & Hpk & Hu2 & Hst).
    unfold pending_exchange_for in Hfind. rewrite Hfind.
    assert (Hdb : res_db
              (match skill1 (set_status active e) with
               | Some s1 =>
                   mkResult (Exchange_save now (set_status active e) db)
                     [mkNotice SUCCESS
                        ("Exchange accepted! You can now start learning "
                         +++ name s1 +++ " from "
                         +++ display_name (user1 (set_status active e)) +++ ".")]
                     (Redirect "dashboard" None)
               | None =>
                   mkResult (Exchange_save now (set_status active e) db) [] Http500
               end) = Exchange_save now (set_status active e) db).
    { destruct (skill1 (set_status active e)); reflexivity. }
    cbv zeta. rewrite Hdb.
    repeat split; auto.
    apply find_saved with (k := exchange_id).
    + intros x Hx; apply Z.eqb_eq; exact Hx.
    + exists e; auto.
    + exact Hpk.
    + simpl; apply Z.eqb_eq; exact Hpk.
  - unfold pending_exchange_for in Hfind. rewrite Hfind. auto.
Qed.

(** ** Toggling staff (C9) *)

Lemma find_user_saved (u' : User) (db : DB) (k : Z) :
  (exists u, In u (users db) /\ user_pk u = k) ->
  user_pk u' = k ->
  find (fun u => user_pk u =? k) (users (User_save u' db)) = Some u'.
Proof.
  intros Hex Hk. unfold User_save; simpl. subst k.
  induction (users db) as [|h l IH].
  - destruct Hex as [u [[] _]].
  - simpl. destruct (user_pk h =? user_pk u') eqn:Hh.
    + rewrite Z.eqb_refl. reflexivity.
    + rewrite Hh. apply IH.
      destruct Hex as [u [[->|Hin] Hku]].
      * apply Z.eqb_neq in Hh. congruence.
      * exists u; auto.
Qed.

(** C9.  For a staff caller posting to [admin_toggle_staff] on a stored
    user: when the target is another user, the stored target gets
    [is_staff] negated and [is_superuser] equal to the new [is_staff]
    (switched on together, switched off together); when the target is the
    caller, the store is unchanged and the notice is an error. *)
Theorem admin_toggle_staff_spec :
  forall (db : DB) (request : Request) (caller : User) (user_id : Z)
         (target : User),
    req_user request = Some caller ->
    is_active caller && is_staff caller = true ->
    method request = POST ->
    find (fun u => user_pk u =? user_id) (users db) = Some target ->
    let r := admin_toggle_staff db request user_id in
    (user_eqb target caller = false ->
       exists toggled,
         res_db r = User_save toggled db
         /\ find (fun u => user_pk u =? user_id) (users (res_db r)) = Some toggled
         /\ is_staff toggled = negb (is_staff target)
         /\ is_superuser toggled = is_staff toggled
         /\ user_pk toggled = user_pk target
         /\ username toggled = username target
         /\ map level (res_notices r) = [SUCCESS]
         /\ res_response r = Redirect "admin_users" None)
    /\ (user_eqb target caller = true ->
        res_db r = db
        /\ res_notices r =
           [mkNotice ERROR "You cannot change your own staff status!"]
        /\ res_response r = Redirect "admin_users" None).
Proof.
  intros db request caller user_id target Hu Hstaff Hm Hfind r. subst r.
  unfold admin_toggle_staff, staff_member_required, require_POST.
  rewrite Hu, Hstaff, Hm, Hfind.
  apply find_In in Hfind as [Hin Hpk]. apply Z.eqb_eq in Hpk.
  split; intros Heq; rewrite Heq.
  - eexists. cbn [res_db res_notices res_response map level].
    split; [reflexivity|]. split.
    + apply find_user_saved; [exists target; auto|exact Hpk].
    + simpl. repeat split.
  - auto.
Qed.

(** ** Proposing (C10) *)

(** C10.  [propose_exchange_view] on an offered skill that the caller owns
    writes nothing and answers with the error notice; and whatever the
    request, the view either leaves the [Exchange] table as it is or
    appends one pending row whose [user1] is the caller and whose [user2]
    is another user. *)
Theorem propose_exchange_never_self :
  forall (int : string -> option Z) (now : Z) (db : DB) (request : Request)
         (user_skill_id : Z),
    let r := propose_exchange_view int now db request user_skill_id in
    (forall (u : User) (other_user_skill : UserSkill),
        req_user request = Some u ->
        find (fun us => (us_pk us =? user_skill_id) && role_eqb (role us) offer)
             (user_skills db) = Some other_user_skill ->
        user_eqb (user other_user_skill) u = true ->
        res_db r = db
        /\ res_notices r =
           [mkNotice ERROR "You cannot propose an exchange with yourself!"]
        /\ res_response r = Redirect "marketplace" None)
    /\ (exchanges (res_db r) = exchanges db
        \/ exists e,
             exchanges (res_db r) = exchanges db ++ [e]
             /\ req_user request = Some (user1 e)
             /\ user_pk (user1 e) <> user_pk (user2 e)
             /\ status e = pending).
Proof.
  intros int now db request user_skill_id r. subst r. split.
  - intros u ous Hu Hfind Hself.
    unfold propose_exchange_view, login_required.
    rewrite Hu, Hfind, Hself. auto.
  - unfold propose_exchange_view, login_required.
    destruct (req_user request) as [u|]; [|left; reflexivity].
    destruct (find _ (user_skills db)) as [ous|]; [|left; reflexivity].
    destruct (user_eqb (user ous) u) eqn:Hself; [left; reflexivity|].
    destruct (method request); try (left; reflexivity).
    destruct (QueryDict_get (POST_data request) "my_skill") as [[|c s]|];
      try (left; reflexivity).
    destruct (int _); [|left; reflexivity].
    destruct (find _ (user_skills db)) as [mine|]; [|left; reflexivity].
    right. eexists. cbn [res_db Exchange_create with_exchanges exchanges].
    split; [reflexivity|]. simpl.
    split; [reflexivity|]. split; [|reflexivity].
    unfold user_eqb in Hself. apply Z.eqb_neq in Hself. congruence.
Qed.

(** ** Matches (C5) *)

Lemma mem_In (x : Z) (l : list Z) : mem x l = true <-> In x l.
Proof.
  unfold mem. rewrite existsb_exists. split.
  - intros [y [Hin Hy]]. apply Z.eqb_eq in Hy. subst; assumption.
  - intros Hin. exists x. split; [assumption|apply Z.eqb_refl].
Qed.

Lemma firstn_incl {A : Type} (n : nat) (l : list A) (x : A) :
  In x (firstn n l) -> In x l.
Proof.
  revert l; induction n as [|n IH]; intros [|y l]; simpl; try tauto.
  intros [->|H]; auto.
Qed.

Lemma my_skills_listed (db : DB) (u : User) (r : Role) (sk : Z) :
  In sk (map (fun us => skill_pk (skill us))
           (filter (fun us => user_eqb (user us) u && role_eqb (role us) r)
                   (user_skills db))) ->
  lists_skill db r (user_pk u) sk.
Proof.
  rewrite in_map_iff. intros [us [Hsk Hin]].
  apply filter_In in Hin as [Hin Hp].
  apply andb_true_iff in Hp as [Hu Hr].
  apply Z.eqb_eq in Hu. apply role_eqb_eq in Hr.
  exists us; auto.
Qed.

Section MatchesProofs.

Variable upper : string -> string.
Variable db : DB.
Variable u : User.

Lemma match_entry_reciprocal (match_skill their : UserSkill) :
  In match_skill (potential_matches db u) ->
  their_seeking db u (user match_skill) = Some their ->
  reciprocal_match db u (match_entry upper match_skill their).
Proof.
  intros Hpot Hseek.
  unfold potential_matches in Hpot. apply firstn_incl in Hpot.
  apply filter_In in Hpot as [Hin Hp].
  apply andb_true_iff in Hp as [Hp Hother].
  apply andb_true_iff in Hp as [Hmem Hrole].
  apply mem_In in Hmem. apply role_eqb_eq in Hrole.
  apply negb_true_iff in Hother. apply Z.eqb_neq in Hother.
  unfold their_seeking in Hseek. apply first_by_pk_In in Hseek.
  apply filter_In in Hseek as [Hin' Hp'].
  apply andb_true_iff in Hp' as [Hp' Hmem'].
  apply andb_true_iff in Hp' as [Huser' Hrole'].
  apply mem_In in Hmem'. apply role_eqb_eq in Hrole'.
  apply Z.eqb_eq in Huser'.
  split; [exact Hother|].
  exists match_skill, their. simpl.
  repeat split; auto.
  - apply my_skills_listed; exact Hmem.
  - apply my_skills_listed; exact Hmem'.
Qed.

Lemma matches_loop_reciprocal (rows : list UserSkill) (acc : list Match) :
  (forall r, In r rows -> In r (potential_matches db u)) ->
  Forall (reciprocal_match db u) acc ->
  Forall (reciprocal_match db u) (matches_loop upper db u rows acc).
Proof.
  revert acc; induction rows as [|r rows IH]; intros acc Hrows Hacc;
    cbn [matches_loop].
  - assumption.
  - destruct (their_seeking db u (user r)) as [their|] eqn:Hseek.
    + assert (Hacc' : Forall (reciprocal_match db u)
                        (acc ++ [match_entry upper r their])).
      { apply Forall_app; split; [assumption|].
        constructor; [|constructor].
        apply match_entry_reciprocal; [apply Hrows; left; reflexivity|].
        exact Hseek. }
      destruct (3 <=? List.length (acc ++ [match_entry upper r their]))%nat;
        [assumption|].
      apply IH; [intros; apply Hrows; right; assumption|assumption].
    + apply IH; [intros; apply Hrows; right; assumption|assumption].
Qed.

Lemma matches_loop_length (rows : list UserSkill) (acc : list Match) :
  (List.length acc <= 2)%nat ->
  (List.length (matches_loop upper db u rows acc) <= 3)%nat.
Proof.
  revert acc; induction rows as [|r rows IH]; intros acc Hacc;
    cbn [matches_loop].
  - lia.
  - destruct (their_seeking db u (user r)) as [their|].
    + destruct (3 <=? List.length (acc ++ [match_entry upper r their]))%nat
        eqn:Hfull.
      * rewrite length_app; simpl; lia.
      * apply IH. apply Nat.leb_gt in Hfull. lia.
    + apply IH; assumption.
Qed.

End MatchesProofs.

(** C5.  The matches [dashboard_view] computes for a user: every entry is
    reciprocal (its counterpart is not the user, offers a skill the user
    seeks and seeks a skill the user offers); there are at most three; and
    there is none when the user seeks no skill or offers none. *)
Theorem find_matches_spec :
  forall (upper : string -> string) (db : DB) (u : User),
    (forall m, In m (find_matches upper db u) -> reciprocal_match db u m)
    /\ (List.length (find_matches upper db u) <= 3)%nat
    /\ (my_seeking_skills db u = [] \/ my_offering_skills db u = [] ->
        find_matches upper db u = []).
Proof.
  intros upper db u. unfold find_matches. split; [|split].
  - apply Forall_forall.
    destruct (my_seeking_skills db u); [constructor|].
    destruct (my_offering_skills db u); [constructor|].
    apply matches_loop_reciprocal; [auto|constructor].
  - destruct (my_seeking_skills db u); [simpl; lia|].
    destruct (my_offering_skills db u); [simpl; lia|].
    apply matches_loop_length; simpl; lia.
  - intros [H|H]; rewrite H; [reflexivity|].
    destruct (my_seeking_skills db u); reflexivity.
Qed.

(** ** The stable sort *)

Section StableSortProofs.

Context {A : Type} (le : A -> A -> bool).

Lemma insert_sorted_perm (x : A) (l : list A) :
  Permutation (insert_sorted le x l) (x :: l).
Proof.
  induction l as [|y l IH]; simpl.
  - apply Permutation_refl.
  - destruct (le x y).
    + apply Permutation_refl.
    + eapply perm_trans; [apply perm_skip; exact IH|apply perm_swap].
Qed.

Lemma sort_by_perm (l : list A) : Permutation (sort_by le l) l.
Proof.
  induction l as [|x l IH]; simpl.
  - apply perm_nil.
  - eapply perm_trans; [apply insert_sorted_perm|apply perm_skip; exact IH].
Qed.

Lemma sort_by_In (l : list A) (x : A) : In x (sort_by le l) <-> In x l.
Proof.
  split; apply Permutation_in;
    [apply sort_by_perm|apply Permutation_sym, sort_by_perm].
Qed.

Lemma filter_insert_sorted_length (p : A -> bool) (x : A) (l : list A) :
  List.length (filter p (insert_sorted le x l))
  = List.length (filter p (x :: l)).
Proof.
  induction l as [|y l IH]; simpl; [reflexivity|].
  destruct (le x y); simpl; [reflexivity|].
  simpl in IH. destruct (p y), (p x); simpl in *; rewrite IH; reflexivity.
Qed.

Lemma filter_sort_by_length (p : A -> bool) (l : list A) :
  List.length (filter p (sort_by le l)) = List.length (filter p l).
Proof.
  induction l as [|x l IH]; simpl; [reflexivity|].
  rewrite filter_insert_sorted_length. simpl.
  destruct (p x); simpl; rewrite IH; reflexivity.
Qed.

Hypothesis le_total : forall x y, le x y = true \/ le y x = true.
Hypothesis le_trans :
  forall x y z, le x y = true -> le y z = true -> le x z = true.

Lemma insert_sorted_sorted (x : A) (l : list A) :
  StronglySorted (fun a b => le a b = true) l ->
  StronglySorted (fun a b => le a b = true) (insert_sorted le x l).
Proof.
  induction l as [|y l IH]; intros Hs; simpl.
  - repeat constructor.
  - inversion Hs as [|? ? Hs' Hall]; subst.
    destruct (le x y) eqn:Hxy.
    + constructor; [assumption|].
      constructor; [assumption|].
      eapply Forall_impl; [|exact Hall]. intros z Hz. eapply le_trans; eauto.
    + constructor; [apply IH; assumption|].
      apply Forall_forall. intros z Hz.
      apply (Permutation_in _ (insert_sorted_perm x l)) in Hz.
      destruct Hz as [<-|Hz].
      * destruct (le_total x y) as [H|H]; [congruence|exact H].
      * rewrite Forall_forall in Hall. auto.
Qed.

Lemma sort_by_sorted (l : list A) :
  StronglySorted (fun a b => le a b = true) (sort_by le l).
Proof.
  induction l as [|x l IH]; simpl.
  - constructor.
  - apply insert_sorted_sorted; assumption.
Qed.

End StableSortProofs.

(** ** Conversations (C7) *)

Lemma sum_ones {A : Type} (l : list A) :
  sum (map (fun _ => 1) l) = Z.of_nat (List.length l).
Proof.
  induction l as [|x l IH]; [reflexivity|].
  cbn [map sum fold_right List.length]. fold (sum (map (fun _ : A => 1) l)).
  rewrite IH. lia.
Qed.

Lemma dict_get_user_map_acc (rows : list User) (acc : list (Z * User))
    (k : Z) (v : User) :
  dict_get (fold_left (fun m u => (user_pk u, u) :: m) rows acc) k = Some v ->
  (In v rows /\ user_pk v = k) \/ dict_get acc k = Some v.
Proof.
  revert acc; induction rows as [|r rows IH]; intros acc H; simpl in H.
  - right; assumption.
  - apply IH in H as [[Hin Hk]|H].
    + left; split; [right; assumption|assumption].
    + simpl in H. destruct (user_pk r =? k) eqn:Hr.
      * injection H as <-. apply Z.eqb_eq in Hr. left; split; [left; reflexivity|assumption].
      * right; assumption.
Qed.

Lemma dict_get_user_map (rows : list User) (k : Z) (v : User) :
  dict_get (user_map_of rows) k = Some v -> In v rows /\ user_pk v = k.
Proof.
  intros H. apply dict_get_user_map_acc in H as [H|H]; [assumption|discriminate].
Qed.

Lemma max_by_fold {A : Type} (key : A -> Z) (l : list A) (best : A) :
  let r := fold_left (fun b y => if key b <? key y then y else b) l best in
  (r = best \/ In r l) /\ key best <= key r
  /\ forall y, In y l -> key y <= key r.
Proof.
  revert best; induction l as [|x l IH]; intros best; simpl.
  - repeat split; [left; reflexivity|lia|intros y []].
  - destruct (key best <? key x) eqn:Hlt.
    + apply Z.ltb_lt in Hlt. destruct (IH x) as (Hr & Hb & Hall).
      repeat split.
      * destruct Hr as [->|Hr]; right; [left; reflexivity|right; assumption].
      * lia.
      * intros y [<-|Hy]; auto.
    + apply Z.ltb_ge in Hlt. destruct (IH best) as (Hr & Hb & Hall).
      repeat split.
      * destruct Hr as [->|Hr]; [left; reflexivity|right; right; assumption].
      * assumption.
      * intros y [<-|Hy]; [lia|auto].
Qed.

Lemma max_by_spec {A : Type} (key : A -> Z) (l : list A) :
  match max_by key l with
  | Some x => In x l /\ forall y, In y l -> key y <= key x
  | None => l = []
  end.
Proof.
  destruct l as [|x l]; simpl; [reflexivity|].
  destruct (max_by_fold key l x) as (Hr & Hb & Hall).
  split.
  - destruct Hr as [->|Hr]; [left; reflexivity|right; assumption].
  - intros y [<-|Hy]; auto.
Qed.

Lemma collect_In {A B : Type} (f : A -> option B) (l : list A) (y : B) :
  In y (collect f l) -> exists x, In x l /\ f x = Some y.
Proof.
  induction l as [|x l IH]; simpl; [intros []|].
  destruct (f x) as [y'|] eqn:Hf.
  - intros [<-|H]; [exists x; auto|].
    destruct (IH H) as [x' [Hin Hx']]; exists x'; auto.
  - intros H. destruct (IH H) as [x' [Hin Hx']]; exists x'; auto.
Qed.

Lemma StronglySorted_weaken {A : Type} (R R' : A -> A -> Prop) (l : list A) :
  (forall x y, R x y -> R' x y) -> StronglySorted R l -> StronglySorted R' l.
Proof.
  intros HR Hs; induction Hs as [|x l Hs IH Hall]; constructor.
  - assumption.
  - eapply Forall_impl; [|exact Hall]. intros y; apply HR.
Qed.

Section ConversationProofs.

Variable db : DB.
Variable viewer : User.

Lemma pair_with_between (uid : Z) (m : Message) :
  pair_with viewer uid m = true <-> between (user_pk viewer) uid m.
Proof.
  unfold pair_with, between.
  rewrite orb_true_iff, !andb_true_iff, !Z.eqb_eq. tauto.
Qed.

Lemma pair_in_all_messages (uid : Z) (m : Message) :
  mem uid (conversation_user_ids db viewer) = true ->
  In m (Message_objects db) -> pair_with viewer uid m = true ->
  In m (all_messages db viewer).
Proof.
  intros Hmem Hin Hp. unfold all_messages. apply filter_In. split; [assumption|].
  unfold pair_with in Hp. apply orb_true_iff in Hp as [Hp|Hp];
    apply andb_true_iff in Hp as [H1 H2]; apply orb_true_iff.
  - left. rewrite H1. apply Z.eqb_eq in H2. rewrite H2. exact Hmem.
  - right. rewrite H2. apply Z.eqb_eq in H1. rewrite H1, Hmem. reflexivity.
Qed.

Lemma user_messages_In (uid : Z) (m : Message) :
  mem uid (conversation_user_ids db viewer) = true ->
  In m (filter (pair_with viewer uid) (all_messages db viewer))
  <-> In m (messages db) /\ between (user_pk viewer) uid m.
Proof.
  intros Hmem. rewrite filter_In, pair_with_between. split.
  - intros [Hin Hb]. split; [|assumption].
    unfold all_messages in Hin. apply filter_In in Hin as [Hin _].
    unfold Message_objects in Hin. apply sort_by_In in Hin. assumption.
  - intros [Hin Hb]. split; [|assumption].
    apply pair_in_all_messages with (uid := uid); auto.
    + unfold Message_objects. apply sort_by_In. assumption.
    + apply pair_with_between. assumption.
Qed.

Lemma unread_in_user_messages (uid : Z) :
  mem uid (conversation_user_ids db viewer) = true ->
  filter (fun m => (sender_id m =? uid) && (receiver_id m =? user_pk viewer)
                   && negb (is_read m))
         (filter (pair_with viewer uid) (all_messages db viewer))
  = filter (fun m => (sender_id m =? uid) && (receiver_id m =? user_pk viewer)
                     && negb (is_read m))
           (Message_objects db).
Proof.
  intros Hmem.
  rewrite filter_filter_implied.
  - unfold all_messages. apply filter_filter_implied.
    intros m _ Hc. apply andb_true_iff in Hc as [Hc _].
    apply andb_true_iff in Hc as [Hs Hr].
    apply orb_true_iff. right. rewrite Hr.
    apply Z.eqb_eq in Hs. rewrite Hs, Hmem. reflexivity.
  - intros m _ Hc. apply andb_true_iff in Hc as [Hc _].
    unfold pair_with. rewrite Hc. apply orb_true_r.
Qed.

(** What one entry of the conversation list holds. *)
Lemma conversation_of_spec (uid : Z) (c : Conversation) :
  conversation_of db viewer uid = Some c ->
  user_pk (conv_user c) = uid
  /\ In (conv_user c) (users db)
  /\ unread_count c
     = Z.of_nat (List.length (unread_from db uid (user_pk viewer)))
  /\ match last_message c with
     | Some m =>
         In m (messages db) /\ between (user_pk viewer) uid m
         /\ forall m', In m' (messages db) ->
                       between (user_pk viewer) uid m' ->
                       timestamp m' <= timestamp m
     | None =>
         forall m', In m' (messages db) -> ~ between (user_pk viewer) uid m'
     end.
Proof.
  unfold conversation_of.
  destruct (dict_get _ uid) as [other|] eqn:Hget; [|discriminate].
  intros H; injection H as <-. cbn [conv_user unread_count last_message].
  apply dict_get_user_map in Hget as [Hin Hpk].
  apply filter_In in Hin as [Hin Hmem]. rewrite Hpk in Hmem.
  split; [assumption|]. split; [assumption|]. split.
  - rewrite sum_ones. fold (pair_with viewer uid).
    rewrite (unread_in_user_messages uid Hmem).
    unfold Message_objects, unread_from. f_equal. apply filter_sort_by_length.
  - fold (pair_with viewer uid).
    pose proof (max_by_spec timestamp
                  (filter (pair_with viewer uid) (all_messages db viewer))) as Hmax.
    destruct (max_by timestamp _) as [m|].
    + destruct Hmax as [Hm Hall].
      apply (user_messages_In uid m Hmem) in Hm as [Hm Hb].
      split; [assumption|]. split; [assumption|].
      intros m' Hm' Hb'. apply Hall.
      apply (user_messages_In uid m' Hmem). auto.
    + intros m' Hm' Hb'.
      assert (Hin' : In m' (filter (pair_with viewer uid) (all_messages db viewer)))
        by (apply (user_messages_In uid m' Hmem); auto).
      rewrite Hmax in Hin'. destruct Hin'.
Qed.

Lemma conversations_of_entries (c : Conversation) :
  In c (conversations_of db viewer) ->
  exists uid, In uid (conversation_user_ids db viewer)
              /\ conversation_of db viewer uid = Some c.
Proof.
  unfold conversations_of. intros H. apply sort_by_In in H.
  apply collect_In in H. exact H.
Qed.

Lemma conversations_of_sorted :
  StronglySorted (fun x y => sort_key y <= sort_key x)
    (conversations_of db viewer).
Proof.
  unfold conversations_of.
  pose proof (sort_by_sorted (fun x y : Conversation => sort_key y <=? sort_key x))
    as Hs.
  eapply StronglySorted_weaken; [|apply Hs].
  - intros x y H; apply Z.leb_le; exact H.
  - intros x y. destruct (Z.le_ge_cases (sort_key x) (sort_key y));
      [right|left]; apply Z.leb_le; assumption.
  - intros x y z Hxy Hyz. apply Z.leb_le in Hxy, Hyz. apply Z.leb_le. lia.
Qed.

End ConversationProofs.

Lemma messages_view_conversations now db request viewer user_id template
    convs sel msgs :
  req_user request = Some viewer ->
  res_response (messages_view now db request user_id)
  = Render template (MessagesContext convs sel msgs) ->
  convs = conversations_of db viewer.
Proof.
  intros Hu. unfold messages_view, login_required. rewrite Hu.
  destruct user_id as [[|uid|uid]|]; cbn [res_response];
    try (intros H; injection H as _ <- _ _; reflexivity);
    (destruct (find _ (users db)) as [selected|]; [|discriminate]);
    (destruct (method request); cbn [res_response];
     try (intros H; injection H as _ <- _ _; reflexivity));
    (destruct (truthy _); cbn [res_response]; [discriminate|]);
    intros H; injection H as _ <- _ _; reflexivity.
Qed.

(** C7.  In the conversation list [messages_view] renders, computed from
    the store as the request found it (before the thread that is opened is
    marked read): the [unread_count] of a counterpart is the number of
    stored messages from the counterpart to the viewer with [is_read]
    false; the [last_message] is a stored message between the two with the
    greatest timestamp; and the list is in descending order of the sort
    key, the timestamp of the last message, or the counterpart's
    [date_joined] when there is none. *)
Theorem conversation_list_spec :
  forall (now : Z) (db : DB) (request : Request) (viewer : User)
         (user_id : option Z) (template : string)
         (convs : list Conversation) (sel : option User) (msgs : list Message),
    req_user request = Some viewer ->
    res_response (messages_view now db request user_id)
    = Render template (MessagesContext convs sel msgs) ->
    (forall c, In c convs ->
       unread_count c
       = Z.of_nat (List.length
                     (unread_from db (user_pk (conv_user c)) (user_pk viewer)))
       /\ match last_message c with
          | Some m =>
              sort_key c = timestamp m
              /\ In m (messages db)
              /\ between (user_pk viewer) (user_pk (conv_user c)) m
              /\ forall m', In m' (messages db) ->
                            between (user_pk viewer) (user_pk (conv_user c)) m' ->
                            timestamp m' <= timestamp m
          | None => sort_key c = date_joined (conv_user c)
          end)
    /\ StronglySorted (fun x y => sort_key y <= sort_key x) convs.
Proof.
  intros now db request viewer user_id template convs sel msgs Hu Hr.
  apply messages_view_conversations with (viewer := viewer) in Hr; [|exact Hu].
  subst convs. split; [|apply conversations_of_sorted].
  intros c Hc.
  apply conversations_of_entries in Hc as [uid [_ Hc]].
  apply conversation_of_spec in Hc as (Hpk & _ & Hunread & Hlast).
  rewrite Hpk. split; [exact Hunread|].
  unfold sort_key. destruct (last_message c) as [m|]; [|reflexivity].
  split; [reflexivity|exact Hlast].
Qed.

(** ** Sending a message (C8) *)

Lemma mark_read_keeps_rows (selected viewer : User) (db : DB) :
  map (fun m => (msg_pk m, sender_id m, receiver_id m, content m, timestamp m))
      (messages (mark_read selected viewer db))
  = map (fun m => (msg_pk m, sender_id m, receiver_id m, content m, timestamp m))
        (messages db).
Proof.
  unfold mark_read; simpl. rewrite map_map. apply map_ext. intros m.
  destruct ((sender_id m =? user_pk selected)
            && (receiver_id m =? user_pk viewer) && negb (is_read m));
    reflexivity.
Qed.

Lemma mark_read_nothing_unread (selected viewer : User) (db : DB) :
  unread_from db (user_pk selected) (user_pk viewer) = [] ->
  mark_read selected viewer db = db.
Proof.
  unfold unread_from, mark_read, with_messages. destruct db as [us sk ex ms]; simpl.
  intros H. f_equal.
  induction ms as [|m ms IH]; simpl in *; [reflexivity|].
  destruct ((sender_id m =? user_pk selected)
            && (receiver_id m =? user_pk viewer) && negb (is_read m));
    [discriminate|].
  rewrite IH; auto.
Qed.

Lemma truthy_empty (s : string) : truthy s = false <-> s = "".
Proof. destruct s; simpl; split; intros H; try reflexivity; discriminate. Qed.

(** C8, as the code has it.  An authenticated viewer posts to the thread
    with a stored user.  Opening the thread first marks the counterpart's
    unread messages to the viewer as read; this changes no other column
    and changes nothing when there is none.  Then, when the posted content
    (the last value posted as [content]) is empty after [strip], no
    [Message] row is created, no notice is queued and the thread is
    rendered again; otherwise exactly one row is appended, under a key no
    stored message has, from the viewer to the counterpart with the
    stripped content, and the response redirects to the same thread. *)
Theorem messages_view_send_spec :
  forall (now : Z) (db : DB) (request : Request) (viewer : User) (uid : Z)
         (selected : User),
    req_user request = Some viewer ->
    method request = POST ->
    uid <> 0 ->
    find (fun u => user_pk u =? uid) (users db) = Some selected ->
    let r := messages_view now db request (Some uid) in
    let opened := mark_read selected viewer db in
    map (fun m => (msg_pk m, sender_id m, receiver_id m, content m, timestamp m))
        (messages opened)
    = map (fun m => (msg_pk m, sender_id m, receiver_id m, content m, timestamp m))
          (messages db)
    /\ (unread_from db uid (user_pk viewer) = [] -> opened = db)
    /\ (posted_content request = "" ->
        res_db r = opened
        /\ res_notices r = []
        /\ res_response r
           = Render "messages.html"
               (MessagesContext (conversations_of db viewer) (Some selected)
                  (thread opened viewer selected)))
    /\ (posted_content request <> "" ->
        (exists k,
            ~ In k (map msg_pk (messages opened))
            /\ messages (res_db r)
               = messages opened
                 ++ [mkMessage k (user_pk viewer) uid (posted_content request)
                       now false])
        /\ users (res_db r) = users db
        /\ exchanges (res_db r) = exchanges db
        /\ user_skills (res_db r) = user_skills db
        /\ res_response r = Redirect "conversation" (Some uid)).
Proof.
  intros now db request viewer uid selected Hu Hm Hnz Hfind r opened.
  subst r opened. pose proof Hfind as Hfind0.
  apply find_In in Hfind0 as [_ Hpk]. apply Z.eqb_eq in Hpk.
  split; [apply mark_read_keeps_rows|].
  split; [rewrite <- Hpk; apply mark_read_nothing_unread|].
  unfold messages_view, login_required. rewrite Hu.
  fold (posted_content request).
  destruct uid as [|uid|uid]; [congruence| |];
    rewrite Hfind, Hm; split; intros Hc.
  - apply truthy_empty in Hc. rewrite Hc. auto.
  - destruct (truthy (posted_content request)) eqn:Ht;
      [|apply truthy_empty in Ht; congruence].
    cbn [res_db res_response Message_create with_messages messages users
         exchanges user_skills mark_read].
    rewrite Hpk. split; [|auto].
    eexists. split; [|reflexivity].
    intros Hin. apply next_pk_fresh in Hin. lia.
  - apply truthy_empty in Hc. rewrite Hc. auto.
  - destruct (truthy (posted_content request)) eqn:Ht;
      [|apply truthy_empty in Ht; congruence].
    cbn [res_db res_response Message_create with_messages messages users
         exchanges user_skills mark_read].
    rewrite Hpk. split; [|auto].
    eexists. split; [|reflexivity].
    intros Hin. apply next_pk_fresh in Hin. lia.
Qed.

(** * The scenario, run *)

Ltac by_computation := vm_compute; reflexivity.

Example lifecycle_pending : exchanges (db_after 1) = [exchange_pending].
Proof. by_computation. Qed.

Example lifecycle_active : exchanges (db_after 2) = [exchange_active].
Proof. by_computation. Qed.

Example lifecycle_half :
  exchanges (db_after 3) = [exchange_half]
  /\ completion_status exchange_half = "Partially Complete".
Proof. split; by_computation. Qed.

Example lifecycle_both :
  exchanges (db_after 4) = [exchange_both]
  /\ status exchange_both = active
  /\ completion_status exchange_both = "Awaiting Admin Approval".
Proof. split; [|split]; by_computation. Qed.

Example lifecycle_approved :
  map status (exchanges (db_after 5)) = [completed]
  /\ map completion_status (exchanges (db_after 5)) = ["Admin Approved"].
Proof. split; by_computation. Qed.

Example matches_of_alice :
  find_matches upper_ascii db0 alice
  = [mkMatch "BO" "bob@example.com" 2 "Chess" "Guitar"].
Proof. by_computation. Qed.

(** Opening Bob's thread: the list still counts his message as unread,
    the store no longer does. *)
Example unread_before_marking :
  let r := messages_view 9 db_mail (get_as alice) (Some 2) in
  res_response r
  = Render "messages.html"
      (MessagesContext (conversations_of db_mail alice) (Some bob)
         (thread (res_db r) alice bob))
  /\ map unread_count (conversations_of db_mail alice) = [1; 0]
  /\ unread_from (res_db r) 2 1 = [].
Proof. cbv zeta. split; [|split]; by_computation. Qed.

(** A second mark by the same participant. *)
Example second_mark_is_informational :
  let r := mark_exchange_complete 35 (db_after 3) (post_as alice []) 1 in
  res_db r = db_after 3
  /\ res_notices r
     = [mkNotice INFO "You've already marked this exchange as complete."].
Proof. cbv zeta. split; by_computation. Qed.

(** A key posted twice: the view reads the last value. *)
Lemma QueryDict_get_last (d : list (string * string)) (k v : string) :
  QueryDict_get (d ++ [(k, v)]) k = Some v.
Proof.
  induction d as [|[k' v'] d IH]; simpl.
  - rewrite String.eqb_refl. reflexivity.
  - rewrite IH. reflexivity.
Qed.

Example repeated_content_last_is_blank :
  let request := post_as alice [("content", "hello"); ("content", "  ")] in
  let r := messages_view 9 db_mail request (Some 2) in
  posted_content request = ""
  /\ map msg_pk (messages (res_db r)) = map msg_pk (messages db_mail)
  /\ res_response r
     = Render "messages.html"
         (MessagesContext (conversations_of db_mail alice) (Some bob)
            (thread (res_db r) alice bob)).
Proof. cbv zeta. split; [|split]; by_computation. Qed.

Example repeated_my_skill_last_is_not_owned :
  propose_exchange_view decimal 10 db0
    (post_as alice [("my_skill", "1"); ("my_skill", "3")]) 3
  = mkResult db0 [] Http404.
Proof. by_computation. Qed.

(** * Instances of the theorems *)

Lemma approval_invariant_preserved_witness :
  db_invariant (db_after 5)
  /\ db_invariant (apply_op decimal 60 (db_after 5) (BulkReset [1])).
Proof.
  assert (H : db_invariant (db_after 5)).
  { unfold db_invariant. vm_compute.
    constructor; [intros _; split; reflexivity|constructor]. }
  split; [exact H|].
  apply (approval_invariant_preserved decimal 60 (db_after 5) (BulkReset [1]) H).
Defined.

Lemma admin_approve_exchange_spec_witness :
  let r := admin_approve_exchange 50 (db_after 4) (post_as staff []) 1 in
  exists stored,
    find (fun e => ex_pk e =? 1) (exchanges (res_db r)) = Some stored
    /\ admin_approved stored = true
    /\ admin_approved_date stored = Some 50
    /\ status stored = completed.
Proof.
  assert (Hfind : find (fun e => ex_pk e =? 1) (exchanges (db_after 4))
                  = Some exchange_both) by by_computation.
  assert (Hstaff : is_active staff && is_staff staff = true) by reflexivity.
  assert (Hboth : both_users_completed exchange_both = true) by reflexivity.
  assert (Hnot : admin_approved exchange_both = false) by reflexivity.
  pose proof (admin_approve_exchange_spec 50 (db_after 4) (post_as staff [])
                staff 1 exchange_both eq_refl Hstaff eq_refl Hfind) as H.
  cbv zeta in H. destruct H as (H & _ & _).
  destruct (H Hboth Hnot) as (_ & Hstored & _).
  cbv zeta. eexists. split; [exact Hstored|].
  split; [|split]; by_computation.
Defined.

Lemma mark_exchange_complete_idempotent_witness :
  let r1 := mark_exchange_complete 30 (db_after 2) (post_as alice []) 1 in
  let r2 := mark_exchange_complete 31 (res_db r1) (post_as alice []) 1 in
  map status (exchanges (res_db r1)) = map status (exchanges (db_after 2))
  /\ res_db r2 = res_db r1
  /\ Forall (fun n => level n = INFO) (res_notices r2).
Proof.
  assert (Hnd : exchange_pk_unique (db_after 2)).
  { unfold exchange_pk_unique. vm_compute.
    constructor; [intros []|constructor]. }
  assert (Hfind : active_exchange_of (db_after 2) alice 1 = Some exchange_active)
    by by_computation.
  pose proof (mark_exchange_complete_idempotent 30 31 (db_after 2)
                (post_as alice []) 1 Hnd) as H.
  cbv zeta in H. destruct H as (Hst & _ & H).
  destruct (H alice exchange_active eq_refl eq_refl Hfind)
    as (_ & Hdb & Hinfo & _).
  cbv zeta. split; [exact Hst|]. split; assumption.
Defined.

Lemma find_matches_spec_witness :
  reciprocal_match db0 alice (mkMatch "BO" "bob@example.com" 2 "Chess" "Guitar")
  /\ (List.length (find_matches upper_ascii db0 alice) <= 3)%nat.
Proof.
  destruct (find_matches_spec upper_ascii db0 alice) as (H & Hlen & _).
  split; [|exact Hlen].
  apply H. left. by_computation.
Defined.

Lemma accept_exchange_spec_witness :
  res_db (accept_exchange 20 (db_after 1) (post_as bob []) 1)
  = Exchange_save 20 (set_status active exchange_pending) (db_after 1).
Proof.
  assert (Hfind : pending_exchange_for (db_after 1) bob 1 = Some exchange_pending)
    by by_computation.
  pose proof (accept_exchange_spec 20 (db_after 1) (post_as bob []) bob 1
                eq_refl) as H.
  cbv zeta in H. rewrite Hfind in H.
  destruct H as (_ & _ & _ & H & _). exact H.
Defined.

Lemma conversation_list_spec_witness :
  StronglySorted (fun x y => sort_key y <= sort_key x)
    (conversations_of db_mail alice)
  /\ forall c, In c (conversations_of db_mail alice) ->
       unread_count c
       = Z.of_nat (List.length
                     (unread_from db_mail (user_pk (conv_user c)) (user_pk alice))).
Proof.
  assert (Hr : res_response (messages_view 9 db_mail (get_as alice) None)
               = Render "messages.html"
                   (MessagesContext (conversations_of db_mail alice) None []))
    by reflexivity.
  pose proof (conversation_list_spec 9 db_mail (get_as alice) alice None
                "messages.html" (conversations_of db_mail alice) None []
                eq_refl Hr) as [H Hs].
  split; [exact Hs|].
  intros c Hc. apply (H c Hc).
Defined.

Lemma messages_view_send_spec_witness :
  let request := post_as alice [("content", "first"); ("content", " yo ")] in
  let r := messages_view 9 db_mail request (Some 2) in
  (exists k,
      ~ In k (map msg_pk (messages (mark_read bob alice db_mail)))
      /\ messages (res_db r)
         = messages (mark_read bob alice db_mail)
           ++ [mkMessage k (user_pk alice) 2 (posted_content request) 9 false])
  /\ res_response r = Redirect "conversation" (Some 2).
Proof.
  assert (Hnz : 2 <> 0) by discriminate.
  assert (Hfind : find (fun u => user_pk u =? 2) (users db_mail) = Some bob)
    by by_computation.
  assert (Hc : posted_content
                 (post_as alice [("content", "first"); ("content", " yo ")])
               <> "").
  { vm_compute. discriminate. }
  pose proof (messages_view_send_spec 9 db_mail
                (post_as alice [("content", "first"); ("content", " yo ")])
                alice 2 bob eq_refl eq_refl Hnz Hfind) as H.
  cbv zeta in H. destruct H as (_ & _ & _ & H).
  destruct (H Hc) as (Hm & _ & _ & _ & Hr).
  cbv zeta. split; [exact Hm|exact Hr].
Defined.

Lemma admin_toggle_staff_spec_witness :
  exists toggled,
    find (fun u => user_pk u =? 2)
         (users (res_db (admin_toggle_staff db0 (post_as staff []) 2)))
    = Some toggled
    /\ is_staff toggled = true /\ is_superuser toggled = true.
Proof.
  assert (Hfind : find (fun u => user_pk u =? 2) (users db0) = Some bob)
    by by_computation.
  assert (Hstaff : is_active staff && is_staff staff = true) by reflexivity.
  assert (Hother : user_eqb bob staff = false) by reflexivity.
  pose proof (admin_toggle_staff_spec db0 (post_as staff []) staff 2 bob
                eq_refl Hstaff eq_refl Hfind) as H.
  cbv zeta in H. destruct H as (H & _).
  destruct (H Hother) as (toggled & _ & Hfound & Hst & Hsuper & _).
  exists toggled. split; [exact Hfound|].
  rewrite Hsuper, Hst. split; reflexivity.
Defined.

Lemma propose_exchange_never_self_witness :
  let r := propose_exchange_view decimal 10 db0
             (post_as alice [("my_skill", "1")]) 1 in
  res_db r = db0
  /\ res_notices r
     = [mkNotice ERROR "You cannot propose an exchange with yourself!"].
Proof.
  assert (Hfind :
            find (fun us => (us_pk us =? 1) && role_eqb (role us) offer)
                 (user_skills db0)
            = Some (mkUserSkill 1 alice guitar offer advanced 5))
    by by_computation.
  assert (Hself : user_eqb (user (mkUserSkill 1 alice guitar offer advanced 5))
                    alice = true) by reflexivity.
  pose proof (propose_exchange_never_self decimal 10 db0
                (post_as alice [("my_skill", "1")]) 1) as H.
  cbv zeta in H. destruct H as (H & _).
  destruct (H alice (mkUserSkill 1 alice guitar offer advanced 5)
              eq_refl Hfind Hself) as (Hdb & Hn & _).
  cbv zeta. split; assumption.
Defined.

(** * Where the code departs from the specification *)

(** C6 as the specification words it fails: Alice, who is [user1] of the
    pending exchange 1, asks to accept it.  Nothing resolves, nothing is
    written, and the response is the not-found response, not a redirect. *)
Lemma accept_exchange_unresolved_not_redirect :
  let r := accept_exchange 20 (db_after 1) (post_as alice []) 1 in
  pending_exchange_for (db_after 1) alice 1 = None
  /\ res_db r = db_after 1
  /\ res_response r = Http404
  /\ forall to arg, res_response r <> Redirect to arg.
Proof.
  cbv zeta. split; [by_computation|]. split; [by_computation|].
  split; [by_computation|].
  intros to arg H. vm_compute in H. discriminate.
Qed.

(** C8 as the specification words it fails: Alice posts blank content to
    the thread with Bob while his message is unread.  No row is created,
    but the store is not what it was: the message is now read. *)
Lemma empty_send_changes_store :
  let request := post_as alice [("content", "  ")] in
  let r := messages_view 9 db_mail request (Some 2) in
  posted_content request = ""
  /\ map msg_pk (messages (res_db r)) = map msg_pk (messages db_mail)
  /\ map is_read (messages db_mail) = [true; false]
  /\ map is_read (messages (res_db r)) = [true; true]
  /\ res_db r <> db_mail.
Proof.
  cbv zeta. split; [by_computation|]. split; [by_computation|].
  split; [by_computation|]. split; [by_computation|].
  intros H.
  apply (f_equal (fun d => map is_read (messages d))) in H.
  vm_compute in H. discriminate.
Qed.

(** * Further properties of the handlers *)

(** ** Primary keys *)

Lemma first_by_pk_least {A : Type} (pk : A -> Z) (rows : list A) (r : A) :
  first_by_pk pk rows = Some r -> forall r', In r' rows -> pk r <= pk r'.
Proof.
  revert r; induction rows as [|x rows IH]; simpl; intros r H r' Hin.
  - destruct Hin.
  - destruct (first_by_pk pk rows) as [m|] eqn:Hm.
    + specialize (IH m eq_refl).
      destruct (pk m <? pk x) eqn:Hlt; injection H as <-.
      * apply Z.ltb_lt in Hlt. destruct Hin as [<-|Hin]; [lia|auto].
      * apply Z.ltb_ge in Hlt. destruct Hin as [<-|Hin]; [lia|].
        specialize (IH r' Hin). lia.
    + injection H as <-. apply first_by_pk_None in Hm. subst rows.
      destruct Hin as [<-|[]]. lia.
Qed.

Lemma NoDup_snoc {A : Type} (l : list A) (x : A) :
  NoDup l -> ~ In x l -> NoDup (l ++ [x]).
Proof.
  induction l as [|y l IH]; simpl; intros Hnd Hx.
  - constructor; [intros []|constructor].
  - inversion Hnd as [|? ? Hy Hnd']; subst. constructor.
    + rewrite in_app_iff. intros [H|[H|[]]]; [contradiction|].
      apply Hx. left. symmetry. exact H.
    + apply IH; [assumption|]. intros H; apply Hx; right; exact H.
Qed.

Lemma Exchange_save_unique (now : Z) (e : Exchange) (db : DB) :
  exchange_pk_unique db -> exchange_pk_unique (Exchange_save now e db).
Proof. unfold exchange_pk_unique. rewrite save_keeps_pks. auto. Qed.

Lemma Exchange_create_unique (now : Z) (u1 u2 : User) (s1 s2 : option Skill)
    (st : Status) (nt : string) (db : DB) :
  exchange_pk_unique db ->
  exchange_pk_unique (Exchange_create now u1 u2 s1 s2 st nt db).
Proof.
  unfold exchange_pk_unique, Exchange_create; simpl. intros Hnd.
  rewrite map_app; simpl. apply NoDup_snoc; [assumption|].
  intros Hin. apply next_pk_fresh in Hin. lia.
Qed.

Lemma Exchange_update_unique (sel : Exchange -> bool)
    (f : Exchange -> Exchange) (db : DB) :
  (forall e, ex_pk (f e) = ex_pk e) ->
  exchange_pk_unique db -> exchange_pk_unique (Exchange_update sel f db).
Proof.
  unfold exchange_pk_unique, Exchange_update; simpl. intros Hf Hnd.
  rewrite map_map.
  erewrite map_ext; [exact Hnd|].
  intros row; simpl. destruct (sel row); [apply Hf|reflexivity].
Qed.

Lemma approve_exchanges_unique now db selected :
  exchange_pk_unique db ->
  exchange_pk_unique (fst (approve_exchanges now db selected)).
Proof.
  unfold approve_exchanges.
  generalize (filter (in_queryset selected) (exchanges db)) as rows.
  generalize 0 as updated.
  intros updated rows; revert db updated.
  induction rows as [|e rows IH]; intros db updated Hdb.
  - simpl; assumption.
  - simpl fold_left.
    destruct (both_users_completed e && negb (admin_approved e)).
    + specialize (IH (Exchange_save now
                        (set_status completed
                           (set_admin_approved_date (Some now)
                              (set_admin_approved true e))) db)
                     (updated + 1)).
      destruct (fold_left _ rows _) as [db' n'] eqn:Hfold.
      simpl in *. apply IH. apply Exchange_save_unique; assumption.
    + specialize (IH db updated Hdb).
      destruct (fold_left _ rows _) as [db' n'] eqn:Hfold.
      simpl in *. exact IH.
Qed.

(** Case analysis over the branches of a handler. *)
Ltac handler_cases :=
  repeat match goal with
         | |- context [match ?x with _ => _ end] => destruct x eqn:?
         end.

(** X1.  No operation breaks the uniqueness of the primary key of
    [Exchange]: a saved row keeps its key, and a created row gets a key
    above every stored one. *)
Theorem exchange_pk_unique_preserved :
  forall (int : string -> option Z) (now : Z) (db : DB) (op : Op),
    exchange_pk_unique db -> exchange_pk_unique (apply_op int now db op).
Proof.
  intros int now db op Hdb; destruct op; cbn [apply_op].
  - unfold start_exchange, login_required; handler_cases; cbn [res_db];
      auto using Exchange_create_unique.
  - unfold propose_exchange_view, login_required; handler_cases; cbn [res_db];
      auto using Exchange_create_unique.
  - unfold accept_exchange, login_required; handler_cases; cbn [res_db];
      auto using Exchange_save_unique.
  - unfold reject_exchange, login_required; handler_cases; cbn [res_db];
      auto using Exchange_save_unique.
  - unfold mark_exchange_complete, login_required, require_POST;
      handler_cases; cbn [res_db]; auto using Exchange_save_unique.
  - unfold admin_approve_exchange, staff_member_required, require_POST;
      handler_cases; cbn [res_db]; auto using Exchange_save_unique.
  - apply approve_exchanges_unique; assumption.
  - unfold mark_pending_approval; cbn [fst].
    apply Exchange_update_unique; [reflexivity|assumption].
  - unfold reset_completion; cbn [fst].
    apply Exchange_update_unique; [reflexivity|assumption].
Qed.

(** ** Rejecting and starting *)

(** X2.  [reject_exchange], for an authenticated caller: the exchange
    resolved by id, caller as [user2] and status [pending] is stored again
    with status [cancelled], with an informational notice; when nothing
    resolves the store is unchanged and the response is not-found. *)
Theorem reject_exchange_spec :
  forall (now : Z) (db : DB) (request : Request) (u : User) (exchange_id : Z),
    req_user request = Some u ->
    let r := reject_exchange now db request exchange_id in
    match pending_exchange_for db u exchange_id with
    | Some e =>
        res_db r = Exchange_save now (set_status cancelled e) db
        /\ find (fun x => ex_pk x =? exchange_id) (exchanges (res_db r))
           = Some (set_last_updated now (set_status cancelled e))
        /\ res_notices r = [mkNotice INFO "Exchange proposal declined."]
        /\ res_response r = Redirect "dashboard" None
    | None =>
        res_db r = db /\ res_notices r = [] /\ res_response r = Http404
    end.
Proof.
  intros now db request u exchange_id Hu r. subst r.
  unfold reject_exchange, login_required. rewrite Hu.
  destruct (pending_exchange_for db u exchange_id) as [e|] eqn:Hfind.
  - destruct (pending_exchange_for_spec _ _ _ _ Hfind) as (Hin & Hpk & _ & _).
    unfold pending_exchange_for in Hfind. rewrite Hfind.
    cbn [res_db res_notices res_response].
    split; [reflexivity|]. split; [|auto].
    apply find_saved with (k := exchange_id).
    + intros x Hx; apply Z.eqb_eq; exact Hx.
    + exists e; auto.
    + exact Hpk.
    + simpl; apply Z.eqb_eq; exact Hpk.
  - unfold pending_exchange_for in Hfind. rewrite Hfind. auto.
Qed.

(** X3.  [start_exchange], for an authenticated caller and a target
    [UserSkill] that resolves: a caller who offers no skill gets the error
    notice and nothing is created; otherwise exactly one pending exchange
    is appended, from the caller to the owner of the target, teaching the
    caller's offered skill with the least primary key, with no flag set. *)
Theorem start_exchange_spec :
  forall (now : Z) (db : DB) (request : Request) (u : User)
         (user_id skill_id : Z) (target : UserSkill),
    req_user request = Some u ->
    find (fun us => (us_pk us =? skill_id) && (user_pk (user us) =? user_id))
         (user_skills db) = Some target ->
    let r := start_exchange now db request user_id skill_id in
    let mine :=
      filter (fun us => user_eqb (user us) u && role_eqb (role us) offer)
             (user_skills db) in
    (mine = [] ->
     res_db r = db
     /\ res_notices r =
        [mkNotice ERROR
           "You must add a skill you can offer before starting an exchange."]
     /\ res_response r = Redirect "dashboard" None)
    /\ (mine <> [] ->
        exists teach,
          In teach mine
          /\ (forall us, In us mine -> us_pk teach <= us_pk us)
          /\ exchanges (res_db r)
             = exchanges db
               ++ [mkExchange (next_pk (map ex_pk (exchanges db))) u (user target)
                     (Some (skill teach)) (Some (skill target)) pending
                     now None "" now false false None None false None ""]
          /\ map level (res_notices r) = [SUCCESS]
          /\ res_response r = Redirect "dashboard" None).
Proof.
  intros now db request u user_id skill_id target Hu Hfind r mine.
  subst r mine. unfold start_exchange, login_required. rewrite Hu, Hfind.
  split.
  - intros Hnone. rewrite Hnone. simpl. auto.
  - intros Hsome.
    destruct (first_by_pk us_pk _) as [teach|] eqn:Hfirst.
    + exists teach. split; [eapply first_by_pk_In; exact Hfirst|].
      split; [apply first_by_pk_least; exact Hfirst|].
      cbn [res_db res_notices res_response map level Exchange_create
           with_exchanges exchanges]. auto.
    + apply first_by_pk_None in Hfirst. contradiction.
Qed.

(** X4.  Unlike the propose flow, [start_exchange] has no guard against
    the caller's own skills: aimed at an offered skill of the caller, it
    creates a pending exchange whose two users are the same. *)
Theorem start_exchange_allows_self :
  forall (now : Z) (db : DB) (request : Request) (u : User) (skill_id : Z)
         (target : UserSkill),
    req_user request = Some u ->
    find (fun us => (us_pk us =? skill_id) && (user_pk (user us) =? user_pk u))
         (user_skills db) = Some target ->
    role target = offer ->
    exists e,
      exchanges (res_db (start_exchange now db request (user_pk u) skill_id))
      = exchanges db ++ [e]
      /\ user_pk (user1 e) = user_pk (user2 e)
      /\ status e = pending.
Proof.
  intros now db request u skill_id target Hu Hfind Hrole.
  unfold start_exchange, login_required. rewrite Hu, Hfind.
  apply find_In in Hfind as [Hin Hp].
  apply andb_true_iff in Hp as [_ Hown]. apply Z.eqb_eq in Hown.
  destruct (first_by_pk us_pk _) as [teach|] eqn:Hfirst.
  - eexists. cbn [res_db Exchange_create with_exchanges exchanges].
    split; [reflexivity|]. simpl. auto.
  - apply first_by_pk_None in Hfirst.
    assert (Hmine : In target
              (filter (fun us => user_eqb (user us) u && role_eqb (role us) offer)
                      (user_skills db))).
    { apply filter_In. split; [assumption|].
      unfold user_eqb. rewrite Hown, Z.eqb_refl. simpl.
      apply role_eqb_eq. assumption. }
    rewrite Hfirst in Hmine. destruct Hmine.
Qed.

(** ** Access control *)

(** X5.  A request without an authenticated user changes nothing: every
    handler answers with the redirect to the login page and the store it
    was given. *)
Theorem anonymous_request_changes_nothing :
  forall (int : string -> option Z) (now : Z) (db : DB) (request : Request)
         (a b : Z) (user_id : option Z),
    req_user request = None ->
    let denied := mkResult db [] RedirectToLogin in
    start_exchange now db request a b = denied
    /\ propose_exchange_view int now db request a = denied
    /\ accept_exchange now db request a = denied
    /\ reject_exchange now db request a = denied
    /\ mark_exchange_complete now db request a = denied
    /\ admin_approve_exchange now db request a = denied
    /\ admin_toggle_staff db request a = denied
    /\ admin_delete_user db request a = denied
    /\ messages_view now db request user_id = denied.
Proof.
  intros int now db request a b user_id Hu denied. subst denied.
  unfold start_exchange, propose_exchange_view, accept_exchange,
    reject_exchange, mark_exchange_complete, admin_approve_exchange,
    admin_toggle_staff, admin_delete_user, messages_view,
    login_required, staff_member_required.
  rewrite Hu. repeat split.
Qed.

(** X6.  The staff handlers refuse a caller who is not both active and
    staff, before anything else: the store is unchanged and the response
    is the redirect to the login page. *)
Theorem non_staff_changes_nothing :
  forall (now : Z) (db : DB) (request : Request) (u : User) (a : Z),
    req_user request = Some u ->
    is_active u && is_staff u = false ->
    let denied := mkResult db [] RedirectToLogin in
    admin_approve_exchange now db request a = denied
    /\ admin_toggle_staff db request a = denied
    /\ admin_delete_user db request a = denied.
Proof.
  intros now db request u a Hu Hstaff denied. subst denied.
  unfold admin_approve_exchange, admin_toggle_staff, admin_delete_user,
    staff_member_required.
  rewrite Hu, Hstaff. repeat split.
Qed.

(** X7.  The handlers under [require_POST] answer any other method of an
    authorised caller with 405 and the store unchanged. *)
Theorem other_method_changes_nothing :
  forall (now : Z) (db : DB) (request : Request) (u : User) (a : Z),
    req_user request = Some u ->
    method request <> POST ->
    let refused := mkResult db [] Http405 in
    mark_exchange_complete now db request a = refused
    /\ (is_active u && is_staff u = true ->
        admin_approve_exchange now db request a = refused
        /\ admin_toggle_staff db request a = refused
        /\ admin_delete_user db request a = refused).
Proof.
  intros now db request u a Hu Hm refused. subst refused.
  unfold mark_exchange_complete, admin_approve_exchange, admin_toggle_staff,
    admin_delete_user, login_required, staff_member_required, require_POST.
  rewrite Hu.
  destruct (method request); try congruence;
    (split; [reflexivity|intros Hs; rewrite Hs; repeat split]).
Qed.

(** ** Resolving rows after a save *)

Lemma user_eqb_sym (a b : User) : user_eqb a b = user_eqb b a.
Proof. unfold user_eqb. apply Z.eqb_sym. Qed.

Lemma resolve_unique (p : Exchange -> bool) (l : list Exchange) (e : Exchange) :
  NoDup (map ex_pk l) -> In e l -> p e = true ->
  (forall x, p x = true -> ex_pk x = ex_pk e) ->
  find p l = Some e.
Proof.
  intros Hnd Hin Hpe Hp. induction l as [|h l IH]; [destruct Hin|].
  simpl. destruct (p h) eqn:Hph.
  - f_equal. apply (pk_unique_eq ex_pk (h :: l)); auto.
    left; reflexivity.
  - inversion Hnd; subst. destruct Hin as [->|Hin]; [congruence|].
    apply IH; assumption.
Qed.

Lemma saved_row_In (now : Z) (e e' : Exchange) (db : DB) :
  In e (exchanges db) -> ex_pk e' = ex_pk e ->
  In (set_last_updated now e') (exchanges (Exchange_save now e' db)).
Proof.
  intros Hin Hk. unfold Exchange_save; simpl. apply in_map_iff.
  exists e. split; [|assumption].
  rewrite Hk, Z.eqb_refl. reflexivity.
Qed.

(** After [save], every stored row with the key of the instance is the
    instance. *)
Lemma saved_rows_with_pk (now : Z) (e' x : Exchange) (db : DB) :
  In x (exchanges (Exchange_save now e' db)) -> ex_pk x = ex_pk e' ->
  x = set_last_updated now e'.
Proof.
  unfold Exchange_save; simpl. rewrite in_map_iff.
  intros [row [Hx Hin]] Hk.
  destruct (ex_pk row =? ex_pk e') eqn:Hr; [congruence|].
  subst x. apply Z.eqb_neq in Hr. contradiction.
Qed.

Lemma find_none_after_save (p : Exchange -> bool) (now : Z) (e' : Exchange)
    (db : DB) :
  (forall x, p x = true -> ex_pk x = ex_pk e') ->
  p (set_last_updated now e') = false ->
  find p (exchanges (Exchange_save now e' db)) = None.
Proof.
  intros Hp He'. destruct (find p _) as [x|] eqn:Hf; [|reflexivity].
  apply find_In in Hf as [Hin Hx].
  rewrite (saved_rows_with_pk now e' x db Hin (Hp x Hx)) in Hx. congruence.
Qed.

Lemma active_exchange_of_pk (u : User) (exchange_id : Z) (x : Exchange) :
  (user_eqb (user1 x) u || user_eqb (user2 x) u)
  && (ex_pk x =? exchange_id) && status_eqb (status x) active = true ->
  ex_pk x = exchange_id.
Proof.
  intros Hx. apply andb_true_iff in Hx as [Hx _].
  apply andb_true_iff in Hx as [_ Hx]. apply Z.eqb_eq; exact Hx.
Qed.

Lemma pending_exchange_for_pk (u : User) (exchange_id : Z) (x : Exchange) :
  (ex_pk x =? exchange_id) && user_eqb (user2 x) u
  && status_eqb (status x) pending = true ->
  ex_pk x = exchange_id.
Proof.
  intros Hx. apply andb_true_iff in Hx as [Hx _].
  apply andb_true_iff in Hx as [Hx _]. apply Z.eqb_eq; exact Hx.
Qed.

(** ** Marking complete, further *)

(** X8.  The first mark of a participant of an active exchange: the
    stored row gets the caller's flag and the caller's completion date
    (the time of the request), keeps the other participant's flag, the
    status and the approval; the notice is a success, followed by the
    notice that admin review is pending exactly when the other
    participant had already marked and the exchange is not approved. *)
Theorem mark_exchange_complete_first :
  forall (now : Z) (db : DB) (request : Request) (u : User) (exchange_id : Z)
         (exchange : Exchange),
    req_user request = Some u -> method request = POST ->
    active_exchange_of db u exchange_id = Some exchange ->
    own_completed u exchange = false ->
    let r := mark_exchange_complete now db request exchange_id in
    let is_user1 := user_eqb u (user1 exchange) in
    let other_completed :=
      if is_user1 then user2_completed exchange else user1_completed exchange in
    exists stored,
      active_exchange_of (res_db r) u exchange_id = Some stored
      /\ own_completed u stored = true
      /\ (if is_user1 then user1_completed_date stored
          else user2_completed_date stored) = Some now
      /\ (if is_user1 then user2_completed stored else user1_completed stored)
         = other_completed
      /\ status stored = active
      /\ admin_approved stored = admin_approved exchange
      /\ last_updated stored = now
      /\ res_notices r
         = mkNotice SUCCESS marked_complete_text
           :: (if other_completed && negb (admin_approved exchange)
               then [mkNotice INFO awaiting_admin_text] else [])
      /\ res_response r = Redirect "exchanges" None.
Proof.
  intros now db request u exchange_id exchange Hu Hm Hfind Hown r is_user1 other.
  subst r is_user1 other.
  unfold mark_exchange_complete, login_required, require_POST.
  pose proof Hfind as Hfind0.
  unfold active_exchange_of in Hfind. rewrite Hu, Hm, Hfind.
  apply find_In in Hfind as [Hin Hp].
  pose proof (active_exchange_of_pk _ _ _ Hp) as Hpk.
  apply andb_true_iff in Hp as [Hp Hst].
  apply andb_true_iff in Hp as [Hpart _].
  pose proof Hst as Hst'. apply status_eqb_eq in Hst'.
  unfold own_completed in Hown.
  destruct (user_eqb u (user1 exchange)) eqn:His1; rewrite Hown; simpl.
  - eexists. split.
    + unfold active_exchange_of. apply find_saved with (k := exchange_id).
      * apply active_exchange_of_pk.
      * exists exchange; auto.
      * exact Hpk.
      * simpl. rewrite Hpart, Hst. simpl. rewrite andb_true_r.
        apply Z.eqb_eq; exact Hpk.
    + unfold own_completed, awaiting_admin_notice, both_users_completed; simpl.
      rewrite His1. repeat split; auto.
  - eexists. split.
    + unfold active_exchange_of. apply find_saved with (k := exchange_id).
      * apply active_exchange_of_pk.
      * exists exchange; auto.
      * exact Hpk.
      * simpl. rewrite Hpart, Hst. simpl. rewrite andb_true_r.
        apply Z.eqb_eq; exact Hpk.
    + unfold own_completed, awaiting_admin_notice, both_users_completed; simpl.
      rewrite His1, andb_true_r. repeat split; auto.
Qed.

(** What one invocation does to the resolved row. *)
Lemma mark_step now db request u exchange_id e :
  req_user request = Some u -> method request = POST ->
  active_exchange_of db u exchange_id = Some e ->
  exists e',
    In e' (exchanges (res_db (mark_exchange_complete now db request exchange_id)))
    /\ ex_pk e' = exchange_id /\ status e' = active
    /\ user1 e' = user1 e /\ user2 e' = user2 e
    /\ admin_approved e' = admin_approved e
    /\ user1_completed e' = (user1_completed e || user_eqb u (user1 e))
    /\ user2_completed e' = (user2_completed e || negb (user_eqb u (user1 e))).
Proof.
  intros Hu Hm Hfind.
  unfold mark_exchange_complete, login_required, require_POST.
  unfold active_exchange_of in Hfind. rewrite Hu, Hm, Hfind.
  apply find_In in Hfind as [Hin Hp].
  pose proof (active_exchange_of_pk _ _ _ Hp) as Hpk.
  apply andb_true_iff in Hp as [_ Hst]. apply status_eqb_eq in Hst.
  destruct (user_eqb u (user1 e)) eqn:His1;
    [destruct (user1_completed e) eqn:Hc|destruct (user2_completed e) eqn:Hc];
    cbn [andb negb res_db].
  - exists e. simpl. rewrite ?orb_false_r, ?orb_true_r. repeat split; auto.
  - eexists. split; [apply saved_row_In with (e := e); [exact Hin|reflexivity]|].
    simpl. rewrite ?orb_false_r, ?orb_true_r. repeat split; auto.
  - exists e. simpl. rewrite ?orb_false_r, ?orb_true_r. repeat split; auto.
  - eexists. split; [apply saved_row_In with (e := e); [exact Hin|reflexivity]|].
    simpl. rewrite ?orb_false_r, ?orb_true_r. repeat split; auto.
Qed.

Lemma mark_then_mark now1 now2 db req_a req_b a b exchange_id e :
  exchange_pk_unique db ->
  req_user req_a = Some a -> method req_a = POST ->
  req_user req_b = Some b -> method req_b = POST ->
  active_exchange_of db a exchange_id = Some e ->
  user_eqb (user1 e) b || user_eqb (user2 e) b = true ->
  let db' :=
    res_db (mark_exchange_complete now2
              (res_db (mark_exchange_complete now1 db req_a exchange_id))
              req_b exchange_id) in
  exists stored,
    find (fun x => ex_pk x =? exchange_id) (exchanges db') = Some stored
    /\ status stored = active
    /\ admin_approved stored = admin_approved e
    /\ user1_completed stored
       = (user1_completed e || user_eqb a (user1 e) || user_eqb b (user1 e))
    /\ user2_completed stored
       = (user2_completed e || negb (user_eqb a (user1 e))
          || negb (user_eqb b (user1 e))).
Proof.
  intros Hnd Ha Hma Hb Hmb Hfind Hpart db'. subst db'.
  destruct (mark_step now1 db req_a a exchange_id e Ha Hma Hfind)
    as (e1 & Hin1 & Hpk1 & Hst1 & Hu1 & Hu2 & Hap1 & Hc1 & Hc2).
  destruct (mark_exchange_complete_keeps_status now1 db req_a exchange_id Hnd)
    as [_ Hpks1].
  set (db1 := res_db (mark_exchange_complete now1 db req_a exchange_id)) in *.
  assert (Hnd1 : exchange_pk_unique db1).
  { unfold exchange_pk_unique. rewrite Hpks1. exact Hnd. }
  assert (Hfind1 : active_exchange_of db1 b exchange_id = Some e1).
  { unfold active_exchange_of. apply resolve_unique; auto.
    - rewrite Hu1, Hu2, Hpart, Hpk1, Z.eqb_refl, Hst1. reflexivity.
    - intros x Hx. rewrite Hpk1. eapply active_exchange_of_pk; exact Hx. }
  destruct (mark_step now2 db1 req_b b exchange_id e1 Hb Hmb Hfind1)
    as (e2 & Hin2 & Hpk2 & Hst2 & Hv1 & Hv2 & Hap2 & Hd1 & Hd2).
  destruct (mark_exchange_complete_keeps_status now2 db1 req_b exchange_id Hnd1)
    as [_ Hpks2].
  exists e2. split.
  - apply resolve_unique; auto.
    + rewrite Hpks2. exact Hnd1.
    + apply Z.eqb_eq; exact Hpk2.
    + intros x Hx. apply Z.eqb_eq in Hx. congruence.
  - rewrite Hd1, Hd2, Hc1, Hc2, Hu1, Hap2, Hap1. auto.
Qed.

(** X9.  When both participants of an active exchange have marked their
    part, in either order, the stored exchange has both flags set and is
    still active and not approved: its completion status is the one that
    awaits the admin. *)
Theorem both_marks_await_approval :
  forall (now1 now2 : Z) (db : DB) (req1 req2 : Request) (u1 u2 : User)
         (exchange_id : Z) (e : Exchange),
    exchange_pk_unique db ->
    req_user req1 = Some u1 -> method req1 = POST ->
    req_user req2 = Some u2 -> method req2 = POST ->
    active_exchange_of db u1 exchange_id = Some e ->
    user_eqb u1 (user1 e) = true ->
    user_eqb u2 (user1 e) = false ->
    user_eqb (user2 e) u2 = true ->
    admin_approved e = false ->
    let db12 :=
      res_db (mark_exchange_complete now2
                (res_db (mark_exchange_complete now1 db req1 exchange_id))
                req2 exchange_id) in
    let db21 :=
      res_db (mark_exchange_complete now2
                (res_db (mark_exchange_complete now1 db req2 exchange_id))
                req1 exchange_id) in
    forall db', db' = db12 \/ db' = db21 ->
      exists stored,
        find (fun x => ex_pk x =? exchange_id) (exchanges db') = Some stored
        /\ both_users_completed stored = true
        /\ status stored = active
        /\ completion_status stored = "Awaiting Admin Approval".
Proof.
  intros now1 now2 db req1 req2 u1 u2 exchange_id e Hnd H1 Hm1 H2 Hm2 Hfind
    His1 Hnot1 His2 Hap db12 db21 db' Hdb'.
  assert (Hpart1 : user_eqb (user1 e) u1 || user_eqb (user2 e) u1 = true).
  { rewrite (user_eqb_sym (user1 e) u1), His1. reflexivity. }
  assert (Hpart2 : user_eqb (user1 e) u2 || user_eqb (user2 e) u2 = true).
  { rewrite His2. apply orb_true_r. }
  assert (Hfind2 : active_exchange_of db u2 exchange_id = Some e).
  { pose proof Hfind as Hf. unfold active_exchange_of in Hf.
    apply find_In in Hf as [Hin Hp].
    pose proof (active_exchange_of_pk _ _ _ Hp) as Hpk.
    apply andb_true_iff in Hp as [_ Hst].
    unfold active_exchange_of. apply resolve_unique; auto.
    - rewrite Hpart2, Hpk, Z.eqb_refl, Hst. reflexivity.
    - intros x Hx. rewrite Hpk. eapply active_exchange_of_pk; exact Hx. }
  assert (Hgoal : forall stored,
             status stored = active ->
             admin_approved stored = admin_approved e ->
             user1_completed stored = true -> user2_completed stored = true ->
             both_users_completed stored = true /\ status stored = active
             /\ completion_status stored = "Awaiting Admin Approval").
  { intros stored Hs Ha Hc1 Hc2.
    unfold completion_status, both_users_completed.
    rewrite Ha, Hap, Hc1, Hc2, Hs. auto. }
  destruct Hdb' as [-> | ->]; subst db12 db21.
  - destruct (mark_then_mark now1 now2 db req1 req2 u1 u2 exchange_id e
                Hnd H1 Hm1 H2 Hm2 Hfind Hpart2)
      as (stored & Hf & Hs & Ha & Hc1 & Hc2).
    exists stored. split; [exact Hf|]. apply Hgoal; auto.
    + rewrite Hc1, His1. rewrite orb_true_r. reflexivity.
    + rewrite Hc2, Hnot1. simpl. apply orb_true_r.
  - destruct (mark_then_mark now1 now2 db req2 req1 u2 u1 exchange_id e
                Hnd H2 Hm2 H1 Hm1 Hfind2 Hpart1)
      as (stored & Hf & Hs & Ha & Hc1 & Hc2).
    exists stored. split; [exact Hf|]. apply Hgoal; auto.
    + rewrite Hc1, His1. apply orb_true_r.
    + rewrite Hc2, Hnot1. simpl. rewrite orb_true_r. reflexivity.
Qed.

(** X10.  [mark_exchange_complete] writes nothing and answers not-found
    when no stored exchange with the id is both active and one of the
    caller's. *)
Theorem mark_exchange_complete_unresolved :
  forall (now : Z) (db : DB) (request : Request) (u : User) (exchange_id : Z),
    req_user request = Some u -> method request = POST ->
    (forall e, In e (exchanges db) -> ex_pk e = exchange_id ->
               status e <> active
               \/ (user_pk (user1 e) <> user_pk u
                   /\ user_pk (user2 e) <> user_pk u)) ->
    mark_exchange_complete now db request exchange_id = mkResult db [] Http404.
Proof.
  intros now db request u exchange_id Hu Hm Hnone.
  unfold mark_exchange_complete, login_required, require_POST.
  rewrite Hu, Hm.
  destruct (find _ (exchanges db)) as [e|] eqn:Hf; [|reflexivity].
  exfalso. apply find_In in Hf as [Hin Hp].
  pose proof (active_exchange_of_pk _ _ _ Hp) as Hpk.
  apply andb_true_iff in Hp as [Hp Hst].
  apply andb_true_iff in Hp as [Hpart _].
  apply status_eqb_eq in Hst.
  destruct (Hnone e Hin Hpk) as [H|[H1 H2]]; [contradiction|].
  apply orb_true_iff in Hpart as [H|H]; apply Z.eqb_eq in H; contradiction.
Qed.

(** ** Decisions and approvals are final *)

(** X11.  Once [user2] has accepted or rejected a pending exchange, the
    exchange no longer resolves as pending for anyone: every later accept
    or reject of the same id answers not-found and writes nothing. *)
Theorem exchange_decision_is_final :
  forall (now : Z) (db : DB) (request : Request) (u : User) (exchange_id : Z)
         (e : Exchange),
    req_user request = Some u ->
    pending_exchange_for db u exchange_id = Some e ->
    forall db',
      db' = res_db (accept_exchange now db request exchange_id)
      \/ db' = res_db (reject_exchange now db request exchange_id) ->
      forall (now' : Z) (request' : Request) (v : User),
        req_user request' = Some v ->
        accept_exchange now' db' request' exchange_id = mkResult db' [] Http404
        /\ reject_exchange now' db' request' exchange_id = mkResult db' [] Http404.
Proof.
  intros now db request u exchange_id e Hu Hfind db' Hdb' now' request' v Hv.
  destruct (pending_exchange_for_spec _ _ _ _ Hfind) as (Hin & Hpk & _ & _).
  assert (Hnone : pending_exchange_for db' v exchange_id = None).
  { unfold pending_exchange_for in *.
    destruct Hdb' as [-> | ->].
    - unfold accept_exchange, login_required. rewrite Hu, Hfind.
      destruct (skill1 (set_status active e)); cbn [res_db];
        (apply find_none_after_save;
         [intros x Hx; simpl; rewrite Hpk;
          eapply pending_exchange_for_pk; exact Hx
         |simpl; rewrite andb_false_r; reflexivity]).
    - unfold reject_exchange, login_required. rewrite Hu, Hfind. cbn [res_db].
      apply find_none_after_save.
      + intros x Hx. simpl. rewrite Hpk.
        eapply pending_exchange_for_pk; exact Hx.
      + simpl. rewrite andb_false_r. reflexivity. }
  unfold pending_exchange_for in Hnone.
  unfold accept_exchange, reject_exchange, login_required.
  rewrite Hv, Hnone. split; reflexivity.
Qed.

(** X12.  After a successful admin approval the exchange is closed: a
    further approval writes nothing and only informs, and the participant
    handlers (mark complete, accept, reject) answer not-found for its id
    and write nothing. *)
Theorem admin_approval_is_final :
  forall (now : Z) (db : DB) (request : Request) (staff_user : User)
         (exchange_id : Z) (e : Exchange),
    req_user request = Some staff_user ->
    is_active staff_user && is_staff staff_user = true ->
    method request = POST ->
    find (fun x => ex_pk x =? exchange_id) (exchanges db) = Some e ->
    both_users_completed e = true ->
    admin_approved e = false ->
    let db1 := res_db (admin_approve_exchange now db request exchange_id) in
    (forall now',
        admin_approve_exchange now' db1 request exchange_id
        = mkResult db1
            [mkNotice INFO "This exchange has already been approved."]
            (Redirect "admin_exchanges" None))
    /\ (forall now' request' v,
           req_user request' = Some v -> method request' = POST ->
           mark_exchange_complete now' db1 request' exchange_id
           = mkResult db1 [] Http404)
    /\ (forall now' request' v,
           req_user request' = Some v ->
           accept_exchange now' db1 request' exchange_id = mkResult db1 [] Http404
           /\ reject_exchange now' db1 request' exchange_id
              = mkResult db1 [] Http404).
Proof.
  intros now db request staff_user exchange_id e Hu Hstaff Hm Hfind Hboth Hnot db1.
  assert (Hdb1 : db1 = Exchange_save now
                         (set_status completed
                            (set_admin_approved_date (Some now)
                               (set_admin_approved true e))) db).
  { subst db1. unfold admin_approve_exchange, staff_member_required, require_POST.
    rewrite Hu, Hstaff, Hm, Hfind, Hboth, Hnot. reflexivity. }
  clearbody db1. subst db1.
  apply find_In in Hfind as [Hin Hpk]. apply Z.eqb_eq in Hpk.
  split; [|split].
  - intros now'.
    unfold admin_approve_exchange, staff_member_required, require_POST.
    rewrite Hu, Hstaff, Hm.
    rewrite (find_saved (fun x => ex_pk x =? exchange_id) now _ db exchange_id).
    + unfold both_users_completed in *. simpl. rewrite Hboth. reflexivity.
    + intros x Hx; apply Z.eqb_eq; exact Hx.
    + exists e; auto.
    + exact Hpk.
    + simpl. apply Z.eqb_eq; exact Hpk.
  - intros now' request' v Hv Hm'.
    unfold mark_exchange_complete, login_required, require_POST.
    rewrite Hv, Hm'. rewrite find_none_after_save; [reflexivity| |].
    + intros x Hx. simpl. rewrite Hpk. eapply active_exchange_of_pk; exact Hx.
    + simpl. rewrite andb_false_r. reflexivity.
  - intros now' request' v Hv.
    unfold accept_exchange, reject_exchange, login_required. rewrite Hv.
    rewrite find_none_after_save; [split; reflexivity| |].
    + intros x Hx. simpl. rewrite Hpk. eapply pending_exchange_for_pk; exact Hx.
    + simpl. rewrite andb_false_r. reflexivity.
Qed.

(** ** The bulk actions, row by row *)

Lemma visit_row (now : Z) (done : list Z) (e r : Exchange) :
  (ex_pk r = ex_pk e -> r = e) ->
  mem (ex_pk e) done = false ->
  (if ready_for_approval e
   then if ex_pk (if mem (ex_pk r) done && ready_for_approval r
                  then approved_row now r else r) =? ex_pk e
        then approved_row now e
        else if mem (ex_pk r) done && ready_for_approval r
             then approved_row now r else r
   else if mem (ex_pk r) done && ready_for_approval r
        then approved_row now r else r)
  = if mem (ex_pk r) (ex_pk e :: done) && ready_for_approval r
    then approved_row now r else r.
Proof.
  intros Hsame Hfresh.
  assert (Hpk : ex_pk (if mem (ex_pk r) done && ready_for_approval r
                       then approved_row now r else r) = ex_pk r).
  { destruct (mem (ex_pk r) done && ready_for_approval r); reflexivity. }
  rewrite Hpk.
  replace (mem (ex_pk r) (ex_pk e :: done))
    with ((ex_pk r =? ex_pk e) || mem (ex_pk r) done) by reflexivity.
  destruct (ex_pk r =? ex_pk e) eqn:Hre.
  - apply Z.eqb_eq in Hre. rewrite (Hsame Hre) in *. rewrite Hfresh.
    destruct (ready_for_approval e); reflexivity.
  - destruct (ready_for_approval e); reflexivity.
Qed.

Lemma approve_step_visited (now : Z) (db0 : DB) (table : list Exchange)
    (done : list Z) (n : Z) (e : Exchange) :
  NoDup (map ex_pk table) -> In e table -> mem (ex_pk e) done = false ->
  approve_step now (with_exchanges db0 (approve_visited now done table), n) e
  = (with_exchanges db0 (approve_visited now (ex_pk e :: done) table),
     n + (if ready_for_approval e then 1 else 0)).
Proof.
  intros Hnd He Hfresh.
  assert (Hrow : forall r, In r table -> ex_pk r = ex_pk e -> r = e).
  { intros r Hr Hk. apply (pk_unique_eq ex_pk table); auto. }
  unfold approve_step. fold (ready_for_approval e).
  destruct (ready_for_approval e) eqn:Hready.
  - f_equal. unfold Exchange_save, with_exchanges, approve_visited.
    cbn [exchanges users user_skills messages]. f_equal.
    rewrite map_map. apply map_ext_in. intros r Hr.
    rewrite <- (visit_row now done e r (Hrow r Hr) Hfresh).
    rewrite Hready. reflexivity.
  - rewrite Z.add_0_r. f_equal. unfold with_exchanges, approve_visited. f_equal.
    apply map_ext_in. intros r Hr.
    rewrite <- (visit_row now done e r (Hrow r Hr) Hfresh).
    rewrite Hready. reflexivity.
Qed.

Lemma approve_fold (now : Z) (db0 : DB) (table : list Exchange)
    (rows : list Exchange) :
  NoDup (map ex_pk table) ->
  (forall r, In r rows -> In r table) ->
  NoDup (map ex_pk rows) ->
  forall (done : list Z) (n : Z),
    (forall r, In r rows -> mem (ex_pk r) done = false) ->
    fold_left (approve_step now) rows
      (with_exchanges db0 (approve_visited now done table), n)
    = (with_exchanges db0
         (approve_visited now (rev (map ex_pk rows) ++ done) table),
       n + Z.of_nat (List.length (filter ready_for_approval rows))).
Proof.
  intros Hnd. induction rows as [|e rows IH]; intros Hin Hrows done n Hdone.
  - simpl. rewrite Z.add_0_r. reflexivity.
  - inversion Hrows as [|? ? Hfresh Hrows']; subst.
    cbn [fold_left].
    rewrite approve_step_visited;
      [|assumption|apply Hin; left; reflexivity|apply Hdone; left; reflexivity].
    rewrite IH.
    + cbn [map rev]. rewrite <- app_assoc. cbn [app].
      f_equal. cbn [filter].
      destruct (ready_for_approval e); cbn [List.length]; lia.
    + intros r Hr. apply Hin. right. exact Hr.
    + exact Hrows'.
    + intros r Hr.
      replace (mem (ex_pk r) (ex_pk e :: done))
        with ((ex_pk r =? ex_pk e) || mem (ex_pk r) done) by reflexivity.
      rewrite (Hdone r (or_intror Hr)), orb_false_r.
      apply Z.eqb_neq. intros Heq.
      apply Hfresh. rewrite <- Heq. apply in_map. exact Hr.
Qed.

Lemma approve_visited_nothing (now : Z) (table : list Exchange) :
  approve_visited now [] table = table.
Proof. unfold approve_visited. simpl. apply map_id. Qed.

Lemma fold_left_pointwise {A B : Type} (f g : A -> B -> A) (l : list B) (a : A) :
  (forall a b, f a b = g a b) -> fold_left f l a = fold_left g l a.
Proof.
  intros H. revert a; induction l as [|x l IH]; intros a; simpl; [reflexivity|].
  rewrite H. apply IH.
Qed.

Lemma filter_filter_conj {A : Type} (f g : A -> bool) (l : list A) :
  filter f (filter g l) = filter (fun x => g x && f x) l.
Proof.
  induction l as [|x l IH]; simpl; [reflexivity|].
  destruct (g x); simpl; [destruct (f x)|]; rewrite IH; reflexivity.
Qed.

Lemma NoDup_map_filter {A : Type} (f : A -> Z) (p : A -> bool) (l : list A) :
  NoDup (map f l) -> NoDup (map f (filter p l)).
Proof.
  induction l as [|x l IH]; simpl; intros Hnd; [constructor|].
  inversion Hnd as [|? ? Hx Hnd']; subst.
  destruct (p x); simpl; [|auto].
  constructor; [|auto].
  rewrite in_map_iff. intros [y [Hy Hin]]. apply filter_In in Hin as [Hin _].
  apply Hx. rewrite <- Hy. apply in_map. exact Hin.
Qed.

Lemma with_exchanges_same (db : DB) : with_exchanges db (exchanges db) = db.
Proof. destruct db; reflexivity. Qed.

(** X13.  With unique primary keys, the bulk action [approve_exchanges]
    does to the table what approving row by row does: each selected row
    with both flags set and no approval is stored approved, completed and
    stamped with the time of the action; every other row is as it was; and
    the notice counts exactly the rows approved. *)
Theorem approve_exchanges_rowwise :
  forall (now : Z) (db : DB) (selected : list Z),
    exchange_pk_unique db ->
    approve_exchanges now db selected
    = (with_exchanges db
         (map (fun row => if in_queryset selected row && ready_for_approval row
                          then approved_row now row else row)
              (exchanges db)),
       [mkNotice INFO
          ("Successfully approved "
           +++ str_of_Z
                 (Z.of_nat
                    (List.length
                       (filter (fun row => in_queryset selected row
                                           && ready_for_approval row)
                               (exchanges db))))
           +++ " exchange(s). Only exchanges where both users completed were approved.")]).
Proof.
  intros now db selected Hnd. unfold approve_exchanges.
  pose proof (approve_fold now db (exchanges db)
                (filter (in_queryset selected) (exchanges db)) Hnd) as H.
  specialize (H (fun r Hr => proj1 (proj1 (filter_In _ _ _) Hr))).
  specialize (H (NoDup_map_filter ex_pk _ _ Hnd) [] 0 (fun _ _ => eq_refl)).
  rewrite approve_visited_nothing, with_exchanges_same in H.
  erewrite fold_left_pointwise; [rewrite H|intros [d k] x; reflexivity].
  rewrite app_nil_r, Z.add_0_l.
  f_equal.
  - unfold approve_visited. f_equal. apply map_ext_in. intros r Hr.
    replace (mem (ex_pk r)
               (rev (map ex_pk (filter (in_queryset selected) (exchanges db)))))
      with (in_queryset selected r); [reflexivity|].
    destruct (in_queryset selected r) eqn:Hsel; symmetry.
    + apply mem_In. rewrite <- in_rev. apply in_map. apply filter_In. auto.
    + destruct (mem _ _) eqn:Hmem; [|reflexivity].
      apply mem_In in Hmem. rewrite <- in_rev in Hmem.
      apply in_map_iff in Hmem as [y [Hy Hin]].
      apply filter_In in Hin as [_ Hysel].
      unfold in_queryset in *. rewrite Hy in Hysel. congruence.
  - rewrite filter_filter_conj. reflexivity.
Qed.

(** X14.  [reset_completion] leaves the keys and the status of every row
    as they were and does not touch a row outside the selection; a
    selected row comes out with both flags, both dates and the approval
    cleared, so that its completion status reads in progress and a
    following admin approval of it is refused without a write. *)
Theorem reset_completion_spec :
  forall (db : DB) (selected : list Z),
    let db' := fst (reset_completion db selected) in
    map ex_pk (exchanges db') = map ex_pk (exchanges db)
    /\ map status (exchanges db') = map status (exchanges db)
    /\ (forall e, In e (exchanges db) -> in_queryset selected e = false ->
                  In e (exchanges db'))
    /\ (forall e', In e' (exchanges db') -> in_queryset selected e' = true ->
          user1_completed e' = false /\ user2_completed e' = false
          /\ user1_completed_date e' = None /\ user2_completed_date e' = None
          /\ admin_approved e' = false /\ admin_approved_date e' = None
          /\ completion_status e' = "In Progress")
    /\ (forall now request exchange_id,
          In exchange_id selected ->
          let r := admin_approve_exchange now db' request exchange_id in
          res_db r = db' /\ Forall (fun n => level n = ERROR) (res_notices r)).
Proof.
  intros db selected db'.
  assert (Hrows : forall e', In e' (exchanges db') ->
                    in_queryset selected e' = true ->
                    user1_completed e' = false /\ user2_completed e' = false
                    /\ user1_completed_date e' = None
                    /\ user2_completed_date e' = None
                    /\ admin_approved e' = false /\ admin_approved_date e' = None
                    /\ completion_status e' = "In Progress").
  { subst db'. unfold reset_completion, Exchange_update; cbn [fst exchanges with_exchanges].
    intros e' Hin Hsel. apply in_map_iff in Hin as [row [Hrow Hin]].
    destruct (in_queryset selected row) eqn:Hs.
    - subst e'. unfold completion_status, both_users_completed. simpl. auto 10.
    - subst e'. congruence. }
  split; [|split; [|split; [|split]]].
  - subst db'. unfold reset_completion, Exchange_update; cbn [fst exchanges with_exchanges].
    rewrite map_map. apply map_ext. intros row.
    destruct (in_queryset selected row); reflexivity.
  - subst db'. unfold reset_completion, Exchange_update; cbn [fst exchanges with_exchanges].
    rewrite map_map. apply map_ext. intros row.
    destruct (in_queryset selected row); reflexivity.
  - subst db'. unfold reset_completion, Exchange_update; cbn [fst exchanges with_exchanges].
    intros e Hin Hsel. apply in_map_iff. exists e. rewrite Hsel. auto.
  - exact Hrows.
  - intros now request exchange_id Hid r. subst r.
    unfold admin_approve_exchange, staff_member_required, require_POST.
    destruct (req_user request) as [u|]; [|split; [reflexivity|constructor]].
    destruct (is_active u && is_staff u); [|split; [reflexivity|constructor]].
    destruct (method request); try (split; [reflexivity|constructor]).
    destruct (find _ (exchanges db')) as [e'|] eqn:Hf;
      [|split; [reflexivity|constructor]].
    apply find_In in Hf as [Hin Hpk]. apply Z.eqb_eq in Hpk.
    assert (Hsel : in_queryset selected e' = true).
    { unfold in_queryset. apply existsb_exists. exists exchange_id.
      split; [assumption|]. apply Z.eqb_eq. assumption. }
    destruct (Hrows e' Hin Hsel) as (H1 & _).
    unfold both_users_completed. rewrite H1. simpl.
    split; [reflexivity|repeat constructor].
Qed.

(** ** User administration, further *)

(** X15.  Toggling another user's staff status twice restores [is_staff],
    but not necessarily [is_superuser]: after the second toggle the stored
    user has the [is_staff] it started with and an [is_superuser] equal to
    it, whatever [is_superuser] was before. *)
Theorem admin_toggle_staff_twice :
  forall (db : DB) (request : Request) (caller : User) (user_id : Z)
         (target : User),
    req_user request = Some caller ->
    is_active caller && is_staff caller = true ->
    method request = POST ->
    find (fun u => user_pk u =? user_id) (users db) = Some target ->
    user_eqb target caller = false ->
    let db2 :=
      res_db (admin_toggle_staff
                (res_db (admin_toggle_staff db request user_id))
                request user_id) in
    exists stored,
      find (fun u => user_pk u =? user_id) (users db2) = Some stored
      /\ is_staff stored = is_staff target
      /\ is_superuser stored = is_staff target
      /\ user_pk stored = user_pk target
      /\ username stored = username target.
Proof.
  intros db request caller user_id target Hu Hstaff Hm Hfind Hother db2.
  subst db2. unfold admin_toggle_staff at 2.
  unfold staff_member_required, require_POST.
  rewrite Hu, Hstaff, Hm, Hfind, Hother. cbn [res_db].
  apply find_In in Hfind as [Hin Hpk]. apply Z.eqb_eq in Hpk.
  set (t1 := set_is_superuser _ (set_is_staff _ target)).
  assert (Hfind1 : find (fun u => user_pk u =? user_id)
                     (users (User_save t1 db)) = Some t1).
  { apply find_user_saved; [exists target; auto|exact Hpk]. }
  unfold admin_toggle_staff, staff_member_required, require_POST.
  rewrite Hu, Hstaff, Hm, Hfind1.
  assert (Hother1 : user_eqb t1 caller = false) by exact Hother.
  rewrite Hother1. cbn [res_db].
  eexists. split.
  - apply find_user_saved; [exists t1|exact Hpk].
    split; [|exact Hpk].
    apply find_In in Hfind1 as [Hin1 _]. exact Hin1.
  - simpl. rewrite negb_involutive. repeat split.
Qed.

Lemma Forall_filter_keep {A : Type} (P : A -> Prop) (p : A -> bool) (l : list A) :
  Forall P l -> Forall P (filter p l).
Proof.
  intros H. apply Forall_forall. intros x Hx. apply filter_In in Hx as [Hx _].
  rewrite Forall_forall in H. auto.
Qed.

(** X16.  [admin_delete_user], for a staff caller posting on a stored
    user: the caller's own account is refused with an error and nothing is
    written; another user is deleted together with every skill, exchange
    and message that refers to them, while every row that does not refer
    to them stays. *)
Theorem admin_delete_user_spec :
  forall (db : DB) (request : Request) (caller : User) (user_id : Z)
         (target : User),
    req_user request = Some caller ->
    is_active caller && is_staff caller = true ->
    method request = POST ->
    find (fun u => user_pk u =? user_id) (users db) = Some target ->
    let r := admin_delete_user db request user_id in
    (user_eqb target caller = true ->
     r = mkResult db [mkNotice ERROR "You cannot delete your own account!"]
           (Redirect "admin_users" None))
    /\ (user_eqb target caller = false ->
        map level (res_notices r) = [SUCCESS]
        /\ res_response r = Redirect "admin_users" None
        /\ (forall u, In u (users (res_db r)) <->
                      In u (users db) /\ user_pk u <> user_id)
        /\ (forall us, In us (user_skills (res_db r)) <->
                       In us (user_skills db) /\ user_pk (user us) <> user_id)
        /\ (forall e, In e (exchanges (res_db r)) <->
                      In e (exchanges db) /\ user_pk (user1 e) <> user_id
                      /\ user_pk (user2 e) <> user_id)
        /\ (forall m, In m (messages (res_db r)) <->
                      In m (messages db) /\ sender_id m <> user_id
                      /\ receiver_id m <> user_id)).
Proof.
  intros db request caller user_id target Hu Hstaff Hm Hfind r. subst r.
  unfold admin_delete_user, staff_member_required, require_POST.
  rewrite Hu, Hstaff, Hm, Hfind.
  apply find_In in Hfind as [_ Hpk]. apply Z.eqb_eq in Hpk.
  split; intros Heq; rewrite Heq; [reflexivity|].
  cbn [res_db res_notices res_response map level User_delete users user_skills
       exchanges messages].
  rewrite Hpk.
  split; [reflexivity|]. split; [reflexivity|].
  split; [|split; [|split]]; intros x; rewrite filter_In;
    rewrite ?andb_true_iff, ?negb_true_iff, ?Z.eqb_neq; tauto.
Qed.

(** X17.  Deleting a user keeps what the exchange handlers rely on: the
    approval invariant and the uniqueness of the exchange keys hold after
    [admin_delete_user] whenever they held before, whatever the request. *)
Theorem admin_delete_user_keeps_invariants :
  forall (db : DB) (request : Request) (user_id : Z),
    (db_invariant db ->
     db_invariant (res_db (admin_delete_user db request user_id)))
    /\ (exchange_pk_unique db ->
        exchange_pk_unique (res_db (admin_delete_user db request user_id))).
Proof.
  intros db request user_id.
  unfold admin_delete_user, staff_member_required, require_POST.
  split; intros H; handler_cases; cbn [res_db]; try assumption.
  - unfold db_invariant, User_delete; cbn [exchanges].
    apply Forall_filter_keep. exact H.
  - unfold exchange_pk_unique, User_delete; cbn [exchanges].
    apply NoDup_map_filter. exact H.
Qed.

(** ** Messaging, further *)

Lemma StronglySorted_filter_keep {A : Type} (R : A -> A -> Prop)
    (p : A -> bool) (l : list A) :
  StronglySorted R l -> StronglySorted R (filter p l).
Proof.
  intros Hs; induction Hs as [|x l Hs IH Hall]; simpl; [constructor|].
  destruct (p x); [|assumption].
  constructor; [assumption|]. apply Forall_filter_keep. exact Hall.
Qed.



Lemma mark_read_unread_none (selected viewer : User) (db : DB) :
  unread_from (mark_read selected viewer db) (user_pk selected) (user_pk viewer)
  = [].
Proof.
  unfold unread_from, mark_read; cbn [messages with_messages].
  induction (messages db) as [|m ms IH]; [reflexivity|].
  cbn [map filter].
  destruct ((sender_id m =? user_pk selected)
            && (receiver_id m =? user_pk viewer) && negb (is_read m)) eqn:Hc.
  - cbn [sender_id receiver_id is_read].
    apply andb_true_iff in Hc as [Hc _]. rewrite Hc. cbn [negb andb]. exact IH.
  - rewrite Hc. exact IH.
Qed.

Lemma mark_read_keeps_others (selected viewer : User) (db : DB) (m : Message) :
  In m (messages db) ->
  (sender_id m <> user_pk selected \/ receiver_id m <> user_pk viewer
   \/ is_read m = true) ->
  In m (messages (mark_read selected viewer db)).
Proof.
  intros Hin Hother. unfold mark_read; cbn [messages with_messages].
  apply in_map_iff. exists m. split; [|assumption].
  destruct ((sender_id m =? user_pk selected)
            && (receiver_id m =? user_pk viewer) && negb (is_read m)) eqn:Hc;
    [|reflexivity].
  apply andb_true_iff in Hc as [Hc Hr].
  apply andb_true_iff in Hc as [Hs Hv].
  apply Z.eqb_eq in Hs. apply Z.eqb_eq in Hv. apply negb_true_iff in Hr.
  destruct Hother as [H|[H|H]]; congruence.
Qed.

(** [messages_view] on a thread with a stored user. *)
Lemma messages_view_selected now db request viewer uid selected :
  req_user request = Some viewer ->
  uid <> 0 ->
  find (fun u => user_pk u =? uid) (users db) = Some selected ->
  messages_view now db request (Some uid)
  = let db1 := mark_read selected viewer db in
    let rendered :=
      mkResult db1 []
        (Render "messages.html"
           (MessagesContext (conversations_of db viewer) (Some selected)
              (thread db1 viewer selected))) in
    match method request with
    | POST =>
        if truthy (posted_content request) then
          mkResult (Message_create now viewer selected (posted_content request) db1)
            [] (Redirect "conversation" (Some uid))
        else rendered
    | _ => rendered
    end.
Proof.
  intros Hu Hnz Hfind. unfold messages_view, login_required, posted_content.
  rewrite Hu. destruct uid as [|p|p]; [congruence| |]; rewrite Hfind; reflexivity.
Qed.

Lemma timestamp_order_sorted (l : list Message) :
  StronglySorted (fun a b => timestamp a <= timestamp b)
    (sort_by (fun a b => timestamp a <=? timestamp b) l).
Proof.
  eapply StronglySorted_weaken;
    [|apply (sort_by_sorted (fun a b : Message => timestamp a <=? timestamp b))].
  - intros x y H; apply Z.leb_le; exact H.
  - intros x y. destruct (Z.le_ge_cases (timestamp x) (timestamp y));
      [left|right]; apply Z.leb_le; assumption.
  - intros x y z Hxy Hyz. apply Z.leb_le in Hxy, Hyz. apply Z.leb_le. lia.
Qed.

Lemma thread_In (db : DB) (viewer selected : User) (m : Message) :
  In m (thread db viewer selected)
  <-> In m (messages db) /\ between (user_pk viewer) (user_pk selected) m.
Proof.
  unfold thread, Message_objects. rewrite filter_In, sort_by_In.
  fold (pair_with viewer (user_pk selected) m). rewrite pair_with_between.
  tauto.
Qed.

(** X18.  Opening a thread (any method but POST) with a stored user marks
    as read exactly the counterpart's messages to the viewer: afterwards
    none of them is unread, every other stored message is as it was, and
    the rendered thread holds the stored messages between the two, each
    one, in ascending order of timestamp. *)
Theorem messages_view_open_thread :
  forall (now : Z) (db : DB) (request : Request) (viewer : User) (uid : Z)
         (selected : User),
    req_user request = Some viewer ->
    method request <> POST ->
    uid <> 0 ->
    find (fun u => user_pk u =? uid) (users db) = Some selected ->
    let r := messages_view now db request (Some uid) in
    exists msgs,
      res_response r
      = Render "messages.html"
          (MessagesContext (conversations_of db viewer) (Some selected) msgs)
      /\ res_notices r = []
      /\ unread_from (res_db r) uid (user_pk viewer) = []
      /\ List.length (messages (res_db r)) = List.length (messages db)
      /\ (forall m, In m (messages db) ->
                    (sender_id m <> uid \/ receiver_id m <> user_pk viewer
                     \/ is_read m = true) ->
                    In m (messages (res_db r)))
      /\ (forall m, In m msgs <->
                    In m (messages (res_db r)) /\ between (user_pk viewer) uid m)
      /\ StronglySorted (fun a b => timestamp a <= timestamp b) msgs.
Proof.
  intros now db request viewer uid selected Hu Hm Hnz Hfind r. subst r.
  rewrite (messages_view_selected now db request viewer uid selected Hu Hnz Hfind).
  apply find_In in Hfind as [_ Hpk]. apply Z.eqb_eq in Hpk. subst uid.
  cbv zeta.
  exists (thread (mark_read selected viewer db) viewer selected).
  destruct (method request); try congruence;
    cbn [res_db res_notices res_response];
    (split; [reflexivity|]; split; [reflexivity|];
     split; [apply mark_read_unread_none|];
     split; [unfold mark_read; cbn [messages with_messages]; apply length_map|];
     split; [intros m Hin Hother; apply mark_read_keeps_others; assumption|];
     split; [intros m; apply thread_In|];
     unfold thread, Message_objects; apply StronglySorted_filter_keep;
     apply timestamp_order_sorted).
Qed.

(** X19.  Whatever the request, [messages_view] never deletes a message,
    never changes a sender, receiver, content or timestamp, and never
    turns a read message back to unread; it adds at most one row. *)
Theorem messages_view_read_is_monotone :
  forall (now : Z) (db : DB) (request : Request) (user_id : option Z),
    let r := messages_view now db request user_id in
    exists kept added,
      messages (res_db r) = kept ++ added
      /\ (List.length added <= 1)%nat
      /\ Forall2 (fun m m' =>
                    msg_pk m' = msg_pk m /\ sender_id m' = sender_id m
                    /\ receiver_id m' = receiver_id m /\ content m' = content m
                    /\ timestamp m' = timestamp m
                    /\ (is_read m = true -> is_read m' = true))
                 (messages db) kept.
Proof.
  intros now db request user_id r. subst r.
  assert (Hsame : forall l : list Message,
             Forall2 (fun m m' =>
                    msg_pk m' = msg_pk m /\ sender_id m' = sender_id m
                    /\ receiver_id m' = receiver_id m /\ content m' = content m
                    /\ timestamp m' = timestamp m
                    /\ (is_read m = true -> is_read m' = true)) l l).
  { induction l; constructor; auto 10. }
  assert (Hmark : forall (s v : User),
             Forall2 (fun m m' =>
                    msg_pk m' = msg_pk m /\ sender_id m' = sender_id m
                    /\ receiver_id m' = receiver_id m /\ content m' = content m
                    /\ timestamp m' = timestamp m
                    /\ (is_read m = true -> is_read m' = true))
               (messages db) (messages (mark_read s v db))).
  { intros s v. unfold mark_read; cbn [messages with_messages].
    induction (messages db) as [|m ms IH]; cbn [map]; constructor; [|exact IH].
    destruct ((sender_id m =? user_pk s) && (receiver_id m =? user_pk v)
              && negb (is_read m)); cbn; auto 10. }
  unfold messages_view, login_required.
  destruct (req_user request) as [viewer|];
    [|exists (messages db), []; rewrite app_nil_r; cbn; auto].
  destruct user_id as [[|p|p]|];
    try (exists (messages db), []; rewrite app_nil_r; cbn; auto; fail);
    (destruct (find _ (users db)) as [selected|];
     [|exists (messages db), []; rewrite app_nil_r; cbn; auto]);
    (destruct (method request);
     try (exists (messages (mark_read selected viewer db)), [];
          rewrite app_nil_r; cbn [res_db List.length]; auto; fail));
    (destruct (truthy _);
     [eexists; eexists; cbn [res_db Message_create with_messages messages];
      split; [reflexivity|]; split; [cbn; lia|apply Hmark]
     |exists (messages (mark_read selected viewer db)), [];
      rewrite app_nil_r; cbn [res_db List.length]; auto]).
Qed.

(** X20.  Without a selected user ([/messages/], or the id 0) the view
    only renders the list, even for a POST: nothing is written and no
    message is sent.  With an id that is no stored user the response is
    not-found and nothing is written. *)
Theorem messages_view_without_thread :
  forall (now : Z) (db : DB) (request : Request) (viewer : User),
    req_user request = Some viewer ->
    (forall user_id, user_id = None \/ user_id = Some 0 ->
       messages_view now db request user_id
       = mkResult db []
           (Render "messages.html"
              (MessagesContext (conversations_of db viewer) None [])))
    /\ (forall uid, uid <> 0 ->
          find (fun u => user_pk u =? uid) (users db) = None ->
          messages_view now db request (Some uid) = mkResult db [] Http404).
Proof.
  intros now db request viewer Hu. unfold messages_view, login_required.
  rewrite Hu. split.
  - intros user_id [-> | ->]; reflexivity.
  - intros uid Hnz Hnone. destruct uid; [congruence| |]; rewrite Hnone; reflexivity.
Qed.

(** ** The conversation list, further *)

Lemma collect_complete {A B : Type} (f : A -> option B) (l : list A) (x : A)
    (y : B) :
  In x l -> f x = Some y -> In y (collect f l).
Proof.
  induction l as [|h l IH]; simpl; [intros []|].
  intros [->|Hin] Hf.
  - rewrite Hf. left; reflexivity.
  - destruct (f h); [right|]; auto.
Qed.

Lemma collect_keys_NoDup {A B : Type} (f : A -> option B) (g : B -> A)
    (l : list A) :
  (forall x y, f x = Some y -> g y = x) ->
  NoDup l -> NoDup (map g (collect f l)).
Proof.
  intros Hg. induction l as [|x l IH]; simpl; intros Hnd; [constructor|].
  inversion Hnd as [|? ? Hx Hnd']; subst.
  destruct (f x) as [y|] eqn:Hf; [|auto].
  simpl. constructor; [|auto].
  rewrite (Hg x y Hf). rewrite in_map_iff. intros [y' [Hy' Hin]].
  apply collect_In in Hin as [x' [Hx' Hf']].
  apply Hg in Hf'. congruence.
Qed.

Lemma dict_get_user_map_found (rows : list User) (acc : list (Z * User)) (k : Z) :
  (exists u, In u rows /\ user_pk u = k) \/ (exists v, dict_get acc k = Some v) ->
  exists v, dict_get (fold_left (fun m u => (user_pk u, u) :: m) rows acc) k
            = Some v.
Proof.
  revert acc; induction rows as [|r rows IH]; intros acc H; simpl.
  - destruct H as [[u [[] _]]|H]; exact H.
  - apply IH. destruct H as [[u [[->|Hin] Hk]]|[v Hv]].
    + right. exists u. simpl. rewrite Hk, Z.eqb_refl. reflexivity.
    + left. exists u; auto.
    + right. simpl. destruct (user_pk r =? k); eauto.
Qed.

Lemma conversation_user_ids_In (db : DB) (viewer : User) (c : Z) :
  In c (conversation_user_ids db viewer)
  <-> exists m, In m (messages db) /\ between (user_pk viewer) c m.
Proof.
  unfold conversation_user_ids, Message_objects, between.
  rewrite nodup_In, in_app_iff, !nodup_In, !in_map_iff. split.
  - intros [[m [Hc Hin]]|[m [Hc Hin]]]; apply filter_In in Hin as [Hin Hp];
      apply sort_by_In in Hin; apply Z.eqb_eq in Hp; exists m; auto.
  - intros [m [Hin [[Hs Hr]|[Hs Hr]]]]; [left|right]; exists m;
      (split; [assumption|]); apply filter_In;
      (split; [apply sort_by_In; assumption|apply Z.eqb_eq; assumption]).
Qed.

(** X21.  The conversation list has exactly one entry for each stored
    user with whom the viewer has exchanged a stored message, in either
    direction, and no other entry. *)
Theorem conversation_list_covers :
  forall (db : DB) (viewer : User),
    NoDup (map (fun c => user_pk (conv_user c)) (conversations_of db viewer))
    /\ forall k : Z,
         In k (map (fun c => user_pk (conv_user c)) (conversations_of db viewer))
         <-> (exists u, In u (users db) /\ user_pk u = k)
             /\ (exists m, In m (messages db) /\ between (user_pk viewer) k m).
Proof.
  intros db viewer.
  assert (Hkey : forall uid c, conversation_of db viewer uid = Some c ->
                               user_pk (conv_user c) = uid).
  { intros uid c H. apply conversation_of_spec in H. tauto. }
  split.
  - unfold conversations_of.
    eapply Permutation_NoDup;
      [apply Permutation_map, Permutation_sym, sort_by_perm|].
    apply collect_keys_NoDup; [exact Hkey|].
    unfold conversation_user_ids. apply NoDup_nodup.
  - intros k. rewrite in_map_iff. split.
    + intros [c [Hk Hc]].
      apply conversations_of_entries in Hc as [uid [Hid Hc]].
      pose proof (conversation_of_spec db viewer uid c Hc) as (Hpk & Hin & _).
      assert (Huid : uid = k) by congruence.
      rewrite Huid in Hid.
      split; [exists (conv_user c); auto|].
      apply conversation_user_ids_In. exact Hid.
    + intros [[u [Hu Hk]] Hm].
      apply conversation_user_ids_In in Hm.
      assert (Hsome : exists c, conversation_of db viewer k = Some c).
      { unfold conversation_of.
        destruct (dict_get_user_map_found
                    (filter (fun u0 => mem (user_pk u0)
                                         (conversation_user_ids db viewer))
                            (users db)) [] k) as [v Hv].
        - left. exists u. split; [|assumption].
          apply filter_In. split; [assumption|].
          apply mem_In. rewrite Hk. exact Hm.
        - unfold user_map_of. rewrite Hv. eauto. }
      destruct Hsome as [c Hc]. exists c. split; [apply Hkey; exact Hc|].
      unfold conversations_of. apply sort_by_In.
      apply collect_complete with (x := k); assumption.
Qed.

(** ** Proposing, further *)

(** X22.  A POST to [propose_exchange_view] against another user's offered
    skill, where the chosen skill and the notes are the last values posted
    as [my_skill] and [notes]: without a chosen skill the caller is sent
    back to the same page with an error; a chosen key that is not a number
    raises; a key that is not an offered skill of the caller is not found;
    in each of these cases nothing is written.  Otherwise one pending
    exchange is appended, under a key no stored exchange has, from the
    caller to the owner of the target, with the chosen skill, the target's
    skill and the posted notes. *)
Theorem propose_exchange_view_post :
  forall (int : string -> option Z) (now : Z) (db : DB) (request : Request)
         (u : User) (user_skill_id : Z) (target : UserSkill),
    req_user request = Some u ->
    method request = POST ->
    find (fun us => (us_pk us =? user_skill_id) && role_eqb (role us) offer)
         (user_skills db) = Some target ->
    user_eqb (user target) u = false ->
    let r := propose_exchange_view int now db request user_skill_id in
    let chosen := QueryDict_get (POST_data request) "my_skill" in
    let notes0 := match QueryDict_get (POST_data request) "notes" with
                  | Some v => v
                  | None => ""
                  end in
    (chosen = None \/ chosen = Some "" ->
     r = mkResult db
           [mkNotice ERROR "Please select a skill you want to offer."]
           (Redirect "propose_exchange" (Some user_skill_id)))
    /\ (forall v, chosen = Some v -> v <> "" ->
          (int v = None -> r = mkResult db [] Http500)
          /\ (forall k, int v = Some k ->
                (forall us, In us (user_skills db) -> us_pk us = k ->
                            user_pk (user us) <> user_pk u \/ role us <> offer) ->
                r = mkResult db [] Http404)
          /\ (forall k, int v = Some k ->
                (exists us, In us (user_skills db) /\ us_pk us = k
                            /\ user_pk (user us) = user_pk u /\ role us = offer) ->
                exists mine key,
                  In mine (user_skills db) /\ us_pk mine = k
                  /\ user_pk (user mine) = user_pk u /\ role mine = offer
                  /\ ~ In key (map ex_pk (exchanges db))
                  /\ exchanges (res_db r)
                     = exchanges db
                       ++ [mkExchange key u (user target) (Some (skill mine))
                             (Some (skill target)) pending now None notes0 now
                             false false None None false None ""]
                  /\ map level (res_notices r) = [SUCCESS]
                  /\ res_response r = Redirect "dashboard" None)).
Proof.
  intros int now db request u user_skill_id target Hu Hm Hfind Hother r chosen
    notes0. subst r chosen notes0.
  unfold propose_exchange_view, login_required.
  rewrite Hu, Hfind, Hother, Hm. split.
  - intros [H|H]; rewrite H; reflexivity.
  - intros v Hv Hnonempty. rewrite Hv.
    destruct v as [|c v]; [congruence|].
    split; [intros Hint; rewrite Hint; reflexivity|]. split.
    + intros k Hint Hnone. rewrite Hint.
      destruct (find (fun us => (us_pk us =? k) && user_eqb (user us) u
                                      && role_eqb (role us) offer)
                     (user_skills db)) as [mine|] eqn:Hmine; [|reflexivity].
      exfalso. apply find_In in Hmine as [Hin Hp].
      apply andb_true_iff in Hp as [Hp Hrole].
      apply andb_true_iff in Hp as [Hk Hown].
      apply Z.eqb_eq in Hk. apply Z.eqb_eq in Hown. apply role_eqb_eq in Hrole.
      destruct (Hnone mine Hin Hk) as [H|H]; contradiction.
    + intros k Hint [us (Hin & Hk & Hown & Hrole)]. rewrite Hint.
      destruct (find (fun us => (us_pk us =? k) && user_eqb (user us) u
                                      && role_eqb (role us) offer)
                     (user_skills db)) as [mine|] eqn:Hmine.
      * apply find_In in Hmine as [Hin' Hp].
        apply andb_true_iff in Hp as [Hp Hrole'].
        apply andb_true_iff in Hp as [Hk' Hown'].
        apply Z.eqb_eq in Hk'. apply Z.eqb_eq in Hown'.
        apply role_eqb_eq in Hrole'.
        exists mine, (next_pk (map ex_pk (exchanges db))).
        split; [exact Hin'|]. split; [exact Hk'|]. split; [exact Hown'|].
        split; [exact Hrole'|]. split; [|repeat split].
        intros Hfresh. apply next_pk_fresh in Hfresh. lia.
      * exfalso. apply (find_none _ _ Hmine us) in Hin.
        unfold user_eqb in Hin. rewrite Hk, Hown, !Z.eqb_refl in Hin.
        apply role_eqb_eq in Hrole. rewrite Hrole in Hin. discriminate.
Qed.

(** ** The marketplace *)

(** X23.  The skills [marketplace_view] lists: every listed row is a
    stored offer of another user, never a skill the viewer offers and
    never a sought one; with both filters switched off (absent, empty, or
    the words that mean no filter) the list is all such rows; and the
    lookup raises exactly when an active category filter is not a
    number. *)
Theorem offered_skills_spec :
  forall (int : string -> option Z) (lower : string -> string)
         (iexact : string -> string -> bool) (db : DB) (viewer : User)
         (category level : option string),
    let result := offered_skills int lower iexact db viewer category level in
    let others :=
      filter (fun us => role_eqb (role us) offer
                        && negb (user_eqb (user us) viewer))
             (user_skills db) in
    (forall rows us, result = Some rows -> In us rows ->
        In us (user_skills db) /\ role us = offer
        /\ user_pk (user us) <> user_pk viewer
        /\ (forall v k, filter_value lower category "all" = Some v ->
                        int v = Some k -> category_id (skill us) = Some k)
        /\ (forall v, filter_value lower level "any" = Some v ->
                      iexact (proficiency_value (proficiency us)) v = true))
    /\ (filter_value lower category "all" = None ->
        filter_value lower level "any" = None ->
        result = Some others)
    /\ (result = None <->
        exists v, filter_value lower category "all" = Some v /\ int v = None).
Proof.
  intros int lower iexact db viewer category level result others.
  subst result others. unfold offered_skills.
  assert (Hbase : forall us,
             In us (filter (fun us => role_eqb (role us) offer
                                      && negb (user_eqb (user us) viewer))
                           (user_skills db)) ->
             In us (user_skills db) /\ role us = offer
             /\ user_pk (user us) <> user_pk viewer).
  { intros us Hin. apply filter_In in Hin as [Hin Hp].
    apply andb_true_iff in Hp as [Hr Hv]. apply role_eqb_eq in Hr.
    apply negb_true_iff in Hv. apply Z.eqb_neq in Hv. auto. }
  destruct (filter_value lower category "all") as [v|];
    [destruct (int v) as [k|] eqn:Hint|];
    destruct (filter_value lower level "any") as [w|].
  - split; [|split].
    + intros rows us H Hin. injection H as <-.
      apply filter_In in Hin as [Hin Hlevel].
      apply filter_In in Hin as [Hin Hcat].
      destruct (Hbase us Hin) as (H1 & H2 & H3).
      repeat split; auto.
      * intros v' k' Hv' Hk'. injection Hv' as <-.
        assert (k' = k) by congruence. subst k'.
        destruct (category_id (skill us)) as [c|]; [|discriminate].
        apply Z.eqb_eq in Hcat. congruence.
      * intros w' Hw'. injection Hw' as <-. exact Hlevel.
    + discriminate.
    + split; [discriminate|]. intros [v' [Hv' Hn]]. congruence.
  - split; [|split].
    + intros rows us H Hin. injection H as <-.
      apply filter_In in Hin as [Hin Hcat].
      destruct (Hbase us Hin) as (H1 & H2 & H3).
      repeat split; auto.
      * intros v' k' Hv' Hk'. injection Hv' as <-.
        assert (k' = k) by congruence. subst k'.
        destruct (category_id (skill us)) as [c|]; [|discriminate].
        apply Z.eqb_eq in Hcat. congruence.
      * discriminate.
    + discriminate.
    + split; [discriminate|]. intros [v' [Hv' Hn]]. congruence.
  - split; [|split].
    + discriminate.
    + discriminate.
    + split; [|reflexivity]. intros _. exists v. auto.
  - split; [|split].
    + discriminate.
    + discriminate.
    + split; [|reflexivity]. intros _. exists v. auto.
  - split; [|split].
    + intros rows us H Hin. injection H as <-.
      apply filter_In in Hin as [Hin Hlevel].
      destruct (Hbase us Hin) as (H1 & H2 & H3).
      repeat split; auto.
      * discriminate.
      * intros w' Hw'. injection Hw' as <-. exact Hlevel.
    + discriminate.
    + split; [discriminate|]. intros [v' [Hv' _]]. discriminate.
  - split; [|split].
    + intros rows us H Hin. injection H as <-.
      destruct (Hbase us Hin) as (H1 & H2 & H3).
      repeat split; auto; discriminate.
    + reflexivity.
    + split; [discriminate|]. intros [v' [Hv' _]]. discriminate.
Qed.

(** ** The list of one's exchanges *)

Lemma exchanges_loop_acc (u : User) (rows : list Exchange)
    (p a c o : list ExchangeData) :
  fold_left
    (fun '(pend, act, comp, other) exchange =>
       let d := exchange_data u exchange in
       match status exchange with
       | pending => (pend ++ [d], act, comp, other)
       | active => (pend, act ++ [d], comp, other)
       | completed => (pend, act, comp ++ [d], other)
       | _ => (pend, act, comp, other ++ [d])
       end)
    rows (p, a, c, o)
  = (p ++ map (exchange_data u)
            (filter (fun e => status_eqb (status e) pending) rows),
     a ++ map (exchange_data u)
            (filter (fun e => status_eqb (status e) active) rows),
     c ++ map (exchange_data u)
            (filter (fun e => status_eqb (status e) completed) rows),
     o ++ map (exchange_data u)
            (filter (fun e => status_eqb (status e) dispute
                              || status_eqb (status e) cancelled) rows)).
Proof.
  revert p a c o; induction rows as [|e rows IH]; intros p a c o.
  - simpl. rewrite !app_nil_r. reflexivity.
  - cbn [fold_left filter]. destruct (status e); cbn [status_eqb orb map];
      rewrite IH, <- ?app_assoc; reflexivity.
Qed.

Lemma all_exchanges_In (db : DB) (u : User) (e : Exchange) :
  In e (all_exchanges db u)
  <-> In e (exchanges db)
      /\ (user_pk (user1 e) = user_pk u \/ user_pk (user2 e) = user_pk u).
Proof.
  unfold all_exchanges. rewrite sort_by_In, filter_In.
  unfold user_eqb. rewrite orb_true_iff, !Z.eqb_eq. tauto.
Qed.

Lemma exchanges_context_lists (db : DB) (u : User) :
  exchanges_context db u
  = mkExchangesContext
      (map (exchange_data u)
         (filter (fun e => status_eqb (status e) pending) (all_exchanges db u)))
      (map (exchange_data u)
         (filter (fun e => status_eqb (status e) active) (all_exchanges db u)))
      (map (exchange_data u)
         (filter (fun e => status_eqb (status e) completed) (all_exchanges db u)))
      (map (exchange_data u)
         (filter (fun e => status_eqb (status e) dispute
                           || status_eqb (status e) cancelled)
                 (all_exchanges db u)))
      (Z.of_nat (List.length (all_exchanges db u))).
Proof.
  unfold exchanges_context, exchanges_loop. rewrite exchanges_loop_acc.
  reflexivity.
Qed.

Lemma status_partition_length (rows : list Exchange) :
  (List.length (filter (fun e => status_eqb (status e) pending) rows)
   + List.length (filter (fun e => status_eqb (status e) active) rows)
   + List.length (filter (fun e => status_eqb (status e) completed) rows)
   + List.length (filter (fun e => status_eqb (status e) dispute
                                   || status_eqb (status e) cancelled) rows)
   = List.length rows)%nat.
Proof.
  induction rows as [|e rows IH]; [reflexivity|].
  cbn [filter]. destruct (status e); cbn [status_eqb orb List.length]; lia.
Qed.

(** X24.  [exchanges_view] sorts each exchange of the user into exactly
    one of its four lists: the counts add up to [total_count]; an entry is
    in the pending, active or completed list exactly by its status, and in
    the last list when it is in dispute or cancelled; every entry comes
    from a stored exchange in which the user takes part, and every such
    exchange has its entry. *)
Theorem exchanges_view_partition :
  forall (db : DB) (u : User),
    let ctx := exchanges_context db u in
    total_count ctx
    = Z.of_nat (List.length (pending_exchanges ctx)
                + List.length (active_exchanges ctx)
                + List.length (completed_exchanges ctx)
                + List.length (other_exchanges ctx))
    /\ Forall (fun d => xd_status d = pending) (pending_exchanges ctx)
    /\ Forall (fun d => xd_status d = active) (active_exchanges ctx)
    /\ Forall (fun d => xd_status d = completed) (completed_exchanges ctx)
    /\ Forall (fun d => xd_status d = dispute \/ xd_status d = cancelled)
              (other_exchanges ctx)
    /\ (forall d,
          In d (pending_exchanges ctx ++ active_exchanges ctx
                ++ completed_exchanges ctx ++ other_exchanges ctx)
          <-> exists e, In e (exchanges db)
                        /\ (user_pk (user1 e) = user_pk u
                            \/ user_pk (user2 e) = user_pk u)
                        /\ d = exchange_data u e).
Proof.
  intros db u ctx. subst ctx. rewrite exchanges_context_lists.
  cbn [total_count pending_exchanges active_exchanges completed_exchanges
       other_exchanges].
  split; [|split; [|split; [|split; [|split]]]].
  - rewrite !length_map, status_partition_length. reflexivity.
  - apply Forall_forall. intros d Hd. apply in_map_iff in Hd as [e [<- He]].
    apply filter_In in He as [_ He]. apply status_eqb_eq in He. exact He.
  - apply Forall_forall. intros d Hd. apply in_map_iff in Hd as [e [<- He]].
    apply filter_In in He as [_ He]. apply status_eqb_eq in He. exact He.
  - apply Forall_forall. intros d Hd. apply in_map_iff in Hd as [e [<- He]].
    apply filter_In in He as [_ He]. apply status_eqb_eq in He. exact He.
  - apply Forall_forall. intros d Hd. apply in_map_iff in Hd as [e [<- He]].
    apply filter_In in He as [_ He]. apply orb_true_iff in He.
    destruct He as [He|He]; apply status_eqb_eq in He; auto.
  - intros d. rewrite !in_app_iff, !in_map_iff. split.
    + intros [H|[H|[H|H]]]; destruct H as [e [<- He]];
        apply filter_In in He as [He _]; apply all_exchanges_In in He;
        exists e; tauto.
    + intros [e (Hin & Hpart & ->)].
      assert (He : In e (all_exchanges db u)) by (apply all_exchanges_In; auto).
      destruct (status e) eqn:Hs;
        [left|right; left|right; right; left|right; right; right
        |right; right; right];
        exists e; (split; [reflexivity|]); apply filter_In;
        (split; [exact He|]); rewrite Hs; reflexivity.
Qed.

(** X25.  The flag [exchanges_view] shows a user as theirs is the flag
    [mark_exchange_complete] sets for them: after a participant has
    marked an active exchange, their list of active exchanges has an entry
    for it with [my_completed] set. *)
Theorem marked_exchange_shows_completed :
  forall (now : Z) (db : DB) (request : Request) (u : User) (exchange_id : Z)
         (e : Exchange),
    req_user request = Some u -> method request = POST ->
    active_exchange_of db u exchange_id = Some e ->
    let db' := res_db (mark_exchange_complete now db request exchange_id) in
    exists d,
      In d (active_exchanges (exchanges_context db' u))
      /\ xd_id d = exchange_id
      /\ xd_my_completed d = true
      /\ xd_their_completed d
         = (if user_eqb u (user1 e) then user2_completed e else user1_completed e).
Proof.
  intros now db request u exchange_id e Hu Hm Hfind db'. subst db'.
  destruct (mark_step now db request u exchange_id e Hu Hm Hfind)
    as (e' & Hin & Hpk & Hst & Hu1 & Hu2 & _ & Hc1 & Hc2).
  unfold active_exchange_of in Hfind. apply find_In in Hfind as [_ Hp].
  apply andb_true_iff in Hp as [Hp _]. apply andb_true_iff in Hp as [Hpart _].
  exists (exchange_data u e'). rewrite exchanges_context_lists.
  cbn [active_exchanges]. split; [|split; [exact Hpk|]].
  - apply in_map. apply filter_In. split.
    + apply all_exchanges_In. split; [exact Hin|].
      rewrite Hu1, Hu2. unfold user_eqb in Hpart.
      apply orb_true_iff in Hpart. rewrite !Z.eqb_eq in Hpart. exact Hpart.
    + rewrite Hst. reflexivity.
  - unfold exchange_data. cbn [xd_my_completed xd_their_completed].
    rewrite Hu1, Hc1, Hc2, (user_eqb_sym (user1 e) u).
    destruct (user_eqb u (user1 e)); simpl.
    + rewrite orb_true_r, orb_false_r. auto.
    + rewrite orb_true_r, orb_false_r. auto.
Qed.

(** ** Matches, further *)

Lemma matches_loop_grows (upper : string -> string) (db : DB) (u : User)
    (rows : list UserSkill) (acc : list Match) :
  (List.length acc <= List.length (matches_loop upper db u rows acc))%nat.
Proof.
  revert acc; induction rows as [|r rows IH]; intros acc; cbn [matches_loop].
  - lia.
  - destruct (their_seeking db u (user r)) as [their|]; [|apply IH].
    destruct (3 <=? List.length (acc ++ [match_entry upper r their]))%nat.
    + rewrite length_app. simpl. lia.
    + specialize (IH (acc ++ [match_entry upper r their])).
      rewrite length_app in IH. simpl in IH. lia.
Qed.

Lemma matches_loop_none (upper : string -> string) (db : DB) (u : User)
    (rows : list UserSkill) :
  matches_loop upper db u rows [] = []
  <-> forall r, In r rows -> their_seeking db u (user r) = None.
Proof.
  induction rows as [|r rows IH]; cbn [matches_loop].
  - split; [intros _ r []|reflexivity].
  - destruct (their_seeking db u (user r)) as [their|] eqn:Hseek.
    + split.
      * intros H. exfalso.
        assert (Hlen : (1 <= List.length
                               (if (3 <=? List.length ([] ++ [match_entry upper r their]))%nat
                                then [] ++ [match_entry upper r their]
                                else matches_loop upper db u rows
                                       ([] ++ [match_entry upper r their])))%nat).
        { destruct (3 <=? _)%nat; [simpl; lia|].
          pose proof (matches_loop_grows upper db u rows
                        ([] ++ [match_entry upper r their])) as Hg.
          simpl in Hg. simpl. lia. }
        rewrite H in Hlen. simpl in Hlen. lia.
      * intros H. specialize (H r (or_introl eq_refl)). congruence.
    + rewrite IH. split.
      * intros H r' [<-|Hin]; auto.
      * intros H r' Hin. apply H. right. exact Hin.
Qed.

(** X26.  [dashboard_view] shows no match exactly when the user seeks no
    skill, or offers none, or none of the first ten offers by others of a
    sought skill comes from a user who seeks a skill the user offers. *)
Theorem find_matches_empty_iff :
  forall (upper : string -> string) (db : DB) (u : User),
    find_matches upper db u = []
    <-> my_seeking_skills db u = [] \/ my_offering_skills db u = []
        \/ forall r, In r (potential_matches db u) ->
                     their_seeking db u (user r) = None.
Proof.
  intros upper db u. unfold find_matches.
  destruct (my_seeking_skills db u) as [|s ss] eqn:Hs;
    [split; auto|].
  destruct (my_offering_skills db u) as [|o os] eqn:Ho;
    [split; auto|].
  rewrite matches_loop_none. split.
  - auto.
  - intros [H|[H|H]]; [discriminate|discriminate|exact H].
Qed.

(** * Instances of the further properties *)

Lemma db_after_unique (n : nat) : exchange_pk_unique (db_after n).
Proof.
  unfold db_after. generalize (firstn n lifecycle) as ops.
  assert (H : forall ops db, exchange_pk_unique db ->
                             exchange_pk_unique (apply_ops decimal db ops)).
  { induction ops as [|[now op] ops IH]; intros db Hdb; simpl; [assumption|].
    apply IH. destruct op; cbn [apply_op].
    - unfold start_exchange, login_required; handler_cases; cbn [res_db];
        auto using Exchange_create_unique.
    - unfold propose_exchange_view, login_required; handler_cases; cbn [res_db];
        auto using Exchange_create_unique.
    - unfold accept_exchange, login_required; handler_cases; cbn [res_db];
        auto using Exchange_save_unique.
    - unfold reject_exchange, login_required; handler_cases; cbn [res_db];
        auto using Exchange_save_unique.
    - unfold mark_exchange_complete, login_required, require_POST;
        handler_cases; cbn [res_db]; auto using Exchange_save_unique.
    - unfold admin_approve_exchange, staff_member_required, require_POST;
        handler_cases; cbn [res_db]; auto using Exchange_save_unique.
    - apply approve_exchanges_unique; assumption.
    - unfold mark_pending_approval; cbn [fst].
      apply Exchange_update_unique; [reflexivity|assumption].
    - unfold reset_completion; cbn [fst].
      apply Exchange_update_unique; [reflexivity|assumption]. }
  intros ops. apply H. unfold exchange_pk_unique. simpl. constructor.
Qed.

Lemma exchange_pk_unique_preserved_witness :
  exchange_pk_unique (db_after 1)
  /\ exchange_pk_unique
       (apply_op decimal 15 (db_after 1) (Start (post_as bob []) 1 1)).
Proof.
  split; [apply db_after_unique|].
  apply (exchange_pk_unique_preserved decimal 15 (db_after 1)
           (Start (post_as bob []) 1 1) (db_after_unique 1)).
Defined.

Lemma reject_exchange_spec_witness :
  let r := reject_exchange 20 (db_after 1) (post_as bob []) 1 in
  res_db r = Exchange_save 20 (set_status cancelled exchange_pending) (db_after 1)
  /\ res_response r = Redirect "dashboard" None.
Proof.
  assert (Hfind : pending_exchange_for (db_after 1) bob 1 = Some exchange_pending)
    by by_computation.
  pose proof (reject_exchange_spec 20 (db_after 1) (post_as bob []) bob 1
                eq_refl) as H.
  cbv zeta in H. rewrite Hfind in H.
  destruct H as (Hdb & _ & _ & Hr). cbv zeta. split; assumption.
Defined.

Lemma start_exchange_spec_witness :
  exists teach,
    us_pk teach = 1
    /\ exchanges (res_db (start_exchange 10 db0 (post_as alice []) 2 3))
       = exchanges db0
         ++ [mkExchange (next_pk (map ex_pk (exchanges db0))) alice bob
               (Some (skill teach)) (Some chess) pending
               10 None "" 10 false false None None false None ""].
Proof.
  assert (Hfind : find (fun us => (us_pk us =? 3) && (user_pk (user us) =? 2))
                    (user_skills db0)
                  = Some (mkUserSkill 3 bob chess offer expert 9))
    by by_computation.
  pose proof (start_exchange_spec 10 db0 (post_as alice []) alice 2 3
                (mkUserSkill 3 bob chess offer expert 9) eq_refl Hfind) as H.
  cbv zeta in H. destruct H as (_ & H).
  assert (Hmine : filter (fun us => user_eqb (user us) alice
                                    && role_eqb (role us) offer)
                    (user_skills db0)
                  = [mkUserSkill 1 alice guitar offer advanced 5])
    by by_computation.
  rewrite Hmine in H.
  destruct H as (teach & Hin & _ & Hex & _); [discriminate|].
  exists teach. split; [|exact Hex].
  destruct Hin as [<-|[]]. reflexivity.
Defined.

Lemma start_exchange_allows_self_witness :
  exists e,
    exchanges (res_db (start_exchange 10 db0 (post_as alice []) (user_pk alice) 1))
    = exchanges db0 ++ [e]
    /\ user_pk (user1 e) = user_pk (user2 e)
    /\ status e = pending.
Proof.
  assert (Hfind : find (fun us => (us_pk us =? 1)
                                  && (user_pk (user us) =? user_pk alice))
                    (user_skills db0)
                  = Some (mkUserSkill 1 alice guitar offer advanced 5))
    by by_computation.
  exact (start_exchange_allows_self 10 db0 (post_as alice []) alice 1
           (mkUserSkill 1 alice guitar offer advanced 5) eq_refl Hfind eq_refl).
Defined.

Lemma anonymous_request_changes_nothing_witness :
  accept_exchange 20 (db_after 1) anonymous 1
  = mkResult (db_after 1) [] RedirectToLogin
  /\ mark_exchange_complete 20 (db_after 1) anonymous 1
     = mkResult (db_after 1) [] RedirectToLogin.
Proof.
  pose proof (anonymous_request_changes_nothing decimal 20 (db_after 1)
                anonymous 1 1 None eq_refl) as H.
  cbv zeta in H. destruct H as (_ & _ & Ha & _ & Hm & _).
  split; assumption.
Defined.

Lemma non_staff_changes_nothing_witness :
  admin_approve_exchange 50 (db_after 4) (post_as alice []) 1
  = mkResult (db_after 4) [] RedirectToLogin.
Proof.
  assert (Hstaff : is_active alice && is_staff alice = false) by reflexivity.
  pose proof (non_staff_changes_nothing 50 (db_after 4) (post_as alice [])
                alice 1 eq_refl Hstaff) as H.
  cbv zeta in H. destruct H as (H & _). exact H.
Defined.

Lemma other_method_changes_nothing_witness :
  mark_exchange_complete 30 (db_after 2) (get_as alice) 1
  = mkResult (db_after 2) [] Http405.
Proof.
  assert (Hm : method (get_as alice) <> POST) by discriminate.
  pose proof (other_method_changes_nothing 30 (db_after 2) (get_as alice)
                alice 1 eq_refl Hm) as H.
  cbv zeta in H. destruct H as (H & _). exact H.
Defined.

Lemma mark_exchange_complete_first_witness :
  exists stored,
    active_exchange_of
      (res_db (mark_exchange_complete 30 (db_after 2) (post_as alice []) 1))
      alice 1 = Some stored
    /\ own_completed alice stored = true.
Proof.
  assert (Hfind : active_exchange_of (db_after 2) alice 1 = Some exchange_active)
    by by_computation.
  assert (Hown : own_completed alice exchange_active = false) by reflexivity.
  pose proof (mark_exchange_complete_first 30 (db_after 2) (post_as alice [])
                alice 1 exchange_active eq_refl eq_refl Hfind Hown) as H.
  cbv zeta in H. destruct H as (stored & Hf & Ho & _).
  exists stored. split; assumption.
Defined.

Lemma both_marks_await_approval_witness :
  exists stored,
    find (fun x => ex_pk x =? 1)
         (exchanges
            (res_db (mark_exchange_complete 40
                       (res_db (mark_exchange_complete 30 (db_after 2)
                                  (post_as bob []) 1))
                       (post_as alice []) 1)))
    = Some stored
    /\ both_users_completed stored = true
    /\ status stored = active
    /\ completion_status stored = "Awaiting Admin Approval".
Proof.
  assert (Hfind : active_exchange_of (db_after 2) alice 1 = Some exchange_active)
    by by_computation.
  pose proof (both_marks_await_approval 30 40 (db_after 2) (post_as alice [])
                (post_as bob []) alice bob 1 exchange_active
                (db_after_unique 2) eq_refl eq_refl eq_refl eq_refl Hfind
                eq_refl eq_refl eq_refl eq_refl) as H.
  cbv zeta in H. apply H. right. reflexivity.
Defined.

Lemma mark_exchange_complete_unresolved_witness :
  mark_exchange_complete 30 (db_after 2) (post_as staff []) 1
  = mkResult (db_after 2) [] Http404.
Proof.
  apply (mark_exchange_complete_unresolved 30 (db_after 2) (post_as staff [])
           staff 1 eq_refl eq_refl).
  intros e Hin _. right.
  assert (Hrows : exchanges (db_after 2) = [exchange_active]) by by_computation.
  rewrite Hrows in Hin. destruct Hin as [<-|[]].
  split; discriminate.
Defined.

Lemma exchange_decision_is_final_witness :
  let db' := res_db (accept_exchange 20 (db_after 1) (post_as bob []) 1) in
  accept_exchange 25 db' (post_as bob []) 1 = mkResult db' [] Http404
  /\ reject_exchange 25 db' (post_as bob []) 1 = mkResult db' [] Http404.
Proof.
  assert (Hfind : pending_exchange_for (db_after 1) bob 1 = Some exchange_pending)
    by by_computation.
  cbv zeta.
  apply (exchange_decision_is_final 20 (db_after 1) (post_as bob []) bob 1
           exchange_pending eq_refl Hfind _ (or_introl eq_refl)
           25 (post_as bob []) bob eq_refl).
Defined.

Lemma admin_approval_is_final_witness :
  let db1 := res_db (admin_approve_exchange 50 (db_after 4) (post_as staff []) 1) in
  admin_approve_exchange 60 db1 (post_as staff []) 1
  = mkResult db1 [mkNotice INFO "This exchange has already been approved."]
      (Redirect "admin_exchanges" None)
  /\ mark_exchange_complete 60 db1 (post_as alice []) 1
     = mkResult db1 [] Http404.
Proof.
  assert (Hfind : find (fun e => ex_pk e =? 1) (exchanges (db_after 4))
                  = Some exchange_both) by by_computation.
  assert (Hstaff : is_active staff && is_staff staff = true) by reflexivity.
  assert (Hboth : both_users_completed exchange_both = true) by reflexivity.
  assert (Hnot : admin_approved exchange_both = false) by reflexivity.
  pose proof (admin_approval_is_final 50 (db_after 4) (post_as staff []) staff 1
                exchange_both eq_refl Hstaff eq_refl Hfind Hboth Hnot) as H.
  cbv zeta in H. destruct H as (Hagain & Hmark & _).
  cbv zeta. split; [apply Hagain|].
  apply (Hmark 60 (post_as alice []) alice eq_refl eq_refl).
Defined.

Lemma approve_exchanges_rowwise_witness :
  fst (approve_exchanges 50 (db_after 4) [1; 7])
  = with_exchanges (db_after 4)
      (map (fun row => if in_queryset [1; 7] row && ready_for_approval row
                       then approved_row 50 row else row)
           (exchanges (db_after 4))).
Proof.
  rewrite (approve_exchanges_rowwise 50 (db_after 4) [1; 7] (db_after_unique 4)).
  reflexivity.
Defined.

Lemma admin_toggle_staff_twice_witness :
  exists stored,
    find (fun u => user_pk u =? 2)
         (users (res_db (admin_toggle_staff
                           (res_db (admin_toggle_staff db0 (post_as staff []) 2))
                           (post_as staff []) 2)))
    = Some stored
    /\ is_staff stored = is_staff bob
    /\ is_superuser stored = is_staff bob.
Proof.
  assert (Hfind : find (fun u => user_pk u =? 2) (users db0) = Some bob)
    by by_computation.
  assert (Hstaff : is_active staff && is_staff staff = true) by reflexivity.
  assert (Hother : user_eqb bob staff = false) by reflexivity.
  pose proof (admin_toggle_staff_twice db0 (post_as staff []) staff 2 bob
                eq_refl Hstaff eq_refl Hfind Hother) as H.
  cbv zeta in H. destruct H as (stored & Hf & Hs & Hsu & _).
  exists stored. split; [exact Hf|]. split; assumption.
Defined.

Lemma admin_delete_user_spec_witness :
  let r := admin_delete_user (db_after 1) (post_as staff []) 2 in
  map level (res_notices r) = [SUCCESS]
  /\ (forall e, In e (exchanges (res_db r)) <->
                In e (exchanges (db_after 1)) /\ user_pk (user1 e) <> 2
                /\ user_pk (user2 e) <> 2).
Proof.
  assert (Hfind : find (fun u => user_pk u =? 2) (users (db_after 1)) = Some bob)
    by by_computation.
  assert (Hstaff : is_active staff && is_staff staff = true) by reflexivity.
  assert (Hother : user_eqb bob staff = false) by reflexivity.
  pose proof (admin_delete_user_spec (db_after 1) (post_as staff []) staff 2 bob
                eq_refl Hstaff eq_refl Hfind) as H.
  cbv zeta in H. destruct H as (_ & H).
  destruct (H Hother) as (Hn & _ & _ & _ & He & _).
  cbv zeta. split; assumption.
Defined.

Lemma messages_view_open_thread_witness :
  let r := messages_view 9 db_mail (get_as alice) (Some 2) in
  exists msgs,
    res_response r
    = Render "messages.html"
        (MessagesContext (conversations_of db_mail alice) (Some bob) msgs)
    /\ unread_from (res_db r) 2 (user_pk alice) = []
    /\ StronglySorted (fun a b => timestamp a <= timestamp b) msgs.
Proof.
  assert (Hm : method (get_as alice) <> POST) by discriminate.
  assert (Hnz : 2 <> 0) by discriminate.
  assert (Hfind : find (fun u => user_pk u =? 2) (users db_mail) = Some bob)
    by by_computation.
  pose proof (messages_view_open_thread 9 db_mail (get_as alice) alice 2 bob
                eq_refl Hm Hnz Hfind) as H.
  cbv zeta in H. destruct H as (msgs & Hr & _ & Hu & _ & _ & _ & Hs).
  cbv zeta. exists msgs. split; [exact Hr|]. split; assumption.
Defined.

Lemma messages_view_without_thread_witness :
  messages_view 9 db_mail (post_as alice [("content", "hello")]) None
  = mkResult db_mail []
      (Render "messages.html"
         (MessagesContext (conversations_of db_mail alice) None []))
  /\ messages_view 9 db_mail (get_as alice) (Some 8) = mkResult db_mail [] Http404.
Proof.
  pose proof (messages_view_without_thread 9 db_mail
                (post_as alice [("content", "hello")]) alice eq_refl) as H1.
  pose proof (messages_view_without_thread 9 db_mail (get_as alice) alice
                eq_refl) as H2.
  destruct H1 as (H1 & _). destruct H2 as (_ & H2).
  split; [apply H1; left; reflexivity|].
  apply H2; [discriminate|by_computation].
Defined.

Lemma propose_exchange_view_post_witness :
  let request :=
    post_as alice [("my_skill", "3"); ("my_skill", "1"); ("notes", "hi")] in
  exists mine key,
    us_pk mine = 1
    /\ ~ In key (map ex_pk (exchanges db0))
    /\ exchanges (res_db (propose_exchange_view decimal 10 db0 request 3))
       = exchanges db0
         ++ [mkExchange key alice bob (Some (skill mine)) (Some chess) pending
               10 None
               match QueryDict_get (POST_data request) "notes" with
               | Some v => v
               | None => ""
               end
               10 false false None None false None ""].
Proof.
  assert (Hfind : find (fun us => (us_pk us =? 3) && role_eqb (role us) offer)
                    (user_skills db0)
                  = Some (mkUserSkill 3 bob chess offer expert 9))
    by by_computation.
  assert (Hother : user_eqb (user (mkUserSkill 3 bob chess offer expert 9)) alice
                   = false) by reflexivity.
  pose proof (propose_exchange_view_post decimal 10 db0
                (post_as alice [("my_skill", "3"); ("my_skill", "1");
                                ("notes", "hi")])
                alice 3 (mkUserSkill 3 bob chess offer expert 9)
                eq_refl eq_refl Hfind Hother) as H.
  cbv zeta in H. destruct H as (_ & H).
  assert (Hchosen : QueryDict_get
                      (POST_data
                         (post_as alice [("my_skill", "3"); ("my_skill", "1");
                                         ("notes", "hi")]))
                      "my_skill" = Some "1") by by_computation.
  assert (Hne : "1" <> "") by discriminate.
  destruct (H "1" Hchosen Hne) as (_ & _ & Hok).
  assert (Hint : decimal "1" = Some 1) by by_computation.
  destruct (Hok 1 Hint) as (mine & key & _ & Hk & _ & _ & Hfresh & Hex & _).
  { exists (mkUserSkill 1 alice guitar offer advanced 5).
    split; [left; reflexivity|]. repeat split. }
  cbv zeta. exists mine, key. split; [exact Hk|]. split; [exact Hfresh|exact Hex].
Defined.

Lemma marked_exchange_shows_completed_witness :
  exists d,
    In d (active_exchanges
            (exchanges_context
               (res_db (mark_exchange_complete 30 (db_after 2) (post_as alice []) 1))
               alice))
    /\ xd_id d = 1
    /\ xd_my_completed d = true.
Proof.
  assert (Hfind : active_exchange_of (db_after 2) alice 1 = Some exchange_active)
    by by_computation.
  pose proof (marked_exchange_shows_completed 30 (db_after 2) (post_as alice [])
                alice 1 exchange_active eq_refl eq_refl Hfind) as H.
  cbv zeta in H. destruct H as (d & Hin & Hid & Hmy & _).
  exists d. split; [exact Hin|]. split; assumption.
Defined.
